(** * Hotel churn data pipeline: generator, quality gate, retention, orchestration

    A shallow embedding of [src/data_generator.py], [src/quality_check.py]
    and [src/ingest.py], and the properties of the specification that can
    be stated over it.

    Conventions of the embedding
    - a [date] is a day ordinal in [Z]; a [datetime] is a number of
      microseconds in [Z] ([usec_per_day] of them per day).  The year range
      of the runtime's date type is not modelled, and the clock readings of
      one call are taken at one instant [now];
    - a Python float is an exact rational ([Q]); [int(x)] is truncation
      toward zero, [round(x, 2)] rounds to the nearest hundredth;
    - the two pseudo-random generators the program draws from (the [random]
      module and the generator owned by [fake]) are tapes of raw draws: every
      primitive consumes one raw draw and maps it into the range the library
      documents ([random()] into [[0, 1)], a normal variate anywhere).  A
      tape that runs out keeps yielding [0];
    - the database is three tables held as lists, with the foreign keys
      declared in [src/schema.py] enforced on INSERT and on DELETE;
    - a DataFrame is modelled at the dtypes its schema asks for, so the
      [except Exception] arms of the validators have nothing to catch;
    - an exception is a value of [exn]; a call that can raise returns a
      [result].  [fake.date_between] raises [ValueError] on a range whose
      end date is before its start date, and so does the booking
      generator, whose loop calls it at least once.  Console output is
      modelled for the validators only. *)

From Stdlib Require Import ZArith QArith Qround List String Bool Lia Lqa.
From Stdlib Require Import DecimalString.
Import ListNotations.

Local Open Scope Z_scope.

(** ** Time *)

Definition date := Z.
Definition datetime := Z.

Definition usec_per_day : Z := 86400000000.

(** [timedelta(days=n)] as a number of microseconds. *)
Definition timedelta_days (n : Z) : Z := n * usec_per_day.

(** [td.days]: the day component of a normalised timedelta (floor). *)
Definition td_days (td : Z) : Z := td / usec_per_day.

(** [dt.date()]. *)
Definition date_of (dt : datetime) : date := dt / usec_per_day.

(** A date compared with a timestamp is read as that day's midnight. *)
Definition midnight (d : date) : datetime := d * usec_per_day.

(** ** Floats as rationals *)

Definition Qltb (a b : Q) : bool :=
  match (a ?= b)%Q with Lt => true | _ => false end.

(** [int(x)]: truncation toward zero. *)
Definition py_int (x : Q) : Z :=
  if Qle_bool 0 x then Qfloor x else Qceiling x.

(** Nearest integer, ties to even. *)
Definition round_half_even (x : Q) : Z :=
  let f := Qfloor x in
  match (x - inject_Z f ?= 1 # 2)%Q with
  | Lt => f
  | Gt => f + 1
  | Eq => if Z.even f then f else f + 1
  end.

(** [round(x, 2)]. *)
Definition py_round2 (x : Q) : Q :=
  (inject_Z (round_half_even (x * 100)) / 100)%Q.

(** ** Exceptions *)

Inductive exn : Type :=
| IndexError       (* random.choice on an empty sequence *)
| IntegrityError   (* a foreign key still references a deleted row *)
| OperationalError (* the storage engine is unreachable *)
| ValueError       (* fake.date_between on a range that ends before it starts *).

Inductive result (A : Type) : Type :=
| Ok (a : A)
| Raise (e : exn).
Arguments Ok {A} a.
Arguments Raise {A} e.

(** ** The random source *)

Record RandomSource : Type := mkRandomSource {
  py_tape    : list Q;   (* the [random] module's generator *)
  faker_tape : list Q    (* the generator behind [fake] *)
}.

Definition Rand (A : Type) : Type := RandomSource -> A * RandomSource.

Definition ret {A} (a : A) : Rand A := fun s => (a, s).

Definition bind {A B} (m : Rand A) (k : A -> Rand B) : Rand B :=
  fun s => let (a, s') := m s in k a s'.

Declare Scope rand_scope.
Delimit Scope rand_scope with rand.
Notation "x <- m ;; k" := (bind m (fun x => k))
  (at level 61, m at next level, right associativity) : rand_scope.

Definition next_raw (t : list Q) : Q * list Q :=
  match t with
  | [] => (0%Q, [])
  | q :: t' => (q, t')
  end.

(** Fractional part: a value of [[0, 1)]. *)
Definition frac (q : Q) : Q := (q - inject_Z (Qfloor q))%Q.

Definition draw_py : Rand Q := fun s =>
  let (q, t) := next_raw (py_tape s) in
  (q, mkRandomSource t (faker_tape s)).

Definition draw_faker : Rand Q := fun s =>
  let (q, t) := next_raw (faker_tape s) in
  (q, mkRandomSource (py_tape s) t).

Local Open Scope rand_scope.

(** [random.random()]: a float of [[0.0, 1.0)]. *)
Definition random_random : Rand Q :=
  q <- draw_py ;; ret (frac q).

(** [random.uniform(a, b)] is [a + (b - a) * random()]. *)
Definition random_uniform (a b : Q) : Rand Q :=
  r <- random_random ;; ret (a + (b - a) * r)%Q.

(** [random.gauss(mu, sigma)] is [mu + z * sigma] for a standard normal
    variate [z], whose support is unbounded: the raw draw is [z]. *)
Definition random_gauss (mu sigma : Q) : Rand Q :=
  z <- draw_py ;; ret (mu + z * sigma)%Q.

(** The library's [_randbelow(n)]: an index of [[0, n)]. *)
Definition randbelow (n : Z) : Rand Z :=
  r <- random_random ;; ret (Qfloor (r * inject_Z n)).

(** [random.randint(a, b)] is [a + _randbelow(b - a + 1)]. *)
Definition random_randint (a b : Z) : Rand Z :=
  i <- randbelow (b - a + 1) ;; ret (a + i).

(** [random.choice(seq)]: [seq[_randbelow(len(seq))]], [IndexError] on an
    empty sequence. *)
Definition random_choice {A} (seq : list A) : Rand (result A) :=
  match seq with
  | [] => ret (Raise IndexError)
  | x :: _ =>
      i <- randbelow (Z.of_nat (List.length seq)) ;;
      ret (Ok (nth (Z.to_nat i) seq x))
  end.

(** [random.choice] on a list literal, which is never empty. *)
Definition random_choice_lit {A} (x : A) (xs : list A) : Rand A :=
  i <- randbelow (Z.of_nat (List.length (x :: xs))) ;;
  ret (nth (Z.to_nat i) (x :: xs) x).

(** The draw behind [fake.date_between]: a timestamp drawn uniformly
    between the two midnights, then its date. *)
Definition uniform_date (start_date end_date : date) : Rand date :=
  q <- draw_faker ;;
  ret (Qfloor (inject_Z start_date
               + (inject_Z end_date - inject_Z start_date) * frac q)%Q).

(** [fake.date_between(start_date, end_date)] with two dates.  The library
    refuses a range whose start is after its end: it raises [ValueError]
    before anything is drawn. *)
Definition fake_date_between (start_date end_date : date)
  : Rand (result date) :=
  if end_date <? start_date then ret (Raise ValueError)
  else d <- uniform_date start_date end_date ;; ret (Ok d).

(** [for _ in range(n): xs.append(body())]. *)
Fixpoint for_range {A} (n : nat) (body : Rand A) : Rand (list A) :=
  match n with
  | O => ret []
  | S n' => x <- body ;; xs <- for_range n' body ;; ret (x :: xs)
  end.

(** The same loop around a body that can raise: the first exception ends
    the loop and is the outcome of the whole. *)
Fixpoint for_range_try {A} (n : nat) (body : Rand (result A))
  : Rand (result (list A)) :=
  match n with
  | O => ret (Ok [])
  | S n' =>
      x <- body ;;
      match x with
      | Raise e => ret (Raise e)
      | Ok a =>
          xs <- for_range_try n' body ;;
          match xs with
          | Raise e => ret (Raise e)
          | Ok l => ret (Ok (a :: l))
          end
      end
  end.

Local Close Scope rand_scope.

(** ** Entity model ([src/schema.py]) *)

Local Open Scope string_scope.
Local Open Scope list_scope.
Local Open Scope Z_scope.

(** The three values [generate_customers] draws for [job_category] and
    [customer_schema] admits. *)
Inductive JobCategory : Type :=
| business_traveler
| vacation_traveler
| occasional_visitor.

Module Customer.
(** A persisted row of [customers]; [customer_id] is the autoincrement
    primary key. *)
Record t : Type := mk {
  customer_id  : Z;
  join_date    : date;
  age          : Z;
  job_category : JobCategory
}.
End Customer.

(** A [Customer(...)] object before it is flushed: it has no primary key
    yet. *)
Record NewCustomer : Type := mkNewCustomer {
  new_join_date    : date;
  new_age          : Z;
  new_job_category : JobCategory
}.

Module Booking.
(** The columns of [bookings] that the program reads or writes.  The
    [booking_id] key is a fresh UUID filled in by the database and is
    read by none of the functions below: rows are told apart by their
    position in the table. *)
Record t : Type := mk {
  customer_id      : Z;
  check_in_date    : date;
  check_out_date   : date;
  amount_spent     : Q;
  room_type        : string;
  booking_channel  : string;
  num_adults       : Z;
  num_children     : Z;
  special_requests : string;
  status           : string
}.
End Booking.

Module SupportLog.
Record t : Type := mk {
  customer_id : Z;
  date        : datetime;
  log_text    : string
}.
End SupportLog.

(** ** Configuration

    [config/config.yaml] is not among the sources: the configuration is a
    parameter of every function that reads it, with one field per key the
    code looks up. *)

Record Segment : Type := mkSegment {
  avg_nights_per_stay : Q
}.

Record Config : Type := mkConfig {
  customer_segments      : JobCategory -> Segment;
  cancellation_rate      : Q;       (* business_rules *)
  new_customers_per_week : nat;     (* data_generation.weekly *)
  bookings_per_week      : nat;     (* data_generation.weekly *)
  max_booking_amount     : Q;       (* quality_checks *)
  min_nights_stay        : Z;       (* quality_checks *)
  max_nights_stay        : Z        (* quality_checks *)
}.

(** ** Generator engine ([src/data_generator.py]) *)

Definition job_categories : list JobCategory :=
  [business_traveler; vacation_traveler; occasional_visitor].

Definition room_types : list string := ["Queen Bed"; "King Bed"; "Suite"].

Definition channels : list string :=
  ["Direct Website"; "Agent"; "OTA (Booking.com)"; "Walk-in"].

Definition statuses : list string := ["Checked-Out"; "Cancelled"; "No-Show"].

Definition special_requests_options : list string :=
  ["None"; "Pet Friendly"; "Accessible Room"; "Crib"; "High Floor"].

(** [base_price[room_type]]; the key is always one of [room_types]. *)
Definition base_price (room : string) : Z :=
  if String.eqb room "Queen Bed" then 120
  else if String.eqb room "King Bed" then 150
  else if String.eqb room "Suite" then 300
  else 0.

Local Open Scope rand_scope.

(** [fake.date_between(start_date='-4y', end_date='today')]: the library
    reads a year as 365.24 days and adds the whole days to today.  This
    start is 1461 days before the end, so the range is never refused and
    the date is drawn. *)
Definition four_years_before (today : date) : date :=
  today + Qfloor (- (36524 # 100) * 4)%Q.

Definition generate_customers (today : date) (num_customers : nat)
  : Rand (list NewCustomer) :=
  for_range num_customers
    (jd  <- uniform_date (four_years_before today) today ;;
     a   <- random_randint 21 75 ;;
     cat <- random_choice_lit business_traveler
              [vacation_traveler; occasional_visitor] ;;
     ret (mkNewCustomer jd a cat)).

Section Generator.

Variable config : Config.

(** One turn of the booking loop of [generate_bookings_for_customer].  The
    two ends of the range are datetimes, of which [fake.date_between] keeps
    the dates. *)
Definition generate_booking (customer : Customer.t)
    (start_date end_date : datetime) : Rand (result Booking.t) :=
  let segment := customer_segments config (Customer.job_category customer) in
  drawn <- fake_date_between (date_of start_date) (date_of end_date) ;;
  match drawn with
  | Raise e => ret (Raise e)
  | Ok check_in =>
      let avg_nights := avg_nights_per_stay segment in
      g <- random_gauss avg_nights 2 ;;
      let nights := Z.max 1 (py_int g) in
      let check_out := check_in + nights in
      room_type <- random_choice_lit "Queen Bed" ["King Bed"; "Suite"] ;;
      u <- random_uniform 0.8 1.2 ;;
      let amount :=
        (inject_Z (base_price room_type) * inject_Z nights * u)%Q in
      r <- random_random ;;
      status <- (if Qltb r (cancellation_rate config)
                 then random_choice_lit "Cancelled" ["No-Show"]
                 else ret "Checked-Out") ;;
      channel  <- random_choice_lit "Direct Website"
                    ["Agent"; "OTA (Booking.com)"; "Walk-in"] ;;
      adults   <- random_randint 1 4 ;;
      children <- random_randint 0 3 ;;
      special  <- random_choice_lit "None"
                    ["Pet Friendly"; "Accessible Room"; "Crib"; "High Floor"] ;;
      ret (Ok (Booking.mk (Customer.customer_id customer) check_in check_out
                 (py_round2 amount) room_type channel adults children special
                 status))
  end.

(** The number of bookings before the random factor is applied. *)
Definition base_num_bookings (customer : Customer.t)
    (start_date end_date : datetime) : Z :=
  let days_in_range := td_days (end_date - start_date) in
  let years_in_range := (inject_Z days_in_range / 365)%Q in
  match Customer.job_category customer with
  | business_traveler => py_int (years_in_range * 12)
  | vacation_traveler => py_int (years_in_range * 4)
  | occasional_visitor => py_int (years_in_range * 1)
  end.

(** The loop runs at least once, so an exception of its body is raised
    whatever the number of bookings. *)
Definition generate_bookings_for_customer (customer : Customer.t)
    (start_date end_date : datetime) : Rand (result (list Booking.t)) :=
  let num_bookings := base_num_bookings customer start_date end_date in
  f <- random_uniform 0.5 1.5 ;;
  let num_bookings := Z.max 1 (py_int (inject_Z num_bookings * f)) in
  for_range_try (Z.to_nat num_bookings)
    (generate_booking customer start_date end_date).

End Generator.

Local Close Scope rand_scope.

(** ** Storage ([src/schema.py], [src/database.py])

    The three tables, and the sequence behind the autoincrement key of
    [customers]. *)

Record Database : Type := mkDatabase {
  customers        : list Customer.t;
  bookings         : list Booking.t;
  support_logs     : list SupportLog.t;
  next_customer_id : Z
}.

(** [session.add_all(customers); session.commit()]: every object receives
    the next value of the sequence. *)
Fixpoint assign_ids (next : Z) (news : list NewCustomer) : list Customer.t :=
  match news with
  | [] => []
  | n :: rest =>
      Customer.mk next (new_join_date n) (new_age n) (new_job_category n)
        :: assign_ids (next + 1) rest
  end.

Definition add_all_customers (news : list NewCustomer) (db : Database)
  : list Customer.t * Database :=
  let saved := assign_ids (next_customer_id db) news in
  (saved,
   mkDatabase (customers db ++ saved) (bookings db) (support_logs db)
     (next_customer_id db + Z.of_nat (List.length news))).

Definition has_customer (cs : list Customer.t) (id : Z) : bool :=
  existsb (fun c => Customer.customer_id c =? id) cs.

(** [session.add_all(bookings); session.commit()]: the insert is refused,
    and the transaction rolled back, when a [customer_id] references no
    row of [customers]. *)
Definition add_all_bookings (bs : list Booking.t) (db : Database)
  : result unit * Database :=
  if forallb (fun b => has_customer (customers db) (Booking.customer_id b)) bs
  then (Ok tt,
        mkDatabase (customers db) (bookings db ++ bs) (support_logs db)
          (next_customer_id db))
  else (Raise IntegrityError, db).

(** ** Weekly generation ([generate_weekly_data]) *)

Local Open Scope rand_scope.

Section Weekly.

Variable config : Config.

(** The per-slot loop: [random.choice(all_customers)], then the first
    booking generated for that customer. *)
Fixpoint weekly_slots (n : nat) (all_customers : list Customer.t)
    (start_date end_date : datetime) : Rand (result (list Booking.t)) :=
  match n with
  | O => ret (Ok [])
  | S n' =>
      c <- random_choice all_customers ;;
      match c with
      | Raise e => ret (Raise e)
      | Ok customer =>
          generated <- generate_bookings_for_customer config customer
                         start_date end_date ;;
          match generated with
          | Raise e => ret (Raise e)
          | Ok bookings =>
              rest <- weekly_slots n' all_customers start_date end_date ;;
              match rest with
              | Raise e => ret (Raise e)
              | Ok all_bookings =>
                  ret (Ok (match bookings with
                           | b :: _ => b :: all_bookings
                           | [] => all_bookings
                           end))
              end
          end
      end
  end.

(** [generate_weekly_data()] at instant [now].  The new customers are
    committed before the bookings are drawn, so a later failure rolls
    back the bookings only. *)
Definition generate_weekly_data (now : datetime) (db : Database)
  : Rand (result unit * Database) :=
  new_customers <- generate_customers (date_of now)
                     (new_customers_per_week config) ;;
  let (new_customers, db1) := add_all_customers new_customers db in
  let num_bookings := bookings_per_week config in
  let existing_customers := customers db1 in
  let all_customers := existing_customers ++ new_customers in
  let start_date := now - timedelta_days 7 in
  let end_date := now in
  slots <- weekly_slots num_bookings all_customers start_date end_date ;;
  match slots with
  | Raise e => ret (Raise e, db1)
  | Ok all_bookings => ret (add_all_bookings all_bookings db1)
  end.

End Weekly.

Local Close Scope rand_scope.

Local Open Scope rand_scope.

(** ** Support logs and the historical load
       ([generate_support_logs_for_customer], [generate_historical_data]) *)

Definition complaint_templates : list string :=
  ["Guest complained about slow Wi-Fi in room.";
   "Customer reported noisy neighbors on floor above.";
   "Request for late checkout was denied, guest unhappy.";
   "Room service took over 2 hours to deliver food.";
   "Air conditioning not working properly, maintenance called.";
   "Guest praised the friendly staff and mountain view.";
   "Complimentary upgrade to suite, customer very satisfied.";
   "Billing error resolved, guest appreciative of quick response.";
   "Guest requested extra blankets due to cold weather.";
   "Heating system malfunction reported, technician dispatched."].

(** The start of [fake.date_time_between(start_date='-2y', end_date='now')]:
    the library reads a year as 365.24 days. *)
Definition two_years_before (now : datetime) : datetime :=
  now - Qfloor ((36524 # 100) * 2 * inject_Z usec_per_day)%Q.

(** [fake.date_time_between(start, end)]: a timestamp drawn uniformly
    between the two instants (the library's rounding of the bounds to whole
    seconds is not modelled). *)
Definition fake_date_time_between (start_date end_date : datetime)
  : Rand datetime :=
  q <- draw_faker ;;
  ret (Qfloor (inject_Z start_date
               + (inject_Z end_date - inject_Z start_date) * frac q)%Q).

Definition generate_support_logs_for_customer (now : datetime)
    (customer : Customer.t) (num_logs : nat) : Rand (list SupportLog.t) :=
  for_range num_logs
    (d <- fake_date_time_between (two_years_before now) now ;;
     text <- random_choice_lit
               "Guest complained about slow Wi-Fi in room."
               (tl complaint_templates) ;;
     ret (SupportLog.mk (Customer.customer_id customer) d text)).

(** [session.add_all(logs); session.commit()], under the foreign key of
    [support_logs]. *)
Definition add_all_logs (ls : list SupportLog.t) (db : Database)
  : result unit * Database :=
  if forallb (fun l => has_customer (customers db) (SupportLog.customer_id l))
       ls
  then (Ok tt,
        mkDatabase (customers db) (bookings db) (support_logs db ++ ls)
          (next_customer_id db))
  else (Raise IntegrityError, db).

(** [for x in xs: all.extend(body(x))]. *)
Fixpoint for_each_extend {A B} (xs : list A) (body : A -> Rand (list B))
  : Rand (list B) :=
  match xs with
  | [] => ret []
  | x :: rest =>
      ys <- body x ;;
      more <- for_each_extend rest body ;;
      ret (ys ++ more)
  end.

(** The same loop around a body that can raise. *)
Fixpoint for_each_extend_try {A B} (xs : list A)
    (body : A -> Rand (result (list B))) : Rand (result (list B)) :=
  match xs with
  | [] => ret (Ok [])
  | x :: rest =>
      called <- body x ;;
      match called with
      | Raise e => ret (Raise e)
      | Ok ys =>
          looped <- for_each_extend_try rest body ;;
          match looped with
          | Raise e => ret (Raise e)
          | Ok more => ret (Ok (ys ++ more))
          end
      end
  end.

(** The support logs of one customer in the historical load: with
    probability 0.3, between 1 and 5 logs. *)
Definition maybe_support_logs (now : datetime) (customer : Customer.t)
  : Rand (list SupportLog.t) :=
  r <- random_random ;;
  if Qltb r 0.3 then
    num_logs <- random_randint 1 5 ;;
    generate_support_logs_for_customer now customer (Z.to_nat num_logs)
  else ret [].

Section Historical.

Variable config : Config.

(** [config['data_generation']['historical']['num_customers']]. *)
Variable num_customers : nat.

(** [generate_historical_data()] at instant [now].  Each of the three
    stages commits on its own, so a failure rolls back its stage only. *)
Definition generate_historical_data (now : datetime) (db : Database)
  : Rand (result unit * Database) :=
  customers <- generate_customers (date_of now) num_customers ;;
  let (customers, db1) := add_all_customers customers db in
  let start_date := now - timedelta_days (4 * 365) in
  let end_date := now in
  generated <- for_each_extend_try customers
                 (fun customer =>
                    generate_bookings_for_customer config customer
                      start_date end_date) ;;
  match generated with
  | Raise e => ret (Raise e, db1)
  | Ok all_bookings =>
      match add_all_bookings all_bookings db1 with
      | (Raise e, db2) => ret (Raise e, db2)
      | (Ok _, db2) =>
          all_logs <- for_each_extend customers (maybe_support_logs now) ;;
          ret (add_all_logs all_logs db2)
      end
  end.

End Historical.

Section HistoricalPipeline.

Variable World : Type.
Variable test_connection : World -> bool * World.
Variable generate : World -> result unit * World.
Variable verify : World -> result unit * World.

(** [run_historical_pipeline()]: as the weekly pipeline, without the
    cleanup step. *)
Definition run_historical_pipeline (w : World) : result bool * World :=
  (* Step 1 *)
  let (connected, w1) := test_connection w in
  if negb connected then (Ok false, w1)
  else
    (* Step 2 *)
    match generate w1 with
    | (Raise _, w2) => (Ok false, w2)
    | (Ok _, w2) =>
        (* Step 3 *)
        match verify w2 with
        | (Raise e, w3) => (Raise e, w3)
        | (Ok _, w3) => (Ok true, w3)
        end
    end.

End HistoricalPipeline.

Local Close Scope rand_scope.

(** ** Retention manager ([cleanup_old_data]) *)

Record Deleted : Type := mkDeleted {
  old_bookings  : nat;
  old_logs      : nat;
  old_customers : nat
}.

(** The retention window, [timedelta(days=5*365)]. *)
Definition retention_window : Z := timedelta_days (5 * 365).

Definition cutoff_of (now : datetime) : datetime := now - retention_window.

Definition booking_is_old (cutoff_date : datetime) (b : Booking.t) : bool :=
  midnight (Booking.check_in_date b) <? cutoff_date.

Definition log_is_old (cutoff_date : datetime) (l : SupportLog.t) : bool :=
  SupportLog.date l <? cutoff_date.

(** [SELECT DISTINCT customer_id FROM bookings]. *)
Fixpoint distinct (ids : list Z) : list Z :=
  match ids with
  | [] => []
  | i :: rest =>
      if existsb (Z.eqb i) rest then distinct rest else i :: distinct rest
  end.

Definition id_in (ids : list Z) (id : Z) : bool := existsb (Z.eqb id) ids.

(** The foreign keys of [bookings] and [support_logs]: does a remaining
    row still reference one of the customers about to be deleted? *)
Definition still_referenced (doomed : list Customer.t)
    (bs : list Booking.t) (ls : list SupportLog.t) : bool :=
  existsb (fun b => has_customer doomed (Booking.customer_id b)) bs
  || existsb (fun l => has_customer doomed (SupportLog.customer_id l)) ls.

(** [cleanup_old_data()] at instant [now]: the three bulk deletes run in
    one transaction; if the last one violates a foreign key the whole
    transaction is rolled back and the exception re-raised. *)
Definition cleanup_old_data (now : datetime) (db : Database)
  : result Deleted * Database :=
  let cutoff_date := cutoff_of now in
  let gone_bookings := filter (booking_is_old cutoff_date) (bookings db) in
  let bookings1 :=
    filter (fun b => negb (booking_is_old cutoff_date b)) (bookings db) in
  let gone_logs := filter (log_is_old cutoff_date) (support_logs db) in
  let logs1 :=
    filter (fun l => negb (log_is_old cutoff_date l)) (support_logs db) in
  let customers_to_keep := distinct (map Booking.customer_id bookings1) in
  let doomed :=
    filter (fun c => negb (id_in customers_to_keep (Customer.customer_id c)))
      (customers db) in
  let customers1 :=
    filter (fun c => id_in customers_to_keep (Customer.customer_id c))
      (customers db) in
  if still_referenced doomed bookings1 logs1
  then (Raise IntegrityError, db)
  else (Ok (mkDeleted (List.length gone_bookings) (List.length gone_logs)
              (List.length doomed)),
        mkDatabase customers1 bookings1 logs1 (next_customer_id db)).

(** ** Pipeline orchestrator ([run_weekly_pipeline]) *)

Section Pipeline.

(** The stages are parameters: each may change the world and may raise. *)
Variable World : Type.
Variable test_connection : World -> bool * World.
Variable cleanup : World -> result unit * World.
Variable generate : World -> result unit * World.
Variable verify : World -> result unit * World.

(** The value is [Ok b] when the function returns [b] and [Raise e] when
    an exception escapes it (only the verification step is unguarded). *)
Definition run_weekly_pipeline (w : World) : result bool * World :=
  (* Step 1 *)
  let (connected, w1) := test_connection w in
  if negb connected then (Ok false, w1)
  else
    (* Step 2: except Exception -> continue anyway *)
    let (_, w2) := cleanup w1 in
    (* Step 3 *)
    match generate w2 with
    | (Raise _, w3) => (Ok false, w3)
    | (Ok _, w3) =>
        (* Step 4 *)
        match verify w3 with
        | (Raise e, w4) => (Raise e, w4)
        | (Ok _, w4) => (Ok true, w4)
        end
    end.

End Pipeline.

(** The pipeline over the modelled storage. *)
Record HotelWorld : Type := mkHotelWorld {
  clock     : datetime;
  reachable : bool;        (* does the storage engine answer? *)
  db        : Database;
  rng       : RandomSource
}.

Definition hotel_test_connection (w : HotelWorld) : bool * HotelWorld :=
  (reachable w, w).

Definition hotel_cleanup (w : HotelWorld) : result unit * HotelWorld :=
  if reachable w then
    match cleanup_old_data (clock w) (db w) with
    | (Ok _, db') => (Ok tt, mkHotelWorld (clock w) (reachable w) db' (rng w))
    | (Raise e, db') =>
        (Raise e, mkHotelWorld (clock w) (reachable w) db' (rng w))
    end
  else (Raise OperationalError, w).

Definition hotel_generate (config : Config) (w : HotelWorld)
  : result unit * HotelWorld :=
  if reachable w then
    let '(r, db', rng') := generate_weekly_data config (clock w) (db w) (rng w) in
    (r, mkHotelWorld (clock w) (reachable w) db' rng')
  else (Raise OperationalError, w).

Definition hotel_verify (w : HotelWorld) : result unit * HotelWorld :=
  if reachable w then (Ok tt, w) else (Raise OperationalError, w).

Definition hotel_weekly_pipeline (config : Config) (w : HotelWorld)
  : result bool * HotelWorld :=
  run_weekly_pipeline HotelWorld hotel_test_connection hotel_cleanup
    (hotel_generate config) hotel_verify w.

(** ** Quality gate ([src/quality_check.py])

    A batch is a DataFrame that has the columns of its schema, at the dtype
    the schema declares and without missing values; on such a batch the
    dtype and required-column checks of the schema pass, and what remains
    to check are the value constraints.  A DataFrame with a column missing
    or at another dtype is not a batch of this model.  A validator returns
    its [(is_valid, error_message)] pair together with the DataFrame as
    the call leaves it and the lines it printed. *)

Definition Verdict : Type := bool * option string.

Definition show_nat (n : nat) : string :=
  NilZero.string_of_uint (Nat.to_uint n).

Definition show_Z (z : Z) : string :=
  NilZero.string_of_int (Z.to_int z).

Definition isin (allowed : list string) (s : string) : bool :=
  existsb (String.eqb s) allowed.

(** [series.duplicated().any()]. *)
Fixpoint has_duplicates (ids : list Z) : bool :=
  match ids with
  | [] => false
  | i :: rest => existsb (Z.eqb i) rest || has_duplicates rest
  end.

(** One row of [failure_cases]: the column and the index of the row whose
    value broke the column's check. *)
Record FailureCase : Type := mkFailureCase {
  fc_column : string;
  fc_index  : nat
}.

(** The indices of the rows of [rows], counted from [i], that fail [check]. *)
Fixpoint failing_from {R} (check : R -> bool) (i : nat) (rows : list R)
  : list nat :=
  match rows with
  | [] => []
  | r :: rest =>
      if check r then failing_from check (S i) rest
      else i :: failing_from check (S i) rest
  end.

(** [schema.validate(df, lazy=True)]: every column is checked on every row
    and all the failures are collected. *)
Definition schema_failures {R} (schema : list (string * (R -> bool)))
    (rows : list R) : list FailureCase :=
  flat_map (fun col =>
              map (mkFailureCase (fst col)) (failing_from (snd col) 0%nat rows))
    schema.

(** A stand-in for the table pandas prints for [e.failure_cases]. *)
Definition show_failure_cases (fcs : list FailureCase) : string :=
  String.concat "; "
    (map (fun fc => String.append (fc_column fc)
                      (String.append "@" (show_nat (fc_index fc)))) fcs).

Module BookingsDF.
Record row : Type := mkRow {
  customer_id     : Z;
  check_in_date   : datetime;
  check_out_date  : datetime;
  amount_spent    : Q;
  room_type       : string;
  booking_channel : string;
  num_adults      : Z;
  num_children    : Z;
  status          : string
}.
(** The frame: its rows over the schema's columns, the optional
    [booking_id] column and the optional [nights] column. *)
Record t : Type := mk {
  rows       : list row;
  booking_id : option (list Z);
  nights     : option (list Z)
}.
End BookingsDF.

Module CustomersDF.
Record row : Type := mkRow {
  join_date    : datetime;
  age          : Z;
  job_category : string
}.
Record t : Type := mk {
  rows        : list row;
  customer_id : option (list Z)
}.
End CustomersDF.

Module LogsDF.
(** Column by column, as [validate_support_logs] first asks which
    columns exist; a cell of [log_text] may be missing ([None]). *)
Record t : Type := mk {
  customer_id : option (list Z);
  date        : option (list datetime);
  log_text    : option (list (option string))
}.
End LogsDF.

Definition in_range (lo hi z : Z) : bool := (lo <=? z) && (z <=? hi).

Definition booking_schema (config : Config)
  : list (string * (BookingsDF.row -> bool)) :=
  [ ("customer_id", fun r => 0 <? BookingsDF.customer_id r);
    ("check_in_date", fun _ => true);
    ("check_out_date", fun _ => true);
    ("amount_spent", fun r =>
       Qle_bool 0 (BookingsDF.amount_spent r)
       && Qle_bool (BookingsDF.amount_spent r) (max_booking_amount config));
    ("room_type", fun r => isin room_types (BookingsDF.room_type r));
    ("booking_channel", fun r => isin channels (BookingsDF.booking_channel r));
    ("num_adults", fun r => in_range 1 10 (BookingsDF.num_adults r));
    ("num_children", fun r => in_range 0 10 (BookingsDF.num_children r));
    ("status", fun r => isin statuses (BookingsDF.status r)) ].

Definition customer_schema : list (string * (CustomersDF.row -> bool)) :=
  [ ("join_date", fun _ => true);
    ("age", fun r => in_range 18 100 (CustomersDF.age r));
    ("job_category", fun r =>
       isin ["business_traveler"; "vacation_traveler"; "occasional_visitor"]
         (CustomersDF.job_category r)) ].

Definition nights_of (r : BookingsDF.row) : Z :=
  td_days (BookingsDF.check_out_date r - BookingsDF.check_in_date r).

Definition is_empty {A} (l : list A) : bool :=
  match l with [] => true | _ => false end.

Section QualityGate.

Variable config : Config.

Definition validate_bookings (bookings_df : BookingsDF.t)
  : Verdict * BookingsDF.t * list string :=
  let rows := BookingsDF.rows bookings_df in
  (* Check 1 *)
  match schema_failures (booking_schema config) rows with
  | (_ :: _) as failure_cases =>
      ((false, Some (String.append "Schema validation failed: "
                       (show_failure_cases failure_cases))),
       bookings_df, [])
  | [] =>
      (* Check 2 *)
      let invalid_dates :=
        filter (fun r => BookingsDF.check_out_date r
                         <=? BookingsDF.check_in_date r) rows in
      if negb (is_empty invalid_dates) then
        ((false, Some (String.append "Found "
                         (String.append (show_nat (List.length invalid_dates))
                            " bookings where check_out <= check_in"))),
         bookings_df, [])
      else
        (* Check 3 *)
        if match BookingsDF.booking_id bookings_df with
           | Some ids => has_duplicates ids
           | None => false
           end
        then ((false, Some "Duplicate booking_ids found"), bookings_df, [])
        else
          (* Check 4: bookings_df['nights'] = ... *)
          let bookings_df :=
            BookingsDF.mk rows (BookingsDF.booking_id bookings_df)
              (Some (map nights_of rows)) in
          let min_nights := min_nights_stay config in
          let max_nights := max_nights_stay config in
          let invalid_nights :=
            filter (fun r => (nights_of r <? min_nights)
                             || (max_nights <? nights_of r)) rows in
          if negb (is_empty invalid_nights) then
            ((false,
              Some (String.concat ""
                      ["Found "; show_nat (List.length invalid_nights);
                       " bookings with invalid night count (must be ";
                       show_Z min_nights; "-"; show_Z max_nights; ")"])),
             bookings_df, [])
          else
            ((true, None), bookings_df,
             [String.concat ""
                ["✓ All "; show_nat (List.length rows);
                 " bookings passed quality checks"]])
  end.

End QualityGate.

Definition validate_customers (customers_df : CustomersDF.t)
  : Verdict * CustomersDF.t * list string :=
  let rows := CustomersDF.rows customers_df in
  match schema_failures customer_schema rows with
  | (_ :: _) as failure_cases =>
      ((false, Some (String.append "Schema validation failed: "
                       (show_failure_cases failure_cases))),
       customers_df, [])
  | [] =>
      if match CustomersDF.customer_id customers_df with
         | Some ids => has_duplicates ids
         | None => false
         end
      then ((false, Some "Duplicate customer_ids found"), customers_df, [])
      else
        ((true, None), customers_df,
         [String.concat ""
            ["✓ All "; show_nat (List.length rows);
             " customers passed quality checks"]])
  end.

Definition log_text_is_empty (cell : option string) : bool :=
  match cell with
  | None => true                 (* isna() *)
  | Some s => String.eqb s ""    (* == '' *)
  end.

Definition validate_support_logs (logs_df : LogsDF.t)
  : Verdict * LogsDF.t * list string :=
  match LogsDF.customer_id logs_df, LogsDF.date logs_df,
        LogsDF.log_text logs_df with
  | Some ids, Some _, Some texts =>
      if existsb log_text_is_empty texts then
        ((false, Some "Found empty log_text entries"), logs_df, [])
      else if existsb (fun id => id <=? 0) ids then
        ((false, Some "Found invalid customer_ids (must be > 0)"), logs_df, [])
      else
        ((true, None), logs_df,
         [String.concat ""
            ["✓ All "; show_nat (List.length texts);
             " support logs passed quality checks"]])
  | _, _, _ =>
      ((false,
        Some "Missing required columns: ['customer_id', 'date', 'log_text']"),
       logs_df, [])
  end.

(** ** The historical pipeline over the modelled storage, and the audit
       frame of the support logs *)

Definition hotel_generate_historical (config : Config) (num_customers : nat)
    (w : HotelWorld) : result unit * HotelWorld :=
  if reachable w then
    let '(r, db', rng') :=
      generate_historical_data config num_customers (clock w) (db w) (rng w) in
    (r, mkHotelWorld (clock w) (reachable w) db' rng')
  else (Raise OperationalError, w).

Definition hotel_historical_pipeline (config : Config) (num_customers : nat)
    (w : HotelWorld) : result bool * HotelWorld :=
  run_historical_pipeline HotelWorld hotel_test_connection
    (hotel_generate_historical config num_customers) hotel_verify w.

(** The DataFrame [run_quality_checks_on_existing_data] builds from the
    rows of [support_logs]: a list of dicts, one per row.  From an empty
    list pandas builds a frame without any column. *)
Definition logs_dataframe (logs : list SupportLog.t) : LogsDF.t :=
  match logs with
  | [] => LogsDF.mk None None None
  | _ :: _ =>
      LogsDF.mk (Some (map SupportLog.customer_id logs))
        (Some (map SupportLog.date logs))
        (Some (map (fun l => Some (SupportLog.log_text l)) logs))
  end.

(** ** Vocabulary of the statements *)

(** [always P m]: whatever the state of the random source, the value [m]
    returns satisfies [P]. *)
Definition always {A} (P : A -> Prop) (m : Rand A) : Prop :=
  forall s, P (fst (m s)).

(** What holds of the result of a call that can raise: [P] of the value
    it returns, [E] of the exception it raises. *)
Definition outcome {A} (P : A -> Prop) (E : exn -> Prop) (r : result A)
  : Prop :=
  match r with
  | Ok a => P a
  | Raise e => E e
  end.

(** The elements a call produced: those of the list it returned, none
    when it raised. *)
Definition produced {A} (r : result (list A)) : list A :=
  match r with
  | Ok l => l
  | Raise _ => []
  end.

(** The one exception of the booking generator: [ValueError], on a range
    whose end date is before its start date. *)
Definition reversed_range (start_date end_date : datetime) (e : exn) : Prop :=
  e = ValueError /\ date_of end_date < date_of start_date.

Definition never (e : exn) : Prop := False.

Definition any_exn (e : exn) : Prop := True.

(** The booking lasts [n] nights. *)
Definition stays (n : Z) (b : Booking.t) : Prop :=
  Booking.check_out_date b - Booking.check_in_date b = n.

(** The facts that hold of every booking drawn for [customer]. *)
Record generated_for (customer : Customer.t) (b : Booking.t) : Prop := {
  gen_customer : Booking.customer_id b = Customer.customer_id customer;
  gen_nights   : 1 <= Booking.check_out_date b - Booking.check_in_date b;
  gen_amount   :
    (inject_Z (96 * (Booking.check_out_date b - Booking.check_in_date b))
     <= Booking.amount_spent b)%Q;
  gen_room     : In (Booking.room_type b) room_types;
  gen_channel  : In (Booking.booking_channel b) channels;
  gen_status   : In (Booking.status b) statuses;
  gen_adults   : 1 <= Booking.num_adults b <= 4;
  gen_children : 0 <= Booking.num_children b <= 3
}.

(** The booking references a customer of [pool]. *)
Definition booked_from (pool : list Customer.t) (b : Booking.t) : Prop :=
  exists c, In c pool /\ Booking.customer_id b = Customer.customer_id c.

(** The outcome of [generate_weekly_data]: either every slot received one
    booking and all were committed, or the customer pool was empty and
    [random.choice] raised. *)
Definition weekly_outcome (config : Config) (before : Database)
    (out : result unit * Database) : Prop :=
  match out with
  | (Ok _, after) =>
      exists added,
        bookings after = bookings before ++ added
        /\ List.length added = bookings_per_week config
  | (Raise e, after) =>
      e = IndexError
      /\ customers before = []
      /\ new_customers_per_week config = 0%nat
      /\ (0 < bookings_per_week config)%nat
      /\ bookings after = bookings before
  end.

(** Some booking of [bs] references the customer [c]. *)
Definition has_booking (bs : list Booking.t) (c : Customer.t) : Prop :=
  exists b, In b bs /\ Booking.customer_id b = Customer.customer_id c.

(** A row passes a schema when it passes the check of every column. *)
Definition row_passes {R} (schema : list (string * (R -> bool))) (r : R)
  : bool :=
  forallb (fun col => snd col r) schema.

(** The row tests of checks 2 and 4 of [validate_bookings], and the test
    of check 3. *)
Definition checks_out_late (r : BookingsDF.row) : bool :=
  BookingsDF.check_out_date r <=? BookingsDF.check_in_date r.

Definition nights_out_of_band (config : Config) (r : BookingsDF.row) : bool :=
  (nights_of r <? min_nights_stay config)
  || (max_nights_stay config <? nights_of r).

Definition ids_duplicated (ids : option (list Z)) : bool :=
  match ids with
  | Some l => has_duplicates l
  | None => false
  end.

(** The three components of what a validator leaves behind. *)
Definition verdict_of {D} (out : Verdict * D * list string) : Verdict :=
  fst (fst out).

Definition frame_after {D} (out : Verdict * D * list string) : D :=
  snd (fst out).

Definition printed {D} (out : Verdict * D * list string) : list string :=
  snd out.

(** What C1 asks of a booking under a configuration. *)
Definition stay_within_band (config : Config) (b : Booking.t) : Prop :=
  Booking.check_in_date b < Booking.check_out_date b
  /\ min_nights_stay config
     <= Booking.check_out_date b - Booking.check_in_date b
     <= max_nights_stay config.

(** What C7 asks of a booking under a configuration. *)
Definition amount_within_limit (config : Config) (b : Booking.t) : Prop :=
  (0 <= Booking.amount_spent b
   /\ Booking.amount_spent b <= max_booking_amount config)%Q.

(** The channel enumeration as the specification words it. *)
Definition spec_channels : list string :=
  ["Direct Website"; "Agent"; "OTA"; "Walk-in"].

(** The row [r] with its channel replaced by [s]. *)
Definition with_channel (s : string) (r : BookingsDF.row) : BookingsDF.row :=
  BookingsDF.mkRow (BookingsDF.customer_id r) (BookingsDF.check_in_date r)
    (BookingsDF.check_out_date r) (BookingsDF.amount_spent r)
    (BookingsDF.room_type r) s (BookingsDF.num_adults r)
    (BookingsDF.num_children r) (BookingsDF.status r).

(** What C2 says of the customers a cleanup at [now] removes: those whose
    bookings were all deleted by it. *)
Definition emptied_by_cleanup (now : datetime) (db0 : Database)
    (c : Customer.t) : Prop :=
  has_booking (bookings db0) c
  /\ ~ has_booking
         (filter (fun b => negb (booking_is_old (cutoff_of now) b))
            (bookings db0)) c.

(** A verdict is [(True, None)] or [(False, message)]. *)
Definition well_formed_verdict (v : Verdict) : Prop :=
  match v with
  | (true, None) => True
  | (false, Some _) => True
  | _ => False
  end.

(** Do the first three checks of [validate_bookings] pass? *)
Definition reaches_nights_check (config : Config) (df : BookingsDF.t) : bool :=
  forallb (row_passes (booking_schema config)) (BookingsDF.rows df)
  && forallb (fun r => negb (checks_out_late r)) (BookingsDF.rows df)
  && negb (ids_duplicated (BookingsDF.booking_id df)).

(** How [generate_booking] arrives at a booking: the price factor [u] and
    the cancellation draw [r] behind it. *)
Definition drawn_as (config : Config) (start_date end_date : datetime)
    (b : Booking.t) : Prop :=
  exists u r,
    (0.8 <= u /\ u <= 1.2)%Q
    /\ (0 <= r /\ r < 1)%Q
    /\ Booking.amount_spent b
       = py_round2 (inject_Z (base_price (Booking.room_type b))
                    * inject_Z (Booking.check_out_date b
                                - Booking.check_in_date b) * u)%Q
    /\ (if Qltb r (cancellation_rate config)
        then In (Booking.status b) ["Cancelled"; "No-Show"]
        else Booking.status b = "Checked-Out")
    /\ (date_of start_date <= date_of end_date ->
        date_of start_date <= Booking.check_in_date b <= date_of end_date).

(** The integrity of the three tables: customer ids are unique and below
    the sequence, and every booking and support log references an
    existing customer. *)
Definition db_consistent (db : Database) : Prop :=
  NoDup (map Customer.customer_id (customers db))
  /\ Forall (fun c => Customer.customer_id c < next_customer_id db)
       (customers db)
  /\ Forall (fun b => has_customer (customers db) (Booking.customer_id b)
                     = true) (bookings db)
  /\ Forall (fun l => has_customer (customers db) (SupportLog.customer_id l)
                     = true) (support_logs db).

(** The value constraints of [booking_schema] and of [customer_schema] on
    one row, as propositions. *)
Definition booking_row_valid (config : Config) (r : BookingsDF.row) : Prop :=
  0 < BookingsDF.customer_id r
  /\ (0 <= BookingsDF.amount_spent r
      /\ BookingsDF.amount_spent r <= max_booking_amount config)%Q
  /\ In (BookingsDF.room_type r) room_types
  /\ In (BookingsDF.booking_channel r) channels
  /\ 1 <= BookingsDF.num_adults r <= 10
  /\ 0 <= BookingsDF.num_children r <= 10
  /\ In (BookingsDF.status r) statuses.

Definition customer_row_valid (r : CustomersDF.row) : Prop :=
  18 <= CustomersDF.age r <= 100
  /\ In (CustomersDF.job_category r)
       ["business_traveler"; "vacation_traveler"; "occasional_visitor"].

(** The ids of an optional id column are pairwise distinct. *)
Definition ids_distinct (ids : option (list Z)) : Prop :=
  match ids with
  | Some l => NoDup l
  | None => True
  end.

(** The facts that hold of every support log drawn for [customer]. *)
Definition logged_for (customer : Customer.t) (l : SupportLog.t) : Prop :=
  SupportLog.customer_id l = Customer.customer_id customer
  /\ In (SupportLog.log_text l) complaint_templates
  /\ log_text_is_empty (Some (SupportLog.log_text l)) = false.

(** What [generate_historical_data] leaves behind when asked for [n]
    customers. *)
Definition historical_outcome (n : nat) (before : Database)
    (out : result unit * Database) : Prop :=
  exists saved added logs after,
    out = (Ok tt, after)
    /\ customers after = customers before ++ saved
    /\ List.length saved = n
    /\ next_customer_id after = next_customer_id before + Z.of_nat n
    /\ bookings after = bookings before ++ added
    /\ (n <= List.length added)%nat
    /\ Forall (has_booking added) saved
    /\ Forall (booked_from saved) added
    /\ support_logs after = support_logs before ++ logs
    /\ (List.length logs <= 5 * n)%nat
    /\ Forall (fun l => has_customer saved (SupportLog.customer_id l) = true)
         logs.


Definition text_present (cell : option string) : Prop :=
  exists text, cell = Some text /\ text <> "".

(** ** Sample data used by the examples *)

(** Day number of a calendar date (proleptic Gregorian, day 0 is
    1970-01-01). *)
Definition ymd (y m d : Z) : date :=
  let y' := if m <=? 2 then y - 1 else y in
  let era := y' / 400 in
  let yoe := y' - era * 400 in
  let mp := (m + 9) mod 12 in
  let doy := (153 * mp + 2) / 5 + d - 1 in
  let doe := yoe * 365 + yoe / 4 - yoe / 100 + doy in
  era * 146097 + doe - 719468.

Definition sample_segments (c : JobCategory) : Segment :=
  match c with
  | business_traveler => mkSegment 2
  | vacation_traveler => mkSegment 5
  | occasional_visitor => mkSegment 3
  end.

Definition sample_config : Config :=
  mkConfig sample_segments 0.15 2 3 5000 1 14.

Definition alice : Customer.t :=
  Customer.mk 1 (ymd 2023 3 14) 34 vacation_traveler.

Definition bob : Customer.t :=
  Customer.mk 2 (ymd 2022 11 2) 52 business_traveler.

(** Noon of 2025-06-02. *)
Definition sample_now : datetime :=
  midnight (ymd 2025 6 2) + 43200000000.

(** A tape on which the one booking of a 7-day range lasts 15 nights in the
    suite: the normal variate is 5 standard deviations above the mean. *)
Definition long_stay_tape : RandomSource :=
  mkRandomSource [0.5; 5; 0.7; 0.5; 0.9; 0.6; 0.1; 0.2; 0.3]%Q [0.3]%Q.

Definition pricey_stay_tape : RandomSource :=
  mkRandomSource [0.5; 5; 0.7; 0.9; 0.9; 0.6; 0.1; 0.2; 0.3]%Q [0.3]%Q.

Definition week_before (now : datetime) : datetime := now - timedelta_days 7.

Definition good_row : BookingsDF.row :=
  BookingsDF.mkRow 1 (midnight (ymd 2024 1 10)) (midnight (ymd 2024 1 13))
    450 "King Bed" "Agent" 2 0 "Checked-Out".

Definition sample_db : Database :=
  mkDatabase
    [alice; bob]
    [Booking.mk 1 (ymd 2025 4 1) (ymd 2025 4 6) 1500 "Suite" "Agent" 2 1
       "None" "Checked-Out";
     Booking.mk 2 (ymd 2025 5 20) (ymd 2025 5 22) 240 "Queen Bed"
       "Direct Website" 1 0 "None" "Checked-Out"]
    [SupportLog.mk 1 (midnight (ymd 2025 4 3))
       "Guest requested extra blankets due to cold weather."]
    3.

Definition short_tape : RandomSource :=
  mkRandomSource [0.4; 0.9; 0.2; 0.1; 0.7; 0.3; 0.6]%Q [0.5; 0.25]%Q.

Definition carol : Customer.t :=
  Customer.mk 3 (ymd 2019 1 5) 61 occasional_visitor.

Definition dave : Customer.t :=
  Customer.mk 4 (ymd 2025 5 30) 28 vacation_traveler.

Definition stay (customer_id : Z) (check_in : date) (nights : Z) : Booking.t :=
  Booking.mk customer_id check_in (check_in + nights) (inject_Z (120 * nights))
    "Queen Bed" "Agent" 2 0 "None" "Checked-Out".

(** Alice has an expired and a recent booking, Carol only an expired one,
    Dave none at all. *)
Definition retention_db : Database :=
  mkDatabase
    [alice; bob; carol; dave]
    [stay 1 (ymd 2019 3 10) 2; stay 1 (ymd 2025 4 1) 5;
     stay 2 (ymd 2025 5 20) 2; stay 3 (ymd 2019 8 15) 3]
    [SupportLog.mk 3 (midnight (ymd 2019 8 16))
       "Guest complained about slow Wi-Fi in room.";
     SupportLog.mk 1 (midnight (ymd 2025 4 3))
       "Guest requested extra blankets due to cold weather."]
    5.

(** The instant at which a booking checked in on [d] is exactly as old as
    the retention window. *)
Definition expiry_instant (d : date) : datetime := midnight d + retention_window.

Definition lone_booking_db : Database :=
  mkDatabase [alice] [stay 1 (ymd 2025 4 1) 5] [] 2.

(** Carol's only booking has expired but a recent support log still
    references her: deleting her violates the foreign key of
    [support_logs]. *)
Definition stuck_db : Database :=
  mkDatabase
    [alice; carol]
    [stay 1 (ymd 2025 4 1) 5; stay 3 (ymd 2019 8 15) 3]
    [SupportLog.mk 3 (midnight (ymd 2024 12 24))
       "Heating system malfunction reported, technician dispatched."]
    4.

Definition stuck_world : HotelWorld :=
  mkHotelWorld sample_now true stuck_db short_tape.

(** An empty dataset and a configuration that adds no customer: the weekly
    generation has nobody to choose from. *)
Definition barren_config : Config :=
  mkConfig sample_segments 0.15 0 3 5000 1 14.

Definition barren_world : HotelWorld :=
  mkHotelWorld sample_now true (mkDatabase [] [] [] 1) short_tape.

Definition good_batch : BookingsDF.t := BookingsDF.mk [good_row] None None.

(** A booking that checks out on the day it checks in, 2024-01-10. *)
Definition same_day_row : BookingsDF.row :=
  BookingsDF.mkRow 1 (midnight (ymd 2024 1 10)) (midnight (ymd 2024 1 10))
    450 "King Bed" "Agent" 2 0 "Checked-Out".

Definition same_day_batch : BookingsDF.t :=
  BookingsDF.mk [good_row; same_day_row] (Some [7; 7]) None.

Definition four_years_ago (now : datetime) : datetime :=
  now - timedelta_days (4 * 365).

Definition sample_world : HotelWorld :=
  mkHotelWorld sample_now true sample_db short_tape.

Definition offline_world : HotelWorld :=
  mkHotelWorld sample_now false sample_db short_tape.

Definition empty_db : Database := mkDatabase [] [] [] 1.

Definition never_cancel_config : Config :=
  mkConfig sample_segments 0 2 3 5000 1 14.

Definition always_cancel_config : Config :=
  mkConfig sample_segments 1 2 3 5000 1 14.

Definition twin_customers : CustomersDF.t :=
  CustomersDF.mk
    [CustomersDF.mkRow (midnight (ymd 2023 3 14)) 34 "vacation_traveler";
     CustomersDF.mkRow (midnight (ymd 2022 11 2)) 52 "business_traveler"]
    (Some [7; 7]).


(** * Properties *)

(** ** Arithmetic of the float model *)

Lemma frac_range (q : Q) : (0 <= frac q /\ frac q < 1)%Q.
Proof.
  unfold frac. pose proof (Qfloor_le q) as Hlo. pose proof (Qlt_floor q) as Hhi.
  rewrite inject_Z_plus in Hhi. change (inject_Z 1) with 1%Q in Hhi.
  split; lra.
Qed.

Lemma round_half_even_floor (x : Q) : Qfloor x <= round_half_even x.
Proof.
  unfold round_half_even.
  destruct (x - inject_Z (Qfloor x) ?= 1 # 2)%Q; try lia.
  destruct (Z.even (Qfloor x)); lia.
Qed.

Lemma py_round2_lower (k : Z) (x : Q) :
  (inject_Z k <= x)%Q -> (inject_Z k <= py_round2 x)%Q.
Proof.
  intros Hx. unfold py_round2.
  assert (H : k * 100 <= round_half_even (x * 100)).
  { etransitivity; [| apply round_half_even_floor].
    rewrite <- (Qfloor_Z (k * 100)). apply Qfloor_resp_le.
    rewrite inject_Z_mult. change (inject_Z 100) with 100%Q. lra. }
  apply (Qle_shift_div_l _ _ 100%Q); [reflexivity |].
  change 100%Q with (inject_Z 100). rewrite <- inject_Z_mult.
  rewrite <- Zle_Qle. exact H.
Qed.

(** ** The random primitives stay in their documented ranges *)

Lemma always_ret {A} (P : A -> Prop) (a : A) : P a -> always P (ret a).
Proof. intros H s. exact H. Qed.

Lemma always_bind {A B} (R : A -> Prop) (P : B -> Prop)
    (m : Rand A) (k : A -> Rand B) :
  always R m -> (forall a, R a -> always P (k a)) -> always P (bind m k).
Proof.
  intros Hm Hk s. unfold bind.
  specialize (Hm s). destruct (m s) as [a s']. now apply Hk.
Qed.

Lemma always_weaken {A} (P R : A -> Prop) (m : Rand A) :
  (forall a, R a -> P a) -> always R m -> always P m.
Proof. intros H Hm s. apply H, Hm. Qed.

Lemma always_trivial {A} (m : Rand A) : always (fun _ => True) m.
Proof. intros s. exact I. Qed.

Lemma fst_bind {A B} (m : Rand A) (k : A -> Rand B) (s : RandomSource) :
  fst (bind m k s) = fst (k (fst (m s)) (snd (m s))).
Proof. unfold bind. now destruct (m s). Qed.

Lemma always_for_range {A} (P : A -> Prop) (body : Rand A) (n : nat) :
  always P body -> always (Forall P) (for_range n body).
Proof.
  intros Hb. induction n as [| n IH]; simpl.
  - apply always_ret. constructor.
  - apply (always_bind P); [exact Hb |]. intros x Hx.
    apply (always_bind (Forall P)); [exact IH |]. intros xs Hxs.
    apply always_ret. now constructor.
Qed.

Lemma for_range_length {A} (body : Rand A) (n : nat) :
  always (fun xs => List.length xs = n) (for_range n body).
Proof.
  induction n as [| n IH]; simpl.
  - now apply always_ret.
  - apply (always_bind (fun _ => True)); [apply always_trivial |]. intros x _.
    apply (always_bind _ _ _ _ IH). intros xs Hxs.
    apply always_ret. simpl. now rewrite Hxs.
Qed.

Lemma outcome_weaken {A} (P P' : A -> Prop) (E E' : exn -> Prop)
    (r : result A) :
  (forall a, P a -> P' a) -> (forall e, E e -> E' e) ->
  outcome P E r -> outcome P' E' r.
Proof. intros HP HE. destruct r as [a | e]; simpl; [apply HP | apply HE]. Qed.

Lemma produced_Forall {A} (P : A -> Prop) (E : exn -> Prop)
    (r : result (list A)) :
  outcome (Forall P) E r -> Forall P (produced r).
Proof. destruct r as [l | e]; simpl; [tauto | constructor]. Qed.

Lemma always_for_range_try {A} (P : A -> Prop) (E : exn -> Prop)
    (body : Rand (result A)) (n : nat) :
  always (outcome P E) body ->
  always (outcome (Forall P) E) (for_range_try n body).
Proof.
  intros Hb. induction n as [| n IH]; simpl.
  - apply always_ret. constructor.
  - apply (always_bind _ _ _ _ Hb). intros [a | e] Ha.
    + apply (always_bind _ _ _ _ IH). intros [l | e] Hl.
      * apply always_ret. simpl in *. now constructor.
      * apply always_ret. exact Hl.
    + apply always_ret. exact Ha.
Qed.

Lemma for_range_try_length {A} (body : Rand (result A)) (n : nat) :
  always (outcome (fun xs => List.length xs = n) any_exn)
    (for_range_try n body).
Proof.
  induction n as [| n IH]; simpl.
  - now apply always_ret.
  - apply (always_bind (fun _ => True)); [apply always_trivial |].
    intros [a | e] _.
    + apply (always_bind _ _ _ _ IH). intros [l | e] Hl.
      * apply always_ret. simpl in *. now rewrite Hl.
      * now apply always_ret.
    + now apply always_ret.
Qed.

Lemma random_random_range :
  always (fun r => 0 <= r /\ r < 1)%Q random_random.
Proof.
  unfold random_random.
  apply (always_bind (fun _ => True)); [apply always_trivial |]. intros q _.
  apply always_ret. apply frac_range.
Qed.

Lemma random_uniform_range (a b : Q) :
  (a <= b)%Q -> always (fun u => a <= u /\ u <= b)%Q (random_uniform a b).
Proof.
  intros Hab. unfold random_uniform.
  apply (always_bind _ _ _ _ random_random_range). intros r [Hr0 Hr1].
  apply always_ret.
  assert (H0 : (0 <= (b - a) * r)%Q) by (apply Qmult_le_0_compat; lra).
  assert (H1 : ((b - a) * r <= (b - a) * 1)%Q).
  { rewrite !(Qmult_comm (b - a)). apply Qmult_le_compat_r; lra. }
  split; lra.
Qed.

Lemma randbelow_range (n : Z) :
  0 < n -> always (fun i => 0 <= i < n) (randbelow n).
Proof.
  intros Hn. unfold randbelow.
  apply (always_bind _ _ _ _ random_random_range). intros r [Hr0 Hr1].
  apply always_ret.
  assert (Hq : (0 < inject_Z n)%Q) by (rewrite <- (Zlt_Qlt 0); exact Hn).
  assert (H0 : (0 <= r * inject_Z n)%Q) by (apply Qmult_le_0_compat; lra).
  assert (H1 : (r * inject_Z n < 1 * inject_Z n)%Q)
    by (apply Qmult_lt_compat_r; assumption).
  split.
  - change 0 with (Qfloor 0). now apply Qfloor_resp_le.
  - rewrite Zlt_Qlt. eapply Qle_lt_trans; [apply Qfloor_le |]. lra.
Qed.

Lemma random_randint_range (a b : Z) :
  a <= b -> always (fun z => a <= z <= b) (random_randint a b).
Proof.
  intros Hab. unfold random_randint.
  apply (always_bind (fun i => 0 <= i < b - a + 1)).
  - apply randbelow_range. lia.
  - intros i Hi. apply always_ret. lia.
Qed.

Lemma random_choice_lit_In {A} (x : A) (xs : list A) :
  always (fun y => In y (x :: xs)) (random_choice_lit x xs).
Proof.
  unfold random_choice_lit.
  apply (always_bind (fun _ => True)); [apply always_trivial |]. intros i _.
  apply always_ret.
  destruct (nth_in_or_default (Z.to_nat i) (x :: xs) x) as [H | H].
  - exact H.
  - rewrite H. now left.
Qed.

Lemma random_choice_In {A} (seq : list A) :
  always (fun r => match r with
                   | Ok y => In y seq
                   | Raise e => e = IndexError /\ seq = []
                   end) (random_choice seq).
Proof.
  destruct seq as [| x xs].
  - apply always_ret. now split.
  - change (random_choice (x :: xs))
      with (bind (randbelow (Z.of_nat (List.length (x :: xs))))
              (fun i => ret (Ok (nth (Z.to_nat i) (x :: xs) x)))).
    apply (always_bind (fun _ => True)); [apply always_trivial |]. intros i _.
    apply always_ret.
    destruct (nth_in_or_default (Z.to_nat i) (x :: xs) x) as [H | H].
    + exact H.
    + rewrite H. now left.
Qed.

Lemma uniform_date_range (start_date end_date : date) :
  start_date <= end_date ->
  always (fun d => start_date <= d <= end_date)
    (uniform_date start_date end_date).
Proof.
  intros Hse. unfold uniform_date.
  apply (always_bind (fun _ => True)); [apply always_trivial |]. intros q _.
  apply always_ret.
  destruct (frac_range q) as [H0 H1].
  assert (Hd : (0 <= inject_Z end_date - inject_Z start_date)%Q).
  { rewrite Zle_Qle in Hse. lra. }
  assert (Hm0 : (0 <= (inject_Z end_date - inject_Z start_date) * frac q)%Q)
    by (apply Qmult_le_0_compat; assumption).
  assert (Hm1 : ((inject_Z end_date - inject_Z start_date) * frac q
                 <= (inject_Z end_date - inject_Z start_date) * 1)%Q).
  { rewrite !(Qmult_comm (inject_Z end_date - inject_Z start_date)).
    apply Qmult_le_compat_r; lra. }
  split.
  - rewrite <- (Qfloor_Z start_date) at 1. apply Qfloor_resp_le. lra.
  - rewrite Zle_Qle. eapply Qle_trans; [apply Qfloor_le |]. lra.
Qed.

(** [fake.date_between] returns a date of the range, and raises exactly
    when the range ends before it starts. *)
Lemma fake_date_between_spec (start_date end_date : date) :
  always (outcome (fun d => start_date <= end_date
                            /\ start_date <= d <= end_date)
            (fun e => e = ValueError /\ end_date < start_date))
    (fake_date_between start_date end_date).
Proof.
  unfold fake_date_between.
  destruct (end_date <? start_date) eqn:E.
  - apply always_ret. simpl. split; [reflexivity | now apply Z.ltb_lt].
  - apply Z.ltb_ge in E.
    apply (always_bind _ _ _ _ (uniform_date_range _ _ E)). intros d Hd.
    apply always_ret. simpl. now split.
Qed.

(** The range of the join date, from 1461 days ago to today, is never
    refused: the call of [generate_customers] is the draw alone. *)
Lemma join_date_range_accepted (today : date) (s : RandomSource) :
  fake_date_between (four_years_before today) today s
  = (Ok (fst (uniform_date (four_years_before today) today s)),
     snd (uniform_date (four_years_before today) today s)).
Proof.
  unfold fake_date_between, four_years_before.
  change (Qfloor (- (36524 # 100) * 4)) with (-1461).
  replace (today <? today + -1461) with false
    by (symmetry; apply Z.ltb_ge; lia).
  unfold bind, ret. now destruct (uniform_date (today + -1461) today s).
Qed.

(** ** What the generator guarantees for each booking *)

Lemma base_price_room_types (room : string) :
  In room room_types -> 120 <= base_price room.
Proof.
  unfold room_types. simpl.
  intros [<- | [<- | [<- | []]]]; vm_compute; discriminate.
Qed.

Lemma amount_lower_bound (price nights : Z) (u : Q) :
  120 <= price -> 1 <= nights -> (0.8 <= u)%Q ->
  (inject_Z (96 * nights) <= inject_Z price * inject_Z nights * u)%Q.
Proof.
  intros Hp Hn Hu.
  rewrite <- inject_Z_mult.
  assert (Hk : (inject_Z (120 * nights) <= inject_Z (price * nights))%Q)
    by (rewrite <- Zle_Qle; nia).
  assert (Hpos : (0 <= inject_Z (120 * nights))%Q)
    by (rewrite <- (Zle_Qle 0); lia).
  assert (H : (inject_Z (120 * nights) * u <= inject_Z (price * nights) * u)%Q)
    by (apply Qmult_le_compat_r; lra).
  assert (H' : (inject_Z (120 * nights) * 0.8 <= inject_Z (120 * nights) * u)%Q).
  { rewrite !(Qmult_comm (inject_Z (120 * nights))).
    apply Qmult_le_compat_r; assumption. }
  assert (E : (inject_Z (96 * nights) == inject_Z (120 * nights) * 0.8)%Q).
  { rewrite !inject_Z_mult. change (inject_Z 96) with 96%Q.
    change (inject_Z 120) with 120%Q. ring. }
  rewrite E. lra.
Qed.

Lemma generate_booking_ok (config : Config) (customer : Customer.t)
    (start_date end_date : datetime) :
  always (outcome (generated_for customer)
            (reversed_range start_date end_date))
    (generate_booking config customer start_date end_date).
Proof.
  unfold generate_booking.
  apply (always_bind _ _ _ _ (fake_date_between_spec _ _)).
  intros [check_in | e] Hdrawn; [| apply always_ret; exact Hdrawn].
  apply (always_bind (fun _ => True)); [apply always_trivial |].
  intros g _.
  apply (always_bind _ _ _ _ (random_choice_lit_In _ _)). intros room Hroom.
  apply (always_bind (fun u => 0.8 <= u /\ u <= 1.2)%Q).
  { apply random_uniform_range. lra. }
  intros u [Hu _].
  apply (always_bind (fun _ => True)); [apply always_trivial |].
  intros r _.
  apply (always_bind (fun s => In s statuses)).
  { destruct (Qltb r (cancellation_rate config)).
    - eapply always_weaken; [| apply random_choice_lit_In].
      simpl. intros s [<- | [<- | []]]; tauto.
    - apply always_ret. simpl. tauto. }
  intros st Hst.
  apply (always_bind _ _ _ _ (random_choice_lit_In _ _)). intros ch Hch.
  apply (always_bind (fun z => 1 <= z <= 4)).
  { apply random_randint_range. lia. }
  intros adults Had.
  apply (always_bind (fun z => 0 <= z <= 3)).
  { apply random_randint_range. lia. }
  intros children Hchild.
  apply (always_bind (fun _ => True)); [apply always_trivial |].
  intros special _.
  apply always_ret.
  constructor; simpl; try assumption; try reflexivity.
  - lia.
  - apply py_round2_lower.
    replace (check_in + Z.max 1 (py_int g) - check_in)
      with (Z.max 1 (py_int g)) by lia.
    apply amount_lower_bound; [now apply base_price_room_types | lia | exact Hu].
Qed.

Lemma generate_bookings_ok (config : Config) (customer : Customer.t)
    (start_date end_date : datetime) :
  always (outcome (Forall (generated_for customer))
            (reversed_range start_date end_date))
    (generate_bookings_for_customer config customer start_date end_date).
Proof.
  unfold generate_bookings_for_customer.
  apply (always_bind (fun _ => True)); [apply always_trivial |]. intros f _.
  apply always_for_range_try, generate_booking_ok.
Qed.

Lemma generate_bookings_length (config : Config) (customer : Customer.t)
    (start_date end_date : datetime) :
  always (outcome (fun bs => (1 <= List.length bs)%nat) any_exn)
    (generate_bookings_for_customer config customer start_date end_date).
Proof.
  unfold generate_bookings_for_customer.
  apply (always_bind (fun _ => True)); [apply always_trivial |]. intros f _.
  eapply always_weaken; [| apply for_range_try_length].
  intros r. apply outcome_weaken; [| tauto].
  intros bs ->. lia.
Qed.

Lemma always_conj {A} (P R : A -> Prop) (m : Rand A) :
  always P m -> always R m -> always (fun a => P a /\ R a) m.
Proof. intros HP HR s. split; [apply HP | apply HR]. Qed.

(** Over a range that does not end before it starts the generator
    returns, and what it returns is not empty. *)
Lemma generate_bookings_forward (config : Config) (customer : Customer.t)
    (start_date end_date : datetime) :
  date_of start_date <= date_of end_date ->
  always (outcome (fun bs => Forall (generated_for customer) bs
                             /\ (1 <= List.length bs)%nat) never)
    (generate_bookings_for_customer config customer start_date end_date).
Proof.
  intros Hse s.
  pose proof (generate_bookings_ok config customer start_date end_date s)
    as Hok.
  pose proof (generate_bookings_length config customer start_date end_date s)
    as Hlen.
  cbv beta in Hok, Hlen.
  destruct (fst (generate_bookings_for_customer config customer start_date
                   end_date s)) as [bs | e]; simpl in *.
  - now split.
  - unfold reversed_range in Hok. lia.
Qed.

(** Over a range that ends before it starts the first turn of the loop
    raises. *)
Lemma generate_bookings_reversed (config : Config) (customer : Customer.t)
    (start_date end_date : datetime) (s : RandomSource) :
  date_of end_date < date_of start_date ->
  fst (generate_bookings_for_customer config customer start_date end_date s)
  = Raise ValueError.
Proof.
  intros Hrev.
  unfold generate_bookings_for_customer. rewrite fst_bind. cbv beta.
  destruct (Z.to_nat (Z.max 1 _)) as [| k] eqn:Ek; [lia |].
  simpl. unfold bind, generate_booking, fake_date_between.
  apply Z.ltb_lt in Hrev. rewrite Hrev. reflexivity.
Qed.

(** The thresholds of the quality gate are never read by the generator. *)
Lemma generator_ignores_thresholds (c1 c2 : Config) (customer : Customer.t)
    (start_date end_date : datetime) (s : RandomSource) :
  customer_segments c1 = customer_segments c2 ->
  cancellation_rate c1 = cancellation_rate c2 ->
  generate_bookings_for_customer c1 customer start_date end_date s
  = generate_bookings_for_customer c2 customer start_date end_date s.
Proof.
  intros Hseg Hrate.
  unfold generate_bookings_for_customer, generate_booking.
  now rewrite Hseg, Hrate.
Qed.

(** ** The weekly per-slot loop *)

Lemma weekly_slots_spec (config : Config) (pool : list Customer.t)
    (start_date end_date : datetime) (n : nat) :
  date_of start_date <= date_of end_date ->
  always (fun r => match r with
                   | Ok bs => List.length bs = n /\ Forall (booked_from pool) bs
                   | Raise e => e = IndexError /\ pool = [] /\ (0 < n)%nat
                   end)
    (weekly_slots config n pool start_date end_date).
Proof.
  intros Hse. induction n as [| n IH]; simpl.
  - apply always_ret. split; [reflexivity | constructor].
  - apply (always_bind _ _ _ _ (random_choice_In pool)).
    intros [customer | e] Hc.
    + apply (always_bind _ _ _ _
               (generate_bookings_forward config customer start_date
                  end_date Hse)).
      intros [bookings | e] Hgen; [| destruct Hgen].
      destruct Hgen as [Hgen Hlen].
      apply (always_bind _ _ _ _ IH). intros [all_bookings | e] Hrest.
      * apply always_ret. destruct Hrest as [Hn Hall].
        destruct bookings as [| b rest]; [simpl in Hlen; lia |].
        split; [simpl; now rewrite Hn |].
        constructor; [| exact Hall].
        exists customer. split; [exact Hc |].
        apply Forall_inv in Hgen. apply (gen_customer _ _ Hgen).
      * apply always_ret. destruct Hrest as (He & Hp & _).
        repeat split; [exact He | exact Hp | lia].
    + apply always_ret. destruct Hc as [He Hp].
      repeat split; [exact He | exact Hp | lia].
Qed.

Lemma assign_ids_length (next : Z) (news : list NewCustomer) :
  List.length (assign_ids next news) = List.length news.
Proof.
  revert next. induction news as [| n rest IH]; intros next; simpl.
  - reflexivity.
  - now rewrite IH.
Qed.

Lemma has_customer_In (cs : list Customer.t) (c : Customer.t) :
  In c cs -> has_customer cs (Customer.customer_id c) = true.
Proof.
  intros H. unfold has_customer. apply existsb_exists.
  exists c. split; [exact H | apply Z.eqb_refl].
Qed.

Lemma generate_customers_length (today : date) (n : nat) :
  always (fun cs => List.length cs = n) (generate_customers today n).
Proof. apply for_range_length. Qed.

(** The window of the weekly run starts 7 days before it ends. *)
Lemma week_is_forward (now : datetime) :
  date_of (now - timedelta_days 7) <= date_of now.
Proof.
  unfold date_of, timedelta_days, usec_per_day.
  apply Z.div_le_mono; lia.
Qed.

Lemma generate_weekly_data_spec (config : Config) (now : datetime)
    (db0 : Database) :
  always (weekly_outcome config db0) (generate_weekly_data config now db0).
Proof.
  unfold generate_weekly_data.
  apply (always_bind _ _ _ _ (generate_customers_length _ _)).
  intros news Hnews. unfold add_all_customers.
  set (saved := assign_ids (next_customer_id db0) news).
  cbv beta iota zeta. simpl customers.
  apply (always_bind _ _ _ _
           (weekly_slots_spec config _ _ _ _ (week_is_forward now))).
  intros [all_bookings | e] Hslots; apply always_ret.
  - destruct Hslots as [Hlen Hfrom]. unfold add_all_bookings. simpl customers.
    assert (Hfk : forallb (fun b => has_customer (customers db0 ++ saved)
                                      (Booking.customer_id b))
                    all_bookings = true).
    { apply forallb_forall. intros b Hb.
      rewrite Forall_forall in Hfrom. destruct (Hfrom b Hb) as (c & Hc & ->).
      apply has_customer_In. apply in_app_or in Hc.
      destruct Hc as [Hc | Hc]; [exact Hc | apply in_or_app; now right]. }
    rewrite Hfk. simpl. exists all_bookings. now split.
  - destruct Hslots as (He & Hpool & Hn). simpl.
    apply app_eq_nil in Hpool. destruct Hpool as [Hpool Hsaved].
    apply app_eq_nil in Hpool. destruct Hpool as [Hcs _].
    repeat split; try assumption.
    rewrite <- Hnews, <- (assign_ids_length (next_customer_id db0)).
    fold saved. now rewrite Hsaved.
Qed.

(** ** Retention: what a completed cleanup leaves behind *)

Lemma id_in_spec (ids : list Z) (id : Z) : id_in ids id = true <-> In id ids.
Proof.
  unfold id_in. rewrite existsb_exists. split.
  - intros (x & Hx & E). apply Z.eqb_eq in E. now subst.
  - intros H. exists id. split; [exact H | apply Z.eqb_refl].
Qed.

Lemma distinct_In (ids : list Z) (id : Z) : In id (distinct ids) <-> In id ids.
Proof.
  induction ids as [| i rest IH]; simpl; [tauto |].
  destruct (existsb (Z.eqb i) rest) eqn:E; simpl; rewrite IH.
  - split; [tauto |]. intros [<- | H]; [| exact H].
    apply existsb_exists in E. destruct E as (x & Hx & Ex).
    apply Z.eqb_eq in Ex. now subst.
  - tauto.
Qed.

Lemma id_in_keep (bs : list Booking.t) (c : Customer.t) :
  id_in (distinct (map Booking.customer_id bs)) (Customer.customer_id c) = true
  <-> has_booking bs c.
Proof.
  rewrite id_in_spec, distinct_In, in_map_iff. unfold has_booking.
  split; intros (b & H1 & H2); exists b; tauto.
Qed.

Lemma filter_all {A} (f : A -> bool) (l : list A) :
  (forall x, In x l -> f x = true) -> filter f l = l.
Proof.
  intros H. induction l as [| x l IH]; simpl; [reflexivity |].
  rewrite (H x) by now left. f_equal. apply IH. intros y Hy. apply H. now right.
Qed.

Lemma filter_none {A} (f : A -> bool) (l : list A) :
  (forall x, In x l -> f x = false) -> filter f l = [].
Proof.
  intros H. induction l as [| x l IH]; simpl; [reflexivity |].
  rewrite (H x) by now left. apply IH. intros y Hy. apply H. now right.
Qed.

(** The state a completed cleanup commits, spelled out. *)
Lemma cleanup_completed (now : datetime) (db0 db1 : Database) (d : Deleted) :
  cleanup_old_data now db0 = (Ok d, db1) ->
  let kept_bookings :=
    filter (fun b => negb (booking_is_old (cutoff_of now) b)) (bookings db0) in
  let keep := distinct (map Booking.customer_id kept_bookings) in
  bookings db1 = kept_bookings
  /\ support_logs db1
     = filter (fun l => negb (log_is_old (cutoff_of now) l)) (support_logs db0)
  /\ customers db1
     = filter (fun c => id_in keep (Customer.customer_id c)) (customers db0)
  /\ next_customer_id db1 = next_customer_id db0
  /\ d = mkDeleted
           (List.length (filter (booking_is_old (cutoff_of now)) (bookings db0)))
           (List.length (filter (log_is_old (cutoff_of now)) (support_logs db0)))
           (List.length
              (filter (fun c => negb (id_in keep (Customer.customer_id c)))
                 (customers db0))).
Proof.
  unfold cleanup_old_data. intros H.
  destruct (still_referenced _ _ _); [discriminate |].
  injection H as <- <-. simpl. repeat split.
Qed.

(** The foreign key of [bookings] never blocks the cleanup: a customer
    about to be deleted has no booking left. *)
Lemma doomed_have_no_booking (bs : list Booking.t) (cs : list Customer.t) :
  existsb
    (fun b =>
       has_customer
         (filter (fun c => negb (id_in (distinct (map Booking.customer_id bs))
                                   (Customer.customer_id c))) cs)
         (Booking.customer_id b)) bs = false.
Proof.
  apply not_true_is_false. intros H.
  apply existsb_exists in H. destruct H as (b & Hb & H).
  unfold has_customer in H. apply existsb_exists in H.
  destruct H as (c & Hc & E). apply Z.eqb_eq in E.
  apply filter_In in Hc. destruct Hc as [_ Hc].
  apply negb_true_iff in Hc.
  assert (Hk : id_in (distinct (map Booking.customer_id bs))
                 (Customer.customer_id c) = true).
  { apply id_in_keep. exists b. split; [exact Hb | now symmetry]. }
  congruence.
Qed.

(** The cleanup is rolled back exactly when a customer left without a
    booking is still referenced by a support log young enough to stay. *)
Lemma cleanup_blocked_iff (now : datetime) (db0 : Database) :
  fst (cleanup_old_data now db0) = Raise IntegrityError
  <-> exists c l,
        In c (customers db0)
        /\ ~ has_booking
               (filter (fun b => negb (booking_is_old (cutoff_of now) b))
                  (bookings db0)) c
        /\ In l (support_logs db0)
        /\ cutoff_of now <= SupportLog.date l
        /\ SupportLog.customer_id l = Customer.customer_id c.
Proof.
  unfold cleanup_old_data, still_referenced.
  rewrite doomed_have_no_booking. cbn [orb].
  set (kept := filter (fun b => negb (booking_is_old (cutoff_of now) b))
                 (bookings db0)).
  match goal with
  | |- fst (if ?t then _ else _) = _ <-> _ => destruct t eqn:E
  end; cbn [fst].
  - split; [intros _ | reflexivity].
    apply existsb_exists in E. destruct E as (l & Hl & E).
    unfold has_customer in E. apply existsb_exists in E.
    destruct E as (c & Hc & Hid). apply Z.eqb_eq in Hid.
    apply filter_In in Hc. destruct Hc as [Hc Hk].
    apply filter_In in Hl. destruct Hl as [Hl Hy].
    exists c, l. repeat split; try assumption.
    + intros Hb. apply id_in_keep in Hb. fold kept in Hk.
      rewrite Hb in Hk. discriminate.
    + unfold log_is_old in Hy. rewrite negb_true_iff, Z.ltb_ge in Hy. exact Hy.
    + now symmetry.
  - split; [discriminate |]. intros (c & l & Hc & Hb & Hl & Hy & Hid).
    exfalso. apply not_true_iff_false in E. apply E.
    apply existsb_exists. exists l. split.
    + apply filter_In. split; [exact Hl |].
      unfold log_is_old. now rewrite negb_true_iff, Z.ltb_ge.
    + unfold has_customer. apply existsb_exists. exists c. split.
      * apply filter_In. split; [exact Hc |].
        apply negb_true_iff, not_true_iff_false. intros Hk.
        apply Hb. now apply id_in_keep.
      * apply Z.eqb_eq. now symmetry.
Qed.

(** ** Quality gate: the order of the checks *)

Lemma isin_spec (allowed : list string) (s : string) :
  isin allowed s = true <-> In s allowed.
Proof.
  unfold isin. rewrite existsb_exists. split.
  - intros (x & Hx & E). apply String.eqb_eq in E. now subst.
  - intros H. exists s. split; [exact H | apply String.eqb_refl].
Qed.

Lemma failing_from_nil {R} (check : R -> bool) (rows : list R) (i : nat) :
  failing_from check i rows = [] <-> forallb check rows = true.
Proof.
  revert i. induction rows as [| r rest IH]; intros i; simpl; [tauto |].
  destruct (check r); simpl; [apply IH |]. split; discriminate.
Qed.

Lemma schema_failures_nil {R} (schema : list (string * (R -> bool)))
    (rows : list R) :
  schema_failures schema rows = [] <-> forallb (row_passes schema) rows = true.
Proof.
  unfold schema_failures, row_passes.
  induction schema as [| col schema IH]; simpl.
  - split; [| reflexivity]. intros _. now apply forallb_forall.
  - split.
    + intros H. apply app_eq_nil in H. destruct H as [H1 H2].
      apply map_eq_nil in H1. apply failing_from_nil in H1.
      apply IH in H2. apply forallb_forall. intros r Hr.
      rewrite forallb_forall in H1, H2. now rewrite H1, H2.
    + intros H. rewrite forallb_forall in H.
      assert (H1 : forallb (snd col) rows = true).
      { apply forallb_forall. intros r Hr.
        specialize (H r Hr). now apply andb_true_iff in H. }
      assert (H2 : forallb (fun r => forallb (fun c => snd c r) schema) rows
                   = true).
      { apply forallb_forall. intros r Hr.
        specialize (H r Hr). now apply andb_true_iff in H. }
      apply (failing_from_nil _ _ 0%nat) in H1. rewrite H1. simpl.
      now apply IH.
Qed.

Lemma is_empty_filter {A} (f : A -> bool) (l : list A) :
  is_empty (filter f l) = forallb (fun x => negb (f x)) l.
Proof.
  induction l as [| x l IH]; simpl; [reflexivity |].
  destruct (f x); simpl; [reflexivity | exact IH].
Qed.

(** [validate_bookings] accepts a batch exactly when the four checks pass. *)
Lemma validate_bookings_ok_iff (config : Config) (df : BookingsDF.t) :
  fst (verdict_of (validate_bookings config df)) = true
  <-> forallb (row_passes (booking_schema config)) (BookingsDF.rows df) = true
      /\ forallb (fun r => negb (checks_out_late r)) (BookingsDF.rows df) = true
      /\ ids_duplicated (BookingsDF.booking_id df) = false
      /\ forallb (fun r => negb (nights_out_of_band config r))
           (BookingsDF.rows df) = true.
Proof.
  rewrite <- schema_failures_nil. rewrite <- !is_empty_filter.
  unfold validate_bookings, verdict_of, ids_duplicated.
  destruct (schema_failures (booking_schema config) (BookingsDF.rows df)).
  - fold checks_out_late.
    destruct (is_empty (filter checks_out_late (BookingsDF.rows df))); simpl.
    + destruct (BookingsDF.booking_id df) as [ids |].
      * destruct (has_duplicates ids); simpl.
        -- split; [discriminate | intros (_ & _ & H & _); discriminate].
        -- fold (nights_out_of_band config).
           destruct (is_empty (filter (nights_out_of_band config)
                                 (BookingsDF.rows df))); simpl.
           ++ tauto.
           ++ split; [discriminate | intros (_ & _ & _ & H); discriminate].
      * fold (nights_out_of_band config).
        destruct (is_empty (filter (nights_out_of_band config)
                              (BookingsDF.rows df))); simpl.
        -- tauto.
        -- split; [discriminate | intros (_ & _ & _ & H); discriminate].
    + split; [discriminate | intros (_ & H & _); discriminate].
  - simpl. split; [discriminate | intros (H & _); discriminate].
Qed.

(** ** No bound on the stay: the normal draw is only floored *)

Lemma for_range_try_first {A} (body : Rand (result A)) (n : nat)
    (s : RandomSource) (l : list A) :
  fst (for_range_try (S n) body s) = Ok l ->
  exists a rest, fst (body s) = Ok a /\ l = a :: rest.
Proof.
  simpl. unfold bind. destruct (body s) as [[a | e] s1]; [| discriminate].
  destruct (for_range_try n body s1) as [[rest | e] s2]; [| discriminate].
  simpl. intros H. injection H as <-. now exists a, rest.
Qed.

Lemma fake_date_between_forward (start_date end_date : date)
    (s : RandomSource) :
  start_date <= end_date ->
  fake_date_between start_date end_date s
  = (Ok (fst (uniform_date start_date end_date s)),
     snd (uniform_date start_date end_date s)).
Proof.
  intros Hse. unfold fake_date_between.
  apply Z.ltb_ge in Hse. rewrite Hse. unfold bind, ret.
  now destruct (uniform_date start_date end_date s).
Qed.

Lemma py_int_inject_Z (z : Z) : py_int (inject_Z z) = z.
Proof.
  unfold py_int. destruct (Qle_bool 0 (inject_Z z));
    [apply Qfloor_Z | apply Qceiling_Z].
Qed.

Lemma py_int_comp (x y : Q) : (x == y)%Q -> py_int x = py_int y.
Proof.
  intros E. unfold py_int. rewrite (Qleb_comp 0%Q 0%Q (Qeq_refl 0%Q) x y E).
  destruct (Qle_bool 0 y); [now apply Qfloor_comp | now apply Qceiling_comp].
Qed.

(** Over a range that does not end before it starts, the length of the
    stay is decided by the next draw of the [random] module alone. *)
Lemma generate_booking_nights (config : Config) (customer : Customer.t)
    (start_date end_date : datetime) (s : RandomSource) :
  date_of start_date <= date_of end_date ->
  outcome
    (stays
       (Z.max 1
          (py_int (avg_nights_per_stay
                     (customer_segments config
                        (Customer.job_category customer))
                   + fst (next_raw (py_tape s)) * 2)%Q)))
    never
    (fst (generate_booking config customer start_date end_date s)).
Proof.
  intros Hse. unfold generate_booking.
  rewrite fst_bind. rewrite (fake_date_between_forward _ _ s Hse).
  cbn [fst snd]. rewrite fst_bind. cbv beta.
  set (avg := avg_nights_per_stay
                (customer_segments config (Customer.job_category customer))).
  set (s0 := snd (uniform_date (date_of start_date) (date_of end_date) s)).
  assert (Hg : fst (random_gauss avg 2 s0)
               = (avg + fst (next_raw (py_tape s)) * 2)%Q).
  { unfold s0, random_gauss, uniform_date, bind, draw_py, draw_faker, ret.
    destruct s as [pt ft]. cbn [py_tape faker_tape].
    destruct (next_raw ft). cbn [py_tape faker_tape snd fst].
    now destruct (next_raw pt). }
  rewrite Hg.
  generalize (snd (random_gauss avg 2 s0)).
  match goal with
  | |- forall s2, ?P (fst (?m s2)) => change (always P m)
  end.
  repeat (apply (always_bind (fun _ => True));
          [apply always_trivial | intros ? _]).
  apply always_ret. unfold stays. simpl. lia.
Qed.

(** Whatever the configuration, the customer and the range (one that
    does not end before it starts), and whatever bound [N] one hopes for,
    some state of the random source yields a booking that lasts more than
    [N] nights and costs more than [N]. *)
Lemma no_bound_on_stay_or_amount (config : Config) (customer : Customer.t)
    (start_date end_date : datetime) (N : Z) :
  date_of start_date <= date_of end_date ->
  exists s b,
    In b (produced (fst (generate_bookings_for_customer config customer
                           start_date end_date s)))
    /\ N < Booking.check_out_date b - Booking.check_in_date b
    /\ (inject_Z N < Booking.amount_spent b)%Q.
Proof.
  intros Hse.
  set (avg := avg_nights_per_stay
                (customer_segments config (Customer.job_category customer))).
  set (M := Z.max N 0 + 1).
  set (s := mkRandomSource [0%Q; ((inject_Z M - avg) / 2)%Q] []).
  set (s1 := snd (random_uniform 0.5 1.5 s)).
  assert (Hs1 : py_tape s1 = [((inject_Z M - avg) / 2)%Q]) by reflexivity.
  pose proof (generate_bookings_forward config customer start_date end_date
                Hse s) as Hfw.
  cbv beta in Hfw.
  destruct (fst (generate_bookings_for_customer config customer start_date
                   end_date s)) as [bs | e] eqn:Ebs; [| destruct Hfw].
  simpl in Hfw. destruct Hfw as [Hall Hlen].
  assert (E : exists b rest,
             fst (generate_booking config customer start_date end_date s1)
             = Ok b /\ bs = b :: rest).
  { revert Ebs Hlen.
    unfold generate_bookings_for_customer. rewrite fst_bind. cbv beta.
    fold s1. destruct (Z.to_nat _) as [| k].
    - simpl. intros H. injection H as <-. simpl. lia.
    - intros H _. now apply for_range_try_first in H. }
  destruct E as (b & rest & Eb & ->).
  apply Forall_inv in Hall.
  pose proof (generate_booking_nights config customer start_date end_date s1
                Hse) as Hn.
  rewrite Eb in Hn. cbn [outcome] in Hn.
  rewrite Hs1 in Hn. cbn [next_raw fst] in Hn. fold avg in Hn.
  rewrite (py_int_comp _ (inject_Z M)) in Hn by field.
  rewrite py_int_inject_Z in Hn. unfold stays in Hn.
  exists s, b.
  split; [rewrite Ebs; simpl; now left |].
  assert (HM : N < M) by (unfold M; lia).
  split; [rewrite Hn; lia |].
  eapply Qlt_le_trans; [| apply (gen_amount _ _ Hall)].
  rewrite Hn. rewrite <- Zlt_Qlt. unfold M. lia.
Qed.

(** * The claims *)

Example long_stay_booking :
  fst (generate_bookings_for_customer sample_config alice
         (week_before sample_now) sample_now long_stay_tape)
  = Ok [Booking.mk 1 (ymd 2025 5 28) (ymd 2025 6 12) 4500.00 "Suite"
          "OTA (Booking.com)" 1 0 "Pet Friendly" "Checked-Out"].
Proof. vm_compute. reflexivity. Qed.

(** C1, as stated, fails: with [max_nights_stay = 14] and a mean of 5
    nights, a draw 5 standard deviations above the mean yields a stay of 15
    nights. *)
Lemma generated_stay_can_leave_band :
  ~ (forall config customer start_date end_date s,
        Forall (stay_within_band config)
          (produced
             (fst (generate_bookings_for_customer config customer start_date
                     end_date s)))).
Proof.
  intros H.
  specialize (H sample_config alice (week_before sample_now) sample_now
                long_stay_tape).
  rewrite long_stay_booking in H. apply Forall_inv in H.
  destruct H as [_ [_ H]]. vm_compute in H. now apply H.
Qed.

(** C1 (amended): every booking returned by
    [generate_bookings_for_customer], for any customer, range and state of
    the random source, checks out strictly after it checks in, and its
    number of nights [check_out_date - check_in_date] is at least 1; the
    generator does not read [min_nights_stay] or [max_nights_stay]. *)
Theorem generated_stay_at_least_one_night (config : Config)
    (customer : Customer.t) (start_date end_date : datetime)
    (s : RandomSource) :
  Forall (fun b =>
            Booking.check_in_date b < Booking.check_out_date b
            /\ 1 <= Booking.check_out_date b - Booking.check_in_date b)
    (produced
       (fst (generate_bookings_for_customer config customer start_date
               end_date s))).
Proof.
  eapply Forall_impl; [| eapply produced_Forall, generate_bookings_ok].
  intros b Hb. pose proof (gen_nights _ _ Hb). lia.
Qed.

Example pricey_stay_booking :
  fst (generate_bookings_for_customer sample_config alice
         (week_before sample_now) sample_now pricey_stay_tape)
  = Ok [Booking.mk 1 (ymd 2025 5 28) (ymd 2025 6 12) 5220.00 "Suite"
          "OTA (Booking.com)" 1 0 "Pet Friendly" "Checked-Out"].
Proof. vm_compute. reflexivity. Qed.

(** C7, as stated, fails: with [max_booking_amount = 5000], fifteen nights
    in the suite at 1.16 times the base rate cost 5220. *)
Lemma generated_amount_can_exceed_limit :
  ~ (forall config customer start_date end_date s,
        Forall (amount_within_limit config)
          (produced
             (fst (generate_bookings_for_customer config customer start_date
                     end_date s)))).
Proof.
  intros H.
  specialize (H sample_config alice (week_before sample_now) sample_now
                pricey_stay_tape).
  rewrite pricey_stay_booking in H. apply Forall_inv in H.
  destruct H as [_ H]. vm_compute in H. now apply H.
Qed.

(** C7 (amended): every booking returned by
    [generate_bookings_for_customer], over all draws of the random source,
    has [amount_spent >= 0] (indeed at least 96, one night in the cheapest
    room at 0.8 times its rate); the generator does not read
    [max_booking_amount]. *)
Theorem generated_amount_nonnegative (config : Config)
    (customer : Customer.t) (start_date end_date : datetime)
    (s : RandomSource) :
  Forall (fun b => 0 <= Booking.amount_spent b
                   /\ 96 <= Booking.amount_spent b)%Q
    (produced
       (fst (generate_bookings_for_customer config customer start_date
               end_date s))).
Proof.
  eapply Forall_impl; [| eapply produced_Forall, generate_bookings_ok].
  intros b Hb. pose proof (gen_amount _ _ Hb) as Ha.
  pose proof (gen_nights _ _ Hb) as Hn.
  assert (H96 : (96 <= inject_Z (96 * (Booking.check_out_date b
                                       - Booking.check_in_date b)))%Q).
  { change 96%Q with (inject_Z 96). rewrite <- Zle_Qle. lia. }
  split; lra.
Qed.

(** C9, as stated, fails: the third channel the generator can draw is
    ["OTA (Booking.com)"], which is none of the four values listed. *)
Lemma generated_channel_outside_spec_list :
  ~ (forall config customer start_date end_date s,
        Forall (fun b => In (Booking.booking_channel b) spec_channels)
          (produced
             (fst (generate_bookings_for_customer config customer start_date
                     end_date s)))).
Proof.
  intros H.
  specialize (H sample_config alice (week_before sample_now) sample_now
                long_stay_tape).
  rewrite long_stay_booking in H. apply Forall_inv in H. simpl in H.
  repeat (destruct H as [H | H]; [discriminate |]). exact H.
Qed.

Lemma row_passes_with_channel (config : Config) (s : string)
    (r : BookingsDF.row) :
  row_passes (booking_schema config) r = true ->
  (row_passes (booking_schema config) (with_channel s r) = true
   <-> In s channels).
Proof.
  unfold row_passes, booking_schema. cbn [forallb snd].
  rewrite !andb_true_iff. cbn [with_channel BookingsDF.customer_id
    BookingsDF.amount_spent BookingsDF.room_type BookingsDF.booking_channel
    BookingsDF.num_adults BookingsDF.num_children BookingsDF.status].
  rewrite <- (isin_spec channels s). tauto.
Qed.

Lemma row_passes_channel (config : Config) (r : BookingsDF.row) :
  row_passes (booking_schema config) r = true ->
  In (BookingsDF.booking_channel r) channels.
Proof.
  unfold row_passes, booking_schema. cbn [forallb snd].
  rewrite !andb_true_iff. rewrite <- isin_spec. tauto.
Qed.

(** C9 (amended): the channel of every booking the generator produces is
    one of the four values Direct Website, Agent, OTA (Booking.com),
    Walk-in; every batch [validate_bookings] accepts has all its channels
    among these four, and in an accepted batch, replacing the channel of
    one row by a string [s] keeps the batch accepted if and only if [s] is
    one of these four values. *)
Theorem channel_is_one_of_the_four :
  channels = ["Direct Website"; "Agent"; "OTA (Booking.com)"; "Walk-in"]
  /\ (forall config customer start_date end_date s,
         Forall (fun b => In (Booking.booking_channel b) channels)
           (produced
              (fst (generate_bookings_for_customer config customer start_date
                      end_date s))))
  /\ (forall config df,
         fst (verdict_of (validate_bookings config df)) = true ->
         Forall (fun r => In (BookingsDF.booking_channel r) channels)
           (BookingsDF.rows df))
  /\ (forall config before r after ids nights s,
         fst (verdict_of
                (validate_bookings config
                   (BookingsDF.mk (before ++ r :: after) ids nights))) = true ->
         (fst (verdict_of
                 (validate_bookings config
                    (BookingsDF.mk (before ++ with_channel s r :: after)
                       ids nights))) = true
          <-> In s channels)).
Proof.
  split; [reflexivity |]. split; [| split].
  - intros config customer start_date end_date s.
    eapply Forall_impl; [| eapply produced_Forall, generate_bookings_ok].
    intros b Hb. exact (gen_channel _ _ Hb).
  - intros config df H. apply validate_bookings_ok_iff in H.
    destruct H as [H _]. apply Forall_forall. intros r Hr.
    rewrite forallb_forall in H. apply (row_passes_channel config), H, Hr.
  - intros config before r after ids nights s H.
    rewrite validate_bookings_ok_iff in *. cbn [BookingsDF.rows
      BookingsDF.booking_id] in *.
    rewrite !forallb_app in *. cbn [forallb] in *.
    rewrite !andb_true_iff in *.
    destruct H as ((Hb & Hr & Ha) & (Hb2 & Hr2 & Ha2) & Hdup
                   & (Hb3 & Hr3 & Ha3)).
    pose proof (row_passes_with_channel config s r Hr) as Hs.
    change (checks_out_late (with_channel s r)) with (checks_out_late r).
    change (nights_out_of_band config (with_channel s r))
      with (nights_out_of_band config r).
    tauto.
Qed.

Lemma channel_is_one_of_the_four_witness :
  fst (verdict_of
         (validate_bookings sample_config
            (BookingsDF.mk [with_channel "Walk-in" good_row] None None)))
  = true
  /\ ~ fst (verdict_of
              (validate_bookings sample_config
                 (BookingsDF.mk [with_channel "OTA" good_row] None None)))
       = true.
Proof.
  pose proof (proj2 (proj2 (proj2 channel_is_one_of_the_four))
                sample_config [] good_row [] None None) as H.
  assert (Hgood : fst (verdict_of
                         (validate_bookings sample_config
                            (BookingsDF.mk ([] ++ good_row :: []) None None)))
                  = true) by (vm_compute; reflexivity).
  split.
  - apply (H "Walk-in" Hgood). simpl. tauto.
  - intros Hbad. apply (H "OTA" Hgood) in Hbad. simpl in Hbad.
    repeat (destruct Hbad as [Hbad | Hbad]; [discriminate |]). exact Hbad.
Defined.

(** ** The weekly run *)

Example reversed_week_raises :
  fst (generate_bookings_for_customer sample_config bob
         sample_now (week_before sample_now) short_tape)
  = Raise ValueError.
Proof. vm_compute. reflexivity. Qed.

(** C10, as stated, fails: for a range that ends a week before it starts,
    [fake.date_between] raises [ValueError] in the first turn of the loop
    and no list is returned. *)
Lemma reversed_range_returns_no_list :
  ~ (forall config customer start_date end_date s,
        exists b rest,
          fst (generate_bookings_for_customer config customer start_date
                 end_date s) = Ok (b :: rest)).
Proof.
  intros H.
  destruct (H sample_config bob sample_now (week_before sample_now)
              short_tape) as (b & rest & E).
  rewrite reversed_week_raises in E. discriminate E.
Qed.

(** C10 (amended): for every customer, every state of the random source
    and every start/end pair whose end date is not before its start date
    (the two may be the same day), [generate_bookings_for_customer]
    returns a non-empty list; when the end date is before the start date
    it raises [ValueError] instead.  The window of the weekly run is the 7
    days up to now, hence every turn of its per-slot loop appends exactly
    one booking: a weekly run that completes commits exactly
    [bookings_per_week] new bookings, and it completes whenever there is a
    customer to choose from (otherwise [random.choice] raises and no
    booking is added). *)
Theorem weekly_run_books_every_slot (config : Config) :
  (forall customer start_date end_date s,
      date_of start_date <= date_of end_date ->
      exists b rest,
        fst (generate_bookings_for_customer config customer start_date
               end_date s) = Ok (b :: rest))
  /\ (forall customer start_date end_date s,
         date_of end_date < date_of start_date ->
         fst (generate_bookings_for_customer config customer start_date
                end_date s) = Raise ValueError)
  /\ (forall now db0 s,
         weekly_outcome config db0
           (fst (generate_weekly_data config now db0 s)))
  /\ (forall now db0 s,
         customers db0 <> [] \/ (0 < new_customers_per_week config)%nat ->
         exists added db1,
           fst (generate_weekly_data config now db0 s) = (Ok tt, db1)
           /\ bookings db1 = bookings db0 ++ added
           /\ List.length added = bookings_per_week config).
Proof.
  split; [| split; [| split]].
  - intros customer start_date end_date s Hse.
    pose proof (generate_bookings_forward config customer start_date end_date
                  Hse s) as H.
    cbv beta in H.
    destruct (fst (generate_bookings_for_customer config customer start_date
                     end_date s)) as [[| b rest] | e]; simpl in H.
    + destruct H as [_ H]. simpl in H. lia.
    + now exists b, rest.
    + destruct H.
  - intros customer start_date end_date s.
    apply generate_bookings_reversed.
  - intros now db0 s. apply generate_weekly_data_spec.
  - intros now db0 s Hpool.
    pose proof (generate_weekly_data_spec config now db0 s) as H.
    simpl in H.
    destruct (fst (generate_weekly_data config now db0 s)) as [[[] | e] db1].
    + destruct H as (added & H1 & H2). now exists added, db1.
    + destruct H as (_ & Hcs & Hnew & _). exfalso.
      destruct Hpool as [Hp | Hp]; [now apply Hp | lia].
Qed.

Lemma weekly_run_books_every_slot_witness :
  (exists b rest,
      fst (generate_bookings_for_customer sample_config bob
             (week_before sample_now) sample_now short_tape)
      = Ok (b :: rest))
  /\ fst (generate_bookings_for_customer sample_config alice
            sample_now (four_years_ago sample_now) long_stay_tape)
     = Raise ValueError
  /\ exists added db1,
       fst (generate_weekly_data sample_config sample_now sample_db short_tape)
       = (Ok tt, db1)
       /\ bookings db1 = bookings sample_db ++ added
       /\ List.length added = 3%nat.
Proof.
  split; [| split].
  - apply (proj1 (weekly_run_books_every_slot sample_config)).
    vm_compute. discriminate.
  - apply (proj1 (proj2 (weekly_run_books_every_slot sample_config))).
    vm_compute. reflexivity.
  - apply (proj2 (proj2 (proj2 (weekly_run_books_every_slot sample_config)))
             sample_now sample_db short_tape).
    left. discriminate.
Defined.

(** ** Retention *)

Example retention_db_cleanup :
  cleanup_old_data sample_now retention_db
  = (Ok (mkDeleted 2 1 2),
     mkDatabase [alice; bob]
       [stay 1 (ymd 2025 4 1) 5; stay 2 (ymd 2025 5 20) 2]
       [SupportLog.mk 1 (midnight (ymd 2025 4 3))
          "Guest requested extra blankets due to cold weather."]
       5).
Proof. vm_compute. reflexivity. Qed.

(** C2, as stated, fails: Dave has no booking before the cleanup, so no
    deletion emptied his set of bookings, and yet he is removed. *)
Lemma cleanup_removes_never_booked_customer :
  ~ (forall now db0 d db1,
        cleanup_old_data now db0 = (Ok d, db1) ->
        forall c, In c (customers db0) ->
                  (~ In c (customers db1) <-> emptied_by_cleanup now db0 c)).
Proof.
  intros H.
  specialize (H sample_now retention_db _ _ retention_db_cleanup dave).
  destruct H as [H _]; [simpl; tauto |].
  destruct H as [(b & Hb & Hid) _].
  - simpl. intros [E | [E | []]]; discriminate E.
  - simpl in Hb.
    repeat (destruct Hb as [<- | Hb]; [discriminate Hid |]). exact Hb.
Qed.

(** C2 (amended): whenever [cleanup_old_data] completes at time [now], with
    [cutoff = now - 5 * 365 days], the bookings that remain are exactly
    those with [check_in_date >= cutoff] (every booking with
    [check_in_date < cutoff] is removed), the support logs that remain are
    exactly those with [date >= cutoff], and the customers that remain are
    exactly those referenced by a remaining booking: a customer is removed
    if and only if no booking of the post-deletion booking set references
    it, whether or not it had bookings before. *)
Theorem cleanup_removes_expired_rows_and_unbooked_customers
    (now : datetime) (db0 db1 : Database) (d : Deleted) :
  cleanup_old_data now db0 = (Ok d, db1) ->
  (forall b, In b (bookings db1)
             <-> In b (bookings db0)
                 /\ cutoff_of now <= midnight (Booking.check_in_date b))
  /\ (forall l, In l (support_logs db1)
                <-> In l (support_logs db0)
                    /\ cutoff_of now <= SupportLog.date l)
  /\ (forall c, In c (customers db1)
                <-> In c (customers db0) /\ has_booking (bookings db1) c).
Proof.
  intros H. apply cleanup_completed in H. cbv zeta in H.
  destruct H as (Hb & Hl & Hc & _ & _).
  split; [| split].
  - intros b. rewrite Hb, filter_In. unfold booking_is_old.
    rewrite negb_true_iff, Z.ltb_ge. tauto.
  - intros l. rewrite Hl, filter_In. unfold log_is_old.
    rewrite negb_true_iff, Z.ltb_ge. tauto.
  - intros c. rewrite Hc, filter_In, Hb, id_in_keep. tauto.
Qed.

Lemma cleanup_removes_expired_rows_and_unbooked_customers_witness :
  In alice [alice; bob] /\ ~ In dave [alice; bob].
Proof.
  pose proof (cleanup_removes_expired_rows_and_unbooked_customers
                sample_now retention_db _ _ retention_db_cleanup)
    as (_ & _ & Hc).
  cbn [customers bookings] in Hc. split.
  - apply Hc. split; [simpl; tauto |].
    exists (stay 1 (ymd 2025 4 1) 5). split; [simpl; tauto | reflexivity].
  - intros Hd. apply Hc in Hd. destruct Hd as [_ (b & Hb & Hid)].
    simpl in Hb.
    repeat (destruct Hb as [<- | Hb]; [discriminate Hid |]). exact Hb.
Defined.

(** C4: after any completed run of [cleanup_old_data], every customer
    remaining in the dataset is referenced by at least one remaining
    booking. *)
Theorem cleanup_leaves_no_unbooked_customer
    (now : datetime) (db0 db1 : Database) (d : Deleted) :
  cleanup_old_data now db0 = (Ok d, db1) ->
  forall c, In c (customers db1) ->
            exists b, In b (bookings db1)
                      /\ Booking.customer_id b = Customer.customer_id c.
Proof.
  intros H c Hc. apply cleanup_completed in H. cbv zeta in H.
  destruct H as (Hb & _ & Hcs & _ & _).
  rewrite Hcs in Hc. apply filter_In in Hc. destruct Hc as [_ Hc].
  rewrite Hb. now apply id_in_keep.
Qed.

Lemma cleanup_leaves_no_unbooked_customer_witness :
  exists b, In b [stay 1 (ymd 2025 4 1) 5; stay 2 (ymd 2025 5 20) 2]
            /\ Booking.customer_id b = 2.
Proof.
  apply (cleanup_leaves_no_unbooked_customer sample_now retention_db _ _
           retention_db_cleanup bob).
  simpl. tauto.
Defined.

Lemma nothing_still_referenced (bs : list Booking.t) (ls : list SupportLog.t) :
  still_referenced [] bs ls = false.
Proof.
  unfold still_referenced, has_customer. simpl.
  apply orb_false_iff. split; apply not_true_is_false; intros H;
    apply existsb_exists in H; destruct H as (_ & _ & H); discriminate.
Qed.

(** A cleanup that finds nothing expired and no unbooked customer deletes
    nothing and leaves the database as it is. *)
Lemma cleanup_nothing_to_do (now : datetime) (db0 : Database) :
  (forall b, In b (bookings db0) -> booking_is_old (cutoff_of now) b = false) ->
  (forall l, In l (support_logs db0) -> log_is_old (cutoff_of now) l = false) ->
  (forall c, In c (customers db0) -> has_booking (bookings db0) c) ->
  cleanup_old_data now db0 = (Ok (mkDeleted 0 0 0), db0).
Proof.
  intros Hb Hl Hc. unfold cleanup_old_data.
  rewrite (filter_none _ _ Hb), (filter_none _ _ Hl).
  rewrite (filter_all (fun b => negb (booking_is_old (cutoff_of now) b)))
    by (intros b Hin; now rewrite (Hb b Hin)).
  rewrite (filter_all (fun l => negb (log_is_old (cutoff_of now) l)))
    by (intros l Hin; now rewrite (Hl l Hin)).
  rewrite (filter_none (fun c => negb (id_in _ (Customer.customer_id c))))
    by (intros c Hin; apply negb_false_iff, id_in_keep, Hc, Hin).
  rewrite (filter_all (fun c => id_in _ (Customer.customer_id c)))
    by (intros c Hin; apply id_in_keep, Hc, Hin).
  rewrite nothing_still_referenced. simpl. now destruct db0.
Qed.

(** C5, as stated, fails: a second run whose cutoff is later than the
    first's, here by one microsecond, deletes the booking that crossed the
    cutoff in between, and its customer. *)
Lemma second_cleanup_with_later_cutoff_deletes :
  ~ (forall now1 now2 db0 d1 db1,
        cleanup_old_data now1 db0 = (Ok d1, db1) ->
        cutoff_of now1 <= cutoff_of now2 ->
        fst (cleanup_old_data now2 db1) = Ok (mkDeleted 0 0 0)).
Proof.
  intros H.
  specialize (H (expiry_instant (ymd 2025 4 1))
                (expiry_instant (ymd 2025 4 1) + 1)
                lone_booking_db (mkDeleted 0 0 0) lone_booking_db).
  assert (E : fst (cleanup_old_data (expiry_instant (ymd 2025 4 1) + 1)
                     lone_booking_db)
              = Ok (mkDeleted 1 0 1)) by (vm_compute; reflexivity).
  rewrite E in H. discriminate H.
  - vm_compute. reflexivity.
  - vm_compute. discriminate.
Qed.

(** C5 (amended): [cleanup_old_data] is idempotent: for every dataset
    state, a second run right after a completed first run, with no
    generation or insertion in between and a cutoff no later than the first
    run's, completes, deletes zero bookings, zero support logs and zero
    customers, and leaves the dataset unchanged. *)
Theorem second_cleanup_deletes_nothing
    (now1 now2 : datetime) (db0 db1 : Database) (d1 : Deleted) :
  cleanup_old_data now1 db0 = (Ok d1, db1) ->
  cutoff_of now2 <= cutoff_of now1 ->
  cleanup_old_data now2 db1 = (Ok (mkDeleted 0 0 0), db1).
Proof.
  intros H Hcut.
  apply cleanup_completed in H. cbv zeta in H.
  destruct H as (Hb & Hl & Hc & _ & _).
  apply cleanup_nothing_to_do.
  - intros b Hin. rewrite Hb in Hin. apply filter_In in Hin.
    destruct Hin as [_ Hin]. apply negb_true_iff in Hin.
    unfold booking_is_old in *. rewrite Z.ltb_ge in *. lia.
  - intros l Hin. rewrite Hl in Hin. apply filter_In in Hin.
    destruct Hin as [_ Hin]. apply negb_true_iff in Hin.
    unfold log_is_old in *. rewrite Z.ltb_ge in *. lia.
  - intros c Hin. rewrite Hc in Hin. apply filter_In in Hin.
    destruct Hin as [_ Hin]. rewrite Hb. now apply id_in_keep.
Qed.

Lemma second_cleanup_deletes_nothing_witness :
  cleanup_old_data sample_now
    (mkDatabase [alice; bob]
       [stay 1 (ymd 2025 4 1) 5; stay 2 (ymd 2025 5 20) 2]
       [SupportLog.mk 1 (midnight (ymd 2025 4 3))
          "Guest requested extra blankets due to cold weather."]
       5)
  = (Ok (mkDeleted 0 0 0),
     mkDatabase [alice; bob]
       [stay 1 (ymd 2025 4 1) 5; stay 2 (ymd 2025 5 20) 2]
       [SupportLog.mk 1 (midnight (ymd 2025 4 3))
          "Guest requested extra blankets due to cold weather."]
       5).
Proof.
  apply (second_cleanup_deletes_nothing sample_now sample_now retention_db _ _
           retention_db_cleanup).
  lia.
Defined.

(** ** Orchestration *)

(** C6: in the weekly pipeline, once the connection test has passed, an
    exception raised by the cleanup stage does not abort the run: the
    generation stage still runs, on the state the failed cleanup left, and
    if it and the verification step succeed [run_weekly_pipeline] returns
    [True]; and whatever the cleanup did, an exception raised by the
    generation stage makes [run_weekly_pipeline] return [False]. *)
Theorem cleanup_failure_does_not_abort (World : Type)
    (test_connection : World -> bool * World)
    (cleanup generate verify : World -> result unit * World)
    (w w1 : World) :
  test_connection w = (true, w1) ->
  (forall e w2 u w3 u' w4,
      cleanup w1 = (Raise e, w2) ->
      generate w2 = (Ok u, w3) ->
      verify w3 = (Ok u', w4) ->
      run_weekly_pipeline World test_connection cleanup generate verify w
      = (Ok true, w4))
  /\ (forall r w2 e w3,
         cleanup w1 = (r, w2) ->
         generate w2 = (Raise e, w3) ->
         run_weekly_pipeline World test_connection cleanup generate verify w
         = (Ok false, w3)).
Proof.
  intros Hconn. unfold run_weekly_pipeline. rewrite Hconn. simpl. split.
  - intros e w2 u w3 u' w4 Hclean Hgen Hver.
    now rewrite Hclean, Hgen, Hver.
  - intros r w2 e w3 Hclean Hgen.
    now rewrite Hclean, Hgen.
Qed.

Example stuck_db_cleanup :
  cleanup_old_data sample_now stuck_db = (Raise IntegrityError, stuck_db).
Proof. vm_compute. reflexivity. Qed.

Lemma cleanup_failure_does_not_abort_witness :
  fst (hotel_weekly_pipeline sample_config stuck_world) = Ok true
  /\ fst (hotel_weekly_pipeline barren_config barren_world) = Ok false.
Proof.
  split.
  - unfold hotel_weekly_pipeline.
    erewrite (proj1 (cleanup_failure_does_not_abort HotelWorld
                       hotel_test_connection hotel_cleanup
                       (hotel_generate sample_config) hotel_verify
                       stuck_world stuck_world eq_refl)
                IntegrityError stuck_world tt _ tt).
    + reflexivity.
    + vm_compute. reflexivity.
    + vm_compute. reflexivity.
    + vm_compute. reflexivity.
  - unfold hotel_weekly_pipeline.
    erewrite (proj2 (cleanup_failure_does_not_abort HotelWorld
                       hotel_test_connection hotel_cleanup
                       (hotel_generate barren_config) hotel_verify
                       barren_world barren_world eq_refl)
                (Ok tt) barren_world IndexError).
    + reflexivity.
    + vm_compute. reflexivity.
    + vm_compute. reflexivity.
Defined.

(** ** Quality gate *)

Example good_batch_validated :
  validate_bookings sample_config good_batch
  = ((true, None),
     BookingsDF.mk [good_row] None (Some [3]),
     ["✓ All 1 bookings passed quality checks"]).
Proof. vm_compute. reflexivity. Qed.

(** C3, as stated, fails: after [validate_bookings] has accepted a batch,
    the DataFrame it was given has a [nights] column it did not have
    before. *)
Lemma validate_bookings_adds_a_column :
  ~ (forall config df, frame_after (validate_bookings config df) = df).
Proof.
  intros H. specialize (H sample_config good_batch).
  rewrite good_batch_validated in H. discriminate H.
Qed.

Lemma validate_bookings_frame (config : Config) (df : BookingsDF.t) :
  frame_after (validate_bookings config df)
  = if reaches_nights_check config df
    then BookingsDF.mk (BookingsDF.rows df) (BookingsDF.booking_id df)
           (Some (map nights_of (BookingsDF.rows df)))
    else df.
Proof.
  unfold reaches_nights_check.
  destruct (forallb (row_passes (booking_schema config)) (BookingsDF.rows df))
    eqn:Hs.
  - apply schema_failures_nil in Hs.
    unfold validate_bookings, frame_after. rewrite Hs.
    fold checks_out_late. rewrite is_empty_filter.
    destruct (forallb (fun r => negb (checks_out_late r)) (BookingsDF.rows df));
      simpl; [| reflexivity].
    fold (ids_duplicated (BookingsDF.booking_id df)).
    destruct (ids_duplicated (BookingsDF.booking_id df)); simpl;
      [reflexivity |].
    now destruct (is_empty _).
  - assert (Hne : schema_failures (booking_schema config) (BookingsDF.rows df)
                  <> []).
    { intros E. apply schema_failures_nil in E. congruence. }
    unfold validate_bookings, frame_after.
    destruct (schema_failures (booking_schema config) (BookingsDF.rows df));
      [congruence | reflexivity].
Qed.

Lemma validate_bookings_report (config : Config) (df : BookingsDF.t) :
  well_formed_verdict (verdict_of (validate_bookings config df))
  /\ List.length (printed (validate_bookings config df))
     = (if fst (verdict_of (validate_bookings config df)) then 1 else 0)%nat.
Proof.
  unfold validate_bookings, verdict_of, printed.
  destruct (schema_failures _ _); [| simpl; tauto].
  destruct (negb (is_empty (filter _ _))); [simpl; tauto |].
  destruct (match BookingsDF.booking_id df with
            | Some ids => has_duplicates ids
            | None => false
            end); [simpl; tauto |].
  destruct (negb (is_empty (filter _ _))); simpl; tauto.
Qed.

(** C3 (amended): each validator returns an [(ok, reason)] pair for every
    batch, and prints one line when it accepts and nothing when it rejects;
    [validate_customers] and [validate_support_logs] leave the DataFrame
    they are given identical; [validate_bookings] leaves it identical when
    one of its first three checks fails, and otherwise (whether the nights
    check then passes or not) sets its [nights] column to the computed
    nights, leaving every other column as it was. *)
Theorem validators_effects :
  (forall df,
      frame_after (validate_customers df) = df
      /\ well_formed_verdict (verdict_of (validate_customers df))
      /\ List.length (printed (validate_customers df))
         = (if fst (verdict_of (validate_customers df)) then 1 else 0)%nat)
  /\ (forall df,
         frame_after (validate_support_logs df) = df
         /\ well_formed_verdict (verdict_of (validate_support_logs df))
         /\ List.length (printed (validate_support_logs df))
            = (if fst (verdict_of (validate_support_logs df))
               then 1 else 0)%nat)
  /\ (forall config df,
         well_formed_verdict (verdict_of (validate_bookings config df))
         /\ List.length (printed (validate_bookings config df))
            = (if fst (verdict_of (validate_bookings config df))
               then 1 else 0)%nat
         /\ BookingsDF.rows (frame_after (validate_bookings config df))
            = BookingsDF.rows df
         /\ BookingsDF.booking_id (frame_after (validate_bookings config df))
            = BookingsDF.booking_id df
         /\ (reaches_nights_check config df = false ->
             frame_after (validate_bookings config df) = df)
         /\ (reaches_nights_check config df = true ->
             BookingsDF.nights (frame_after (validate_bookings config df))
             = Some (map nights_of (BookingsDF.rows df)))).
Proof.
  split; [| split].
  - intros df. unfold validate_customers, frame_after, verdict_of, printed.
    destruct (schema_failures _ _); [| simpl; tauto].
    destruct (match CustomersDF.customer_id df with
              | Some ids => has_duplicates ids
              | None => false
              end); simpl; tauto.
  - intros df. unfold validate_support_logs, frame_after, verdict_of, printed.
    destruct (LogsDF.customer_id df) as [ids |]; [| simpl; tauto].
    destruct (LogsDF.date df) as [dates |]; [| simpl; tauto].
    destruct (LogsDF.log_text df) as [texts |]; [| simpl; tauto].
    destruct (existsb log_text_is_empty texts); [simpl; tauto |].
    destruct (existsb _ ids); simpl; tauto.
  - intros config df.
    destruct (validate_bookings_report config df) as [Hv Hp].
    rewrite (validate_bookings_frame config df).
    repeat split; try assumption.
    + now destruct (reaches_nights_check config df).
    + now destruct (reaches_nights_check config df).
    + now intros ->.
    + now intros ->.
Qed.

Lemma validators_effects_witness :
  BookingsDF.nights (frame_after (validate_bookings sample_config good_batch))
  = Some [3]
  /\ frame_after
       (validate_bookings sample_config
          (BookingsDF.mk [with_channel "OTA" good_row] None None))
     = BookingsDF.mk [with_channel "OTA" good_row] None None.
Proof.
  split.
  - apply (proj2 (proj2 (proj2 (proj2 (proj2
             (proj2 (proj2 validators_effects) sample_config good_batch)))))).
    vm_compute. reflexivity.
  - apply (proj1 (proj2 (proj2 (proj2 (proj2
             (proj2 (proj2 validators_effects) sample_config
                (BookingsDF.mk [with_channel "OTA" good_row] None None))))))).
    vm_compute. reflexivity.
Defined.

(** C8: on a batch whose fields are all schema-valid and which contains a
    booking whose [check_out_date] equals its [check_in_date],
    [validate_bookings] returns [False] with the reason "Found n bookings
    where check_out <= check_in", n being the number of rows that check
    out on or before their check-in; the checks run in the order schema,
    date ordering, duplicate ids, nights band, and the verdict is that of
    the first check that fails, whatever the later checks would say. *)
Theorem validate_bookings_first_failing_check (config : Config)
    (df : BookingsDF.t) :
  let rows := BookingsDF.rows df in
  let failure_cases := schema_failures (booking_schema config) rows in
  let late := filter checks_out_late rows in
  let off_band := filter (nights_out_of_band config) rows in
  let duplicated := ids_duplicated (BookingsDF.booking_id df) in
  let verdict := verdict_of (validate_bookings config df) in
  let late_reason :=
    String.append "Found "
      (String.append (show_nat (List.length late))
         " bookings where check_out <= check_in") in
  (failure_cases = [] ->
   (exists r, In r rows
              /\ BookingsDF.check_out_date r = BookingsDF.check_in_date r) ->
   (1 <= List.length late)%nat /\ verdict = (false, Some late_reason))
  /\ (failure_cases <> [] ->
      verdict = (false, Some (String.append "Schema validation failed: "
                                (show_failure_cases failure_cases))))
  /\ (failure_cases = [] -> late <> [] ->
      verdict = (false, Some late_reason))
  /\ (failure_cases = [] -> late = [] -> duplicated = true ->
      verdict = (false, Some "Duplicate booking_ids found"))
  /\ (failure_cases = [] -> late = [] -> duplicated = false ->
      off_band <> [] ->
      verdict
      = (false,
         Some (String.concat ""
                 ["Found "; show_nat (List.length off_band);
                  " bookings with invalid night count (must be ";
                  show_Z (min_nights_stay config); "-";
                  show_Z (max_nights_stay config); ")"])))
  /\ (failure_cases = [] -> late = [] -> duplicated = false ->
      off_band = [] -> verdict = (true, None)).
Proof.
  intros rows failure_cases late off_band duplicated verdict late_reason.
  assert (Hex : (exists r, In r rows
                           /\ BookingsDF.check_out_date r
                              = BookingsDF.check_in_date r) ->
                (1 <= List.length late)%nat).
  { intros (r & Hr & Heq).
    assert (Hin : In r late).
    { apply filter_In. split; [exact Hr |].
      unfold checks_out_late. rewrite Heq. apply Z.leb_refl. }
    destruct late; [destruct Hin | simpl; lia]. }
  assert (Hcode :
            verdict
            = match failure_cases with
              | _ :: _ =>
                  (false, Some (String.append "Schema validation failed: "
                                  (show_failure_cases failure_cases)))
              | [] =>
                  if negb (is_empty late) then (false, Some late_reason)
                  else if duplicated
                  then (false, Some "Duplicate booking_ids found")
                  else if negb (is_empty off_band)
                  then (false,
                        Some (String.concat ""
                                ["Found "; show_nat (List.length off_band);
                                 " bookings with invalid night count (must be ";
                                 show_Z (min_nights_stay config); "-";
                                 show_Z (max_nights_stay config); ")"]))
                  else (true, None)
              end).
  { subst verdict late_reason duplicated off_band late failure_cases rows.
    unfold validate_bookings, verdict_of, ids_duplicated.
    fold checks_out_late. fold (nights_out_of_band config).
    destruct (schema_failures _ _); [| reflexivity].
    destruct (negb (is_empty (filter checks_out_late _))); [reflexivity |].
    destruct (match BookingsDF.booking_id df with
              | Some l => has_duplicates l
              | None => false
              end); [reflexivity |].
    now destruct (negb (is_empty (filter (nights_out_of_band config) _))). }
  clearbody verdict late_reason duplicated off_band late failure_cases.
  subst verdict.
  split; [| split; [| split; [| split; [| split]]]].
  - intros -> Hr. specialize (Hex Hr). split; [exact Hex |].
    destruct late; [simpl in Hex; lia | reflexivity].
  - intros Hs. destruct failure_cases; [congruence | reflexivity].
  - intros -> Hl. destruct late; [congruence | reflexivity].
  - now intros -> -> ->.
  - intros -> -> -> Ho. destruct off_band; [congruence | reflexivity].
  - now intros -> -> -> ->.
Qed.

Lemma validate_bookings_first_failing_check_witness :
  verdict_of (validate_bookings sample_config same_day_batch)
  = (false, Some "Found 1 bookings where check_out <= check_in").
Proof.
  apply (proj1 (validate_bookings_first_failing_check sample_config
                  same_day_batch)).
  - vm_compute. reflexivity.
  - exists same_day_row. split; [simpl; tauto | reflexivity].
Defined.

(** * Further properties of the code *)

(** ** Generator engine *)

Lemma round_half_even_near (x : Q) :
  (x - (1 # 2) <= inject_Z (round_half_even x)
   /\ inject_Z (round_half_even x) <= x + (1 # 2))%Q.
Proof.
  unfold round_half_even.
  pose proof (Qfloor_le x) as Hlo. pose proof (Qlt_floor x) as Hhi.
  rewrite inject_Z_plus in Hhi. change (inject_Z 1) with 1%Q in Hhi.
  destruct (Qcompare_spec (x - inject_Z (Qfloor x)) (1 # 2)) as [E | E | E].
  - destruct (Z.even (Qfloor x)).
    + split; lra.
    + rewrite inject_Z_plus. change (inject_Z 1) with 1%Q. split; lra.
  - split; lra.
  - rewrite inject_Z_plus. change (inject_Z 1) with 1%Q. split; lra.
Qed.

Lemma py_round2_near (x : Q) :
  (x - (1 # 200) <= py_round2 x /\ py_round2 x <= x + (1 # 200))%Q.
Proof.
  unfold py_round2.
  destruct (round_half_even_near (x * 100)) as [Hlo Hhi].
  set (r := inject_Z (round_half_even (x * 100))) in *.
  assert (E : (r / 100 == r * (1 # 100))%Q) by (field; discriminate).
  rewrite E. split; lra.
Qed.

Lemma generate_booking_drawn (config : Config) (customer : Customer.t)
    (start_date end_date : datetime) :
  always (outcome (drawn_as config start_date end_date) any_exn)
    (generate_booking config customer start_date end_date).
Proof.
  unfold generate_booking.
  apply (always_bind _ _ _ _ (fake_date_between_spec _ _)).
  intros [check_in | e] Hdrawn; [| now apply always_ret].
  assert (Hin : date_of start_date <= date_of end_date ->
                date_of start_date <= check_in <= date_of end_date)
    by (intros _; exact (proj2 Hdrawn)).
  apply (always_bind (fun _ => True)); [apply always_trivial |].
  intros g _.
  apply (always_bind (fun _ => True)); [apply always_trivial |].
  intros room _.
  apply (always_bind (fun u => 0.8 <= u /\ u <= 1.2)%Q).
  { apply random_uniform_range. lra. }
  intros u Hu.
  apply (always_bind _ _ _ _ random_random_range). intros r Hr.
  apply (always_bind
           (fun st => if Qltb r (cancellation_rate config)
                      then In st ["Cancelled"; "No-Show"]
                      else st = "Checked-Out")).
  { destruct (Qltb r (cancellation_rate config)).
    - apply random_choice_lit_In.
    - now apply always_ret. }
  intros st Hst.
  repeat (apply (always_bind (fun _ => True));
          [apply always_trivial | intros ? _]).
  apply always_ret. exists u, r. cbn [Booking.amount_spent Booking.room_type
    Booking.check_out_date Booking.check_in_date Booking.status].
  replace (check_in + Z.max 1 (py_int g) - check_in)
    with (Z.max 1 (py_int g)) by lia.
  repeat split; try tauto; try assumption.
Qed.

Lemma generate_bookings_drawn (config : Config) (customer : Customer.t)
    (start_date end_date : datetime) :
  always (outcome (Forall (drawn_as config start_date end_date)) any_exn)
    (generate_bookings_for_customer config customer start_date end_date).
Proof.
  unfold generate_bookings_for_customer.
  apply (always_bind (fun _ => True)); [apply always_trivial |]. intros f _.
  apply always_for_range_try, generate_booking_drawn.
Qed.

(** The two families of facts about the bookings produced. *)
Lemma produced_bookings (config : Config) (customer : Customer.t)
    (start_date end_date : datetime) (s : RandomSource) :
  Forall (fun b => generated_for customer b
                   /\ drawn_as config start_date end_date b)
    (produced
       (fst (generate_bookings_for_customer config customer start_date
               end_date s))).
Proof.
  pose proof (generate_bookings_ok config customer start_date end_date s)
    as Hok.
  pose proof (generate_bookings_drawn config customer start_date end_date s)
    as Hdr.
  cbv beta in Hok, Hdr.
  destruct (fst (generate_bookings_for_customer config customer start_date
                   end_date s)) as [bs | e]; simpl in *; [| constructor].
  rewrite Forall_forall in *. intros b Hb. split; [apply Hok | apply Hdr];
    exact Hb.
Qed.

(** X1: the amount of every generated booking is the nightly rate of its
    room times its nights, scaled by a factor between 0.8 and 1.2 and
    rounded to the cent: it lies within half a cent of the interval
    [0.8 * rate * nights, 1.2 * rate * nights]. *)
Theorem generated_amount_follows_room_rate (config : Config)
    (customer : Customer.t) (start_date end_date : datetime)
    (s : RandomSource) :
  Forall (fun b =>
            let list_price :=
              inject_Z (base_price (Booking.room_type b)
                        * (Booking.check_out_date b
                           - Booking.check_in_date b)) in
            In (Booking.room_type b) room_types
            /\ (0.8 * list_price - (1 # 200) <= Booking.amount_spent b
                /\ Booking.amount_spent b <= 1.2 * list_price + (1 # 200))%Q)
    (produced
       (fst (generate_bookings_for_customer config customer start_date
               end_date s))).
Proof.
  eapply Forall_impl; [| apply produced_bookings]. intros b [Hok Hdr].
  destruct Hdr as (u & r & [Hu0 Hu1] & _ & Ham & _).
  split; [exact (gen_room _ _ Hok) |].
  cbv zeta. rewrite Ham. rewrite <- inject_Z_mult.
  set (p := inject_Z (base_price (Booking.room_type b)
                      * (Booking.check_out_date b - Booking.check_in_date b))).
  assert (Hp : (0 <= p)%Q).
  { unfold p. rewrite <- (Zle_Qle 0).
    pose proof (base_price_room_types _ (gen_room _ _ Hok)).
    pose proof (gen_nights _ _ Hok). nia. }
  destruct (py_round2_near (p * u)) as [Hlo Hhi].
  assert (H1 : (p * 0.8 <= p * u)%Q).
  { rewrite !(Qmult_comm p). apply Qmult_le_compat_r; assumption. }
  assert (H2 : (p * u <= p * 1.2)%Q).
  { rewrite !(Qmult_comm p). apply Qmult_le_compat_r; assumption. }
  split; lra.
Qed.

(** X2: the cancellation rate decides the status at its edges: with a rate
    of 0 or less every generated booking is Checked-Out, with a rate of 1
    or more none is (each is Cancelled or No-Show); in between, the status
    is always one of the three. *)
Theorem cancellation_rate_edges (config : Config) (customer : Customer.t)
    (start_date end_date : datetime) (s : RandomSource) :
  Forall (fun b =>
            In (Booking.status b) ["Checked-Out"; "Cancelled"; "No-Show"]
            /\ ((cancellation_rate config <= 0)%Q ->
                Booking.status b = "Checked-Out")
            /\ ((1 <= cancellation_rate config)%Q ->
                In (Booking.status b) ["Cancelled"; "No-Show"]))
    (produced
       (fst (generate_bookings_for_customer config customer start_date
               end_date s))).
Proof.
  eapply Forall_impl; [| apply produced_bookings]. intros b [Hok Hdr].
  destruct Hdr as (u & r & _ & [Hr0 Hr1] & _ & Hst & _).
  split; [exact (gen_status _ _ Hok) |].
  unfold Qltb in Hst.
  destruct (Qcompare_spec r (cancellation_rate config)) as [E | E | E].
  - split; [now intros _ | intros Hc; lra].
  - split; [intros Hc; lra | now intros _].
  - split; [now intros _ | intros Hc; lra].
Qed.

Lemma py_int_nonpos (x : Q) : (x <= 0)%Q -> py_int x <= 0.
Proof.
  intros Hx. unfold py_int. destruct (Qle_bool 0 x).
  - change 0 with (Qfloor 0). now apply Qfloor_resp_le.
  - change 0 with (Qceiling 0). now apply Qceiling_resp_le.
Qed.

Lemma py_int_floor (x : Q) : (0 <= x)%Q -> py_int x = Qfloor x.
Proof.
  intros Hx. unfold py_int. apply Qle_bool_iff in Hx. now rewrite Hx.
Qed.

(** The number of bookings, as a function of the first draw. *)
Lemma generate_bookings_count (config : Config) (customer : Customer.t)
    (start_date end_date : datetime) (s : RandomSource) :
  exists f,
    (0.5 <= f /\ f <= 1.5)%Q
    /\ outcome
         (fun bs =>
            List.length bs
            = Z.to_nat
                (Z.max 1
                   (py_int (inject_Z (base_num_bookings customer start_date
                                        end_date) * f))))
         any_exn
         (fst (generate_bookings_for_customer config customer start_date
                 end_date s)).
Proof.
  exists (fst (random_uniform 0.5 1.5 s)). split.
  - apply (random_uniform_range 0.5 1.5); lra.
  - unfold generate_bookings_for_customer. rewrite fst_bind. cbv beta.
    apply for_range_try_length.
Qed.

Lemma py_int_below_one (x : Q) : (x < 1)%Q -> py_int x <= 0.
Proof.
  intros Hx. destruct (Qlt_le_dec x 0) as [Hneg | Hpos].
  - apply py_int_nonpos. lra.
  - rewrite py_int_floor by exact Hpos.
    assert (H : (inject_Z (Qfloor x) < inject_Z 1)%Q).
    { eapply Qle_lt_trans; [apply Qfloor_le |]. exact Hx. }
    rewrite <- Zlt_Qlt in H. lia.
Qed.

Lemma short_range_base (customer : Customer.t)
    (start_date end_date : datetime) :
  td_days (end_date - start_date) <= 30 ->
  base_num_bookings customer start_date end_date <= 0.
Proof.
  intros Hd. unfold base_num_bookings.
  set (d := td_days (end_date - start_date)) in *.
  assert (Hq : (inject_Z d <= 30)%Q).
  { change 30%Q with (inject_Z 30). now rewrite <- Zle_Qle. }
  assert (E : forall k : Q, (inject_Z d / 365 * k == inject_Z d * k * (1 # 365))%Q)
    by (intros k; field).
  destruct (Customer.job_category customer); apply py_int_below_one;
    rewrite E; lra.
Qed.

(** X3: over a range of at most 30 days whose end date is not before its
    start date, the generator returns exactly one booking for every
    customer, whatever the draws; this is the case of the 7-day window of
    the weekly run, where taking the first booking of the list therefore
    discards nothing. *)
Theorem short_range_yields_one_booking (config : Config)
    (customer : Customer.t) (start_date end_date : datetime)
    (s : RandomSource) :
  date_of start_date <= date_of end_date ->
  td_days (end_date - start_date) <= 30 ->
  exists b,
    fst (generate_bookings_for_customer config customer start_date
           end_date s) = Ok [b].
Proof.
  intros Hse Hd.
  destruct (generate_bookings_count config customer start_date end_date s)
    as (f & [Hf0 Hf1] & Hcount).
  pose proof (generate_bookings_forward config customer start_date end_date
                Hse s) as Hfw.
  cbv beta in Hfw.
  destruct (fst (generate_bookings_for_customer config customer start_date
                   end_date s)) as [bs | e]; simpl in Hfw, Hcount;
    [| destruct Hfw].
  pose proof (short_range_base customer start_date end_date Hd) as Hb.
  assert (Hx : (inject_Z (base_num_bookings customer start_date end_date) * f
                <= 0)%Q).
  { rewrite Zle_Qle in Hb. change (inject_Z 0) with 0%Q in Hb.
    assert (H : (inject_Z (base_num_bookings customer start_date end_date) * f
                 <= 0 * f)%Q) by (apply Qmult_le_compat_r; lra).
    lra. }
  apply py_int_nonpos in Hx.
  destruct bs as [| b [| b' rest]]; simpl in Hcount; [lia | | lia].
  now exists b.
Qed.

Lemma short_range_yields_one_booking_witness :
  exists b,
    fst (generate_bookings_for_customer sample_config bob
           (week_before sample_now) sample_now short_tape) = Ok [b].
Proof.
  apply short_range_yields_one_booking.
  - vm_compute. discriminate.
  - vm_compute. discriminate.
Defined.

(** X4: over a range of [d] days, with [base] the segment's count
    [int(d / 365 * rate)] (rate 12, 4 or 1 a year) not negative, the
    number of bookings returned lies between [max(1, base / 2)] and
    [max(1, 3 * base / 2)] (integer division): the random factor is within
    [0.5, 1.5].  The call returns unless the range ends before it starts,
    where it raises [ValueError]. *)
Theorem booking_count_within_half_of_base (config : Config)
    (customer : Customer.t) (start_date end_date : datetime)
    (s : RandomSource) :
  0 <= base_num_bookings customer start_date end_date ->
  let base := base_num_bookings customer start_date end_date in
  outcome
    (fun bs =>
       let n := Z.of_nat (List.length bs) in
       Z.max 1 (base / 2) <= n <= Z.max 1 (3 * base / 2))
    (reversed_range start_date end_date)
    (fst (generate_bookings_for_customer config customer start_date
            end_date s)).
Proof.
  intros Hb base.
  destruct (generate_bookings_count config customer start_date end_date s)
    as (f & [Hf0 Hf1] & Hcount).
  pose proof (generate_bookings_ok config customer start_date end_date s)
    as Hok.
  cbv beta in Hok.
  destruct (fst (generate_bookings_for_customer config customer start_date
                   end_date s)) as [bs | e]; cbn [outcome] in Hok, Hcount |- *;
    [| exact Hok].
  cbv zeta. rewrite Hcount.
  fold base. rewrite Z2Nat.id by lia.
  assert (Hq : (0 <= inject_Z base)%Q) by (now rewrite <- (Zle_Qle 0)).
  assert (Hlo : (inject_Z base * 0.5 <= inject_Z base * f)%Q).
  { rewrite !(Qmult_comm (inject_Z base)). apply Qmult_le_compat_r; lra. }
  assert (Hhi : (inject_Z base * f <= inject_Z base * 1.5)%Q).
  { rewrite !(Qmult_comm (inject_Z base)). apply Qmult_le_compat_r; lra. }
  rewrite py_int_floor by lra.
  assert (E2 : base / 2 = Qfloor (inject_Z base * 0.5)).
  { rewrite Zdiv_Qdiv. apply Qfloor_comp. change (inject_Z 2) with 2%Q. field. }
  assert (E3 : 3 * base / 2 = Qfloor (inject_Z base * 1.5)).
  { rewrite Zdiv_Qdiv. apply Qfloor_comp. rewrite inject_Z_mult.
    change (inject_Z 2) with 2%Q. change (inject_Z 3) with 3%Q. field. }
  pose proof (Qfloor_resp_le _ _ Hlo). pose proof (Qfloor_resp_le _ _ Hhi).
  lia.
Qed.

Lemma booking_count_within_half_of_base_witness :
  outcome
    (fun bs => 24 <= Z.of_nat (List.length bs) <= 72)
    (reversed_range (four_years_ago sample_now) sample_now)
    (fst (generate_bookings_for_customer sample_config bob
            (four_years_ago sample_now) sample_now short_tape)).
Proof.
  apply (booking_count_within_half_of_base sample_config bob
           (four_years_ago sample_now) sample_now short_tape).
  vm_compute. discriminate.
Defined.

Lemma in_range_spec (lo hi z : Z) : in_range lo hi z = true <-> lo <= z <= hi.
Proof. unfold in_range. rewrite andb_true_iff, !Z.leb_le. tauto. Qed.

(** X5: every generated booking satisfies the value checks of
    [booking_schema] on [room_type], [booking_channel], [num_adults]
    (1 to 4, within 1 to 10), [num_children] (0 to 3, within 0 to 10) and
    [status], and carries the id of the customer it was generated for. *)
Theorem generated_fields_pass_schema_checks (config : Config)
    (customer : Customer.t) (start_date end_date : datetime)
    (s : RandomSource) :
  Forall (fun b =>
            Booking.customer_id b = Customer.customer_id customer
            /\ isin room_types (Booking.room_type b) = true
            /\ isin channels (Booking.booking_channel b) = true
            /\ isin statuses (Booking.status b) = true
            /\ 1 <= Booking.num_adults b <= 4
            /\ in_range 1 10 (Booking.num_adults b) = true
            /\ 0 <= Booking.num_children b <= 3
            /\ in_range 0 10 (Booking.num_children b) = true)
    (produced
       (fst (generate_bookings_for_customer config customer start_date
               end_date s))).
Proof.
  eapply Forall_impl; [| eapply produced_Forall, generate_bookings_ok].
  intros b Hb. destruct Hb as [Hc _ _ Hr Hch Hst Ha Hk].
  rewrite !isin_spec, !in_range_spec. repeat split; try assumption; lia.
Qed.

(** X6: when the start of the range is not after its end, the check-in
    date of every generated booking lies between the date of the start and
    the date of the end (both included), and the check-out date is after
    the start. *)
Theorem generated_check_in_within_range (config : Config)
    (customer : Customer.t) (start_date end_date : datetime)
    (s : RandomSource) :
  start_date <= end_date ->
  Forall (fun b =>
            date_of start_date <= Booking.check_in_date b <= date_of end_date
            /\ date_of start_date < Booking.check_out_date b)
    (produced
       (fst (generate_bookings_for_customer config customer start_date
               end_date s))).
Proof.
  intros Hse.
  assert (Hd : date_of start_date <= date_of end_date).
  { unfold date_of. apply Z.div_le_mono; [reflexivity | exact Hse]. }
  eapply Forall_impl; [| apply produced_bookings]. intros b [Hok Hdr].
  destruct Hdr as (u & r & _ & _ & _ & _ & Hin). specialize (Hin Hd).
  pose proof (gen_nights _ _ Hok). lia.
Qed.

Lemma generated_check_in_within_range_witness :
  Forall (fun b =>
            ymd 2025 5 26 <= Booking.check_in_date b <= ymd 2025 6 2
            /\ ymd 2025 5 26 < Booking.check_out_date b)
    (produced
       (fst (generate_bookings_for_customer sample_config alice
               (week_before sample_now) sample_now long_stay_tape))).
Proof.
  apply (generated_check_in_within_range sample_config alice
           (week_before sample_now) sample_now long_stay_tape).
  vm_compute. discriminate.
Defined.

(** X7: [generate_customers(n)] returns exactly [n] customers; the age of
    each is between 21 and 75, hence within the 18 to 100 that
    [customer_schema] accepts, and the join date is between four years (of
    365.24 days) before today and today. *)
Theorem generate_customers_count_and_ranges (today : date) (n : nat)
    (s : RandomSource) :
  List.length (fst (generate_customers today n s)) = n
  /\ Forall (fun c =>
               21 <= new_age c <= 75
               /\ in_range 18 100 (new_age c) = true
               /\ today - 1461 <= new_join_date c <= today)
       (fst (generate_customers today n s)).
Proof.
  split; [apply generate_customers_length |].
  unfold generate_customers.
  apply (always_for_range
           (fun c => 21 <= new_age c <= 75
                     /\ in_range 18 100 (new_age c) = true
                     /\ today - 1461 <= new_join_date c <= today)).
  apply (always_bind (fun d => today - 1461 <= d <= today)).
  { eapply always_weaken; [| apply uniform_date_range].
    - unfold four_years_before. intros d Hd.
      change (Qfloor (- (36524 # 100) * 4)) with (-1461) in Hd. lia.
    - unfold four_years_before.
      change (Qfloor (- (36524 # 100) * 4)) with (-1461). lia. }
  intros jd Hjd.
  apply (always_bind (fun a => 21 <= a <= 75)).
  { apply random_randint_range. lia. }
  intros a Ha.
  apply (always_bind (fun _ => True)); [apply always_trivial |]. intros cat _.
  apply always_ret. cbn [new_age new_join_date].
  rewrite in_range_spec. repeat split; lia.
Qed.

Lemma templates_not_empty (text : string) :
  In text complaint_templates -> log_text_is_empty (Some text) = false.
Proof.
  unfold complaint_templates. simpl.
  intros H. repeat (destruct H as [<- | H]; [reflexivity |]). destruct H.
Qed.

Lemma generate_support_logs_ok (now : datetime) (customer : Customer.t)
    (num_logs : nat) :
  always (fun ls => List.length ls = num_logs
                    /\ Forall (logged_for customer) ls)
    (generate_support_logs_for_customer now customer num_logs).
Proof.
  unfold generate_support_logs_for_customer.
  apply always_conj; [apply for_range_length |].
  apply always_for_range.
  apply (always_bind (fun _ => True)); [apply always_trivial |]. intros d _.
  apply (always_bind _ _ _ _ (random_choice_lit_In _ _)). intros text Ht.
  apply always_ret. unfold logged_for. cbn [SupportLog.customer_id
    SupportLog.log_text].
  repeat split; [exact Ht | now apply templates_not_empty].
Qed.

(** X8: [generate_support_logs_for_customer(customer, n)] returns exactly
    [n] logs; each carries the customer's id and one of the ten template
    texts, none of which is empty. *)
Theorem generated_support_logs_count_and_text (now : datetime)
    (customer : Customer.t) (num_logs : nat) (s : RandomSource) :
  List.length
    (fst (generate_support_logs_for_customer now customer num_logs s))
  = num_logs
  /\ List.length complaint_templates = 10%nat
  /\ Forall (fun l =>
               SupportLog.customer_id l = Customer.customer_id customer
               /\ In (SupportLog.log_text l) complaint_templates
               /\ SupportLog.log_text l <> "")
       (fst (generate_support_logs_for_customer now customer num_logs s)).
Proof.
  destruct (generate_support_logs_ok now customer num_logs s) as [Hlen Hall].
  split; [exact Hlen |]. split; [reflexivity |].
  eapply Forall_impl; [| exact Hall].
  intros l (Hid & Ht & He). repeat split; try assumption.
  intros E. simpl in He. rewrite E in He. discriminate.
Qed.

(** ** The historical load *)

Lemma for_each_extend_spec {A B} (P : A -> list B -> Prop) (xs : list A)
    (body : A -> Rand (list B)) :
  (forall x, always (P x) (body x)) ->
  always (fun ys => exists parts, ys = List.concat parts /\ Forall2 P xs parts)
    (for_each_extend xs body).
Proof.
  intros Hbody. induction xs as [| x rest IH]; simpl.
  - apply always_ret. exists []. split; [reflexivity | constructor].
  - apply (always_bind _ _ _ _ (Hbody x)). intros ys Hys.
    apply (always_bind _ _ _ _ IH). intros more (parts & -> & Hparts).
    apply always_ret. exists (ys :: parts). split; [reflexivity |].
    now constructor.
Qed.

Lemma for_each_extend_try_spec {A B} (P : A -> list B -> Prop)
    (E : exn -> Prop) (xs : list A) (body : A -> Rand (result (list B))) :
  (forall x, always (outcome (P x) E) (body x)) ->
  always (outcome (fun ys => exists parts,
                               ys = List.concat parts /\ Forall2 P xs parts)
            E)
    (for_each_extend_try xs body).
Proof.
  intros Hbody. induction xs as [| x rest IH]; simpl.
  - apply always_ret. exists []. split; [reflexivity | constructor].
  - apply (always_bind _ _ _ _ (Hbody x)).
    intros [ys | e] Hys; [| apply always_ret; exact Hys].
    apply (always_bind _ _ _ _ IH).
    intros [more | e] Hmore; [| apply always_ret; exact Hmore].
    destruct Hmore as (parts & -> & Hparts).
    apply always_ret. exists (ys :: parts). split; [reflexivity |].
    now constructor.
Qed.

(** The range of the historical load starts 4 * 365 days before it
    ends. *)
Lemma four_years_are_forward (now : datetime) :
  date_of (now - timedelta_days (4 * 365)) <= date_of now.
Proof.
  unfold date_of, timedelta_days, usec_per_day.
  apply Z.div_le_mono; lia.
Qed.

Lemma concat_length_lower {A B} (P : A -> list B -> Prop) (lo : nat)
    (xs : list A) (parts : list (list B)) :
  (forall x part, P x part -> (lo <= List.length part)%nat) ->
  Forall2 P xs parts ->
  (lo * List.length xs <= List.length (List.concat parts))%nat.
Proof.
  intros Hb H. induction H as [| x part xs parts Hx _ IH]; simpl; [lia |].
  rewrite length_app. specialize (Hb x part Hx). lia.
Qed.

Lemma concat_length_upper {A B} (P : A -> list B -> Prop) (hi : nat)
    (xs : list A) (parts : list (list B)) :
  (forall x part, P x part -> (List.length part <= hi)%nat) ->
  Forall2 P xs parts ->
  (List.length (List.concat parts) <= hi * List.length xs)%nat.
Proof.
  intros Hb H. induction H as [| x part xs parts Hx _ IH]; simpl; [lia |].
  rewrite length_app. specialize (Hb x part Hx). lia.
Qed.

Lemma concat_member {A B} (P : A -> list B -> Prop)
    (xs : list A) (parts : list (list B)) (y : B) :
  Forall2 P xs parts -> In y (List.concat parts) ->
  exists x part, In x xs /\ P x part /\ In y part.
Proof.
  intros H. induction H as [| x part xs parts Hx _ IH]; simpl; [tauto |].
  intros Hy. apply in_app_or in Hy. destruct Hy as [Hy | Hy].
  - exists x, part. repeat split; [now left | exact Hx | exact Hy].
  - destruct (IH Hy) as (x' & part' & Hin & HP & Hy').
    exists x', part'. repeat split; [now right | exact HP | exact Hy'].
Qed.

Lemma concat_covers {A B} (P : A -> list B -> Prop)
    (xs : list A) (parts : list (list B)) (x : A) :
  Forall2 P xs parts -> In x xs ->
  exists part, P x part /\ incl part (List.concat parts).
Proof.
  intros H. induction H as [| x' part xs parts Hx _ IH]; simpl; [tauto |].
  intros [<- | Hin].
  - exists part. split; [exact Hx | apply incl_appl, incl_refl].
  - destruct (IH Hin) as (part' & HP & Hincl).
    exists part'. split; [exact HP | now apply incl_appr].
Qed.

Lemma maybe_support_logs_ok (now : datetime) (customer : Customer.t) :
  always (fun ls => (0 <= List.length ls <= 5)%nat
                    /\ Forall (logged_for customer) ls)
    (maybe_support_logs now customer).
Proof.
  unfold maybe_support_logs.
  apply (always_bind (fun _ => True)); [apply always_trivial |]. intros r _.
  destruct (Qltb r 0.3).
  - apply (always_bind (fun z => 1 <= z <= 5)).
    { apply random_randint_range. lia. }
    intros z Hz.
    eapply always_weaken; [| apply generate_support_logs_ok].
    intros ls [Hlen Hall]. split; [lia | exact Hall].
  - apply always_ret. split; [simpl; lia | constructor].
Qed.

Lemma generate_historical_data_spec (config : Config) (num_customers : nat)
    (now : datetime) (db0 : Database) :
  always (historical_outcome num_customers db0)
    (generate_historical_data config num_customers now db0).
Proof.
  unfold generate_historical_data.
  apply (always_bind _ _ _ _ (generate_customers_length _ _)).
  intros news Hnews. unfold add_all_customers.
  set (saved := assign_ids (next_customer_id db0) news).
  assert (Hsaved : List.length saved = num_customers).
  { unfold saved. now rewrite assign_ids_length. }
  cbv beta iota zeta.
  apply (always_bind _ _ _ _
           (for_each_extend_try_spec
              (fun c bs => Forall (generated_for c) bs
                           /\ (1 <= List.length bs)%nat)
              never saved _
              (fun c => generate_bookings_forward config c _ _
                          (four_years_are_forward now)))).
  intros [all_bookings | e] Hall; [| destruct Hall].
  destruct Hall as (parts & -> & Hparts).
  assert (Hfrom : Forall (booked_from saved) (List.concat parts)).
  { apply Forall_forall. intros b Hb.
    destruct (concat_member _ _ _ _ Hparts Hb) as (c & part & Hc & [Hg _] & Hin).
    exists c. split; [exact Hc |].
    rewrite Forall_forall in Hg. exact (gen_customer _ _ (Hg b Hin)). }
  unfold add_all_bookings. cbn [customers bookings support_logs
    next_customer_id].
  assert (Hfk : forallb (fun b => has_customer (customers db0 ++ saved)
                                    (Booking.customer_id b))
                  (List.concat parts) = true).
  { apply forallb_forall. intros b Hb.
    rewrite Forall_forall in Hfrom. destruct (Hfrom b Hb) as (c & Hc & ->).
    apply has_customer_In, in_or_app. now right. }
  rewrite Hfk.
  apply (always_bind _ _ _ _
           (for_each_extend_spec
              (fun c ls => (0 <= List.length ls <= 5)%nat
                           /\ Forall (logged_for c) ls)
              saved _ (maybe_support_logs_ok now))).
  intros all_logs (lparts & -> & Hlparts).
  apply always_ret.
  assert (Hlogs : Forall (fun l => has_customer saved
                                     (SupportLog.customer_id l) = true)
                    (List.concat lparts)).
  { apply Forall_forall. intros l Hl.
    destruct (concat_member _ _ _ _ Hlparts Hl)
      as (c & part & Hc & [_ Hg] & Hin).
    rewrite Forall_forall in Hg. destruct (Hg l Hin) as (-> & _).
    now apply has_customer_In. }
  unfold add_all_logs. cbn [customers bookings support_logs next_customer_id].
  assert (Hfk2 : forallb (fun l => has_customer (customers db0 ++ saved)
                                     (SupportLog.customer_id l))
                   (List.concat lparts) = true).
  { apply forallb_forall. intros l Hl.
    rewrite Forall_forall in Hlogs. specialize (Hlogs l Hl).
    unfold has_customer in *. rewrite existsb_app, Hlogs.
    apply orb_true_r. }
  rewrite Hfk2.
  exists saved, (List.concat parts), (List.concat lparts).
  eexists. split; [reflexivity |].
  cbn [customers bookings support_logs next_customer_id].
  repeat split; try assumption; try reflexivity.
  - now rewrite Hnews.
  - pose proof (concat_length_lower _ 1 _ _
                  (fun c bs H => proj2 H) Hparts) as Hb.
    rewrite Hsaved in Hb. lia.
  - apply Forall_forall. intros c Hc.
    destruct (concat_covers _ _ _ c Hparts Hc) as (part & [Hg Hlen] & Hincl).
    destruct part as [| b rest]; [simpl in Hlen; lia |].
    exists b. split; [apply Hincl; now left |].
    apply Forall_inv in Hg. exact (gen_customer _ _ Hg).
  - pose proof (concat_length_upper _ 5 _ _
                  (fun c ls H => proj2 (proj1 H)) Hlparts) as Hb.
    rewrite Hsaved in Hb. exact Hb.
Qed.


(** ** Integrity of the tables *)

Lemma assign_ids_fresh (next : Z) (news : list NewCustomer) :
  Forall (fun c => next <= Customer.customer_id c
                   < next + Z.of_nat (List.length news))
    (assign_ids next news)
  /\ NoDup (map Customer.customer_id (assign_ids next news)).
Proof.
  revert next. induction news as [| n rest IH]; intros next.
  - split; constructor.
  - destruct (IH (next + 1)) as [Hr Hn].
    cbn [assign_ids map List.length]. split.
    + constructor; [cbn [Customer.customer_id]; lia |].
      eapply Forall_impl; [| exact Hr]. intros c Hc. cbv beta in Hc. lia.
    + constructor; [| exact Hn]. cbn [Customer.customer_id].
      intros Hin. apply in_map_iff in Hin. destruct Hin as (c & E & Hc).
      rewrite Forall_forall in Hr. specialize (Hr c Hc). lia.
Qed.

Lemma has_customer_spec (cs : list Customer.t) (id : Z) :
  has_customer cs id = true <-> In id (map Customer.customer_id cs).
Proof.
  unfold has_customer. rewrite existsb_exists, in_map_iff.
  split; intros (c & H1 & H2).
  - exists c. apply Z.eqb_eq in H2. tauto.
  - exists c. split; [exact H2 | now apply Z.eqb_eq].
Qed.

Lemma has_customer_app (cs more : list Customer.t) (id : Z) :
  has_customer cs id = true -> has_customer (cs ++ more) id = true.
Proof.
  unfold has_customer. intros H. now rewrite existsb_app, H.
Qed.

Lemma add_all_customers_consistent (news : list NewCustomer) (db0 : Database) :
  db_consistent db0 -> db_consistent (snd (add_all_customers news db0)).
Proof.
  intros (Hnd & Hlt & Hb & Hl). unfold add_all_customers, db_consistent.
  cbn [snd customers bookings support_logs next_customer_id].
  destruct (assign_ids_fresh (next_customer_id db0) news) as [Hr Hn].
  rewrite Forall_forall in Hr, Hlt.
  repeat split.
  - rewrite map_app. apply NoDup_app; [exact Hnd | exact Hn |].
    intros id H1 H2. apply in_map_iff in H1, H2.
    destruct H1 as (c1 & <- & H1). destruct H2 as (c2 & E & H2).
    specialize (Hlt c1 H1). specialize (Hr c2 H2). cbv beta in Hlt, Hr. lia.
  - apply Forall_forall. intros c Hc. apply in_app_or in Hc.
    destruct Hc as [Hc | Hc].
    + specialize (Hlt c Hc). cbv beta in Hlt. lia.
    + specialize (Hr c Hc). cbv beta in Hr. lia.
  - eapply Forall_impl; [| exact Hb]. intros b. apply has_customer_app.
  - eapply Forall_impl; [| exact Hl]. intros l. apply has_customer_app.
Qed.

Lemma add_all_bookings_consistent (bs : list Booking.t) (db0 : Database) :
  db_consistent db0 -> db_consistent (snd (add_all_bookings bs db0)).
Proof.
  intros H. unfold add_all_bookings.
  destruct (forallb _ bs) eqn:E; [| exact H].
  destruct H as (Hnd & Hlt & Hb & Hl). unfold db_consistent.
  cbn [snd customers bookings support_logs next_customer_id].
  repeat split; try assumption.
  apply Forall_app. split; [exact Hb |].
  apply Forall_forall. rewrite forallb_forall in E. exact E.
Qed.

Lemma add_all_logs_consistent (ls : list SupportLog.t) (db0 : Database) :
  db_consistent db0 -> db_consistent (snd (add_all_logs ls db0)).
Proof.
  intros H. unfold add_all_logs.
  destruct (forallb _ ls) eqn:E; [| exact H].
  destruct H as (Hnd & Hlt & Hb & Hl). unfold db_consistent.
  cbn [snd customers bookings support_logs next_customer_id].
  repeat split; try assumption.
  apply Forall_app. split; [exact Hl |].
  apply Forall_forall. rewrite forallb_forall in E. exact E.
Qed.

Lemma generate_weekly_data_consistent (config : Config) (now : datetime)
    (db0 : Database) :
  db_consistent db0 ->
  always (fun out => db_consistent (snd out))
    (generate_weekly_data config now db0).
Proof.
  intros H. unfold generate_weekly_data.
  apply (always_bind (fun _ => True)); [apply always_trivial |].
  intros news _.
  pose proof (add_all_customers_consistent news db0 H) as H1.
  destruct (add_all_customers news db0) as [saved db1]. cbn [snd] in H1.
  apply (always_bind (fun _ => True)); [apply always_trivial |].
  intros [all_bookings | e] _; apply always_ret.
  - now apply add_all_bookings_consistent.
  - exact H1.
Qed.

Lemma generate_historical_data_consistent (config : Config)
    (num_customers : nat) (now : datetime) (db0 : Database) :
  db_consistent db0 ->
  always (fun out => db_consistent (snd out))
    (generate_historical_data config num_customers now db0).
Proof.
  intros H. unfold generate_historical_data.
  apply (always_bind (fun _ => True)); [apply always_trivial |].
  intros news _.
  pose proof (add_all_customers_consistent news db0 H) as H1.
  destruct (add_all_customers news db0) as [saved db1]. cbn [snd] in H1.
  apply (always_bind (fun _ => True)); [apply always_trivial |].
  intros [all_bookings | e] _; [| now apply always_ret].
  pose proof (add_all_bookings_consistent all_bookings db1 H1) as H2.
  destruct (add_all_bookings all_bookings db1) as [[[] | e] db2];
    cbn [snd] in H2.
  - apply (always_bind (fun _ => True)); [apply always_trivial |].
    intros all_logs _. apply always_ret.
    now apply add_all_logs_consistent.
  - now apply always_ret.
Qed.

(** X10: the weekly and the historical generation keep the tables
    consistent, whether they complete or fail: customer ids stay unique
    and below the sequence (the new customers get fresh ids), and every
    booking and every support log references an existing customer. *)
Theorem generation_keeps_tables_consistent (config : Config)
    (num_customers : nat) (now : datetime) (db0 : Database)
    (s : RandomSource) :
  db_consistent db0 ->
  db_consistent (snd (fst (generate_weekly_data config now db0 s)))
  /\ db_consistent
       (snd (fst (generate_historical_data config num_customers now db0 s))).
Proof.
  intros H. split.
  - apply (generate_weekly_data_consistent config now db0 H).
  - apply (generate_historical_data_consistent config num_customers now db0 H).
Qed.

Lemma keys_stay_unique_under_filter {Row Key : Type} (key : Row -> Key)
    (keep : Row -> bool) :
  forall xs : list Row,
    NoDup (map key xs) -> NoDup (map key (filter keep xs)).
Proof.
  intros xs Huniq. induction xs as [| x xs IH]; [exact Huniq |].
  cbn [map] in Huniq. apply NoDup_cons_iff in Huniq.
  destruct Huniq as [Hfresh Hrest]. cbn [filter].
  destruct (keep x); [| now apply IH].
  cbn [map]. apply NoDup_cons; [| now apply IH].
  rewrite in_map_iff in *. intros (y & Hkey & Hy).
  apply Hfresh. exists y. split; [exact Hkey |].
  apply filter_In in Hy. tauto.
Qed.

Lemma cleanup_old_data_consistent (now : datetime) (db0 : Database) :
  db_consistent db0 -> db_consistent (snd (cleanup_old_data now db0)).
Proof.
  intros H. unfold cleanup_old_data.
  set (kept := filter (fun b => negb (booking_is_old (cutoff_of now) b))
                 (bookings db0)).
  set (logs1 := filter (fun l => negb (log_is_old (cutoff_of now) l))
                  (support_logs db0)).
  set (keep := distinct (map Booking.customer_id kept)).
  set (doomed := filter (fun c => negb (id_in keep (Customer.customer_id c)))
                   (customers db0)).
  destruct (still_referenced doomed kept logs1) eqn:E; [exact H |].
  destruct H as (Hnd & Hlt & Hb & Hl). unfold db_consistent.
  cbn [snd customers bookings support_logs next_customer_id].
  rewrite Forall_forall in Hlt, Hb, Hl.
  repeat split.
  - now apply keys_stay_unique_under_filter.
  - apply Forall_forall. intros c Hc. apply filter_In in Hc. now apply Hlt.
  - apply Forall_forall. intros b Hin.
    assert (Hb0 : In b (bookings db0)) by (apply filter_In in Hin; tauto).
    specialize (Hb b Hb0). unfold has_customer in *.
    apply existsb_exists in Hb. destruct Hb as (c & Hc & Hid).
    apply existsb_exists. exists c. split; [| exact Hid].
    apply filter_In. split; [exact Hc |].
    apply id_in_keep. exists b. apply Z.eqb_eq in Hid. now split.
  - apply Forall_forall. intros l Hin.
    assert (Hl0 : In l (support_logs db0)) by (apply filter_In in Hin; tauto).
    specialize (Hl l Hl0). unfold has_customer in Hl.
    apply existsb_exists in Hl. destruct Hl as (c & Hc & Hid).
    destruct (id_in keep (Customer.customer_id c)) eqn:Hk.
    + unfold has_customer. apply existsb_exists. exists c.
      split; [| exact Hid]. apply filter_In. now split.
    + exfalso. apply not_true_iff_false in E. apply E.
      unfold still_referenced. apply orb_true_iff. right.
      apply existsb_exists. exists l. split; [exact Hin |].
      unfold has_customer. apply existsb_exists. exists c.
      split; [| exact Hid]. apply filter_In. split; [exact Hc |].
      now rewrite Hk.
Qed.

(** X11: [cleanup_old_data] keeps the tables consistent, whether it
    commits or rolls back: customer ids stay unique and below the
    sequence, and every remaining booking and support log references a
    remaining customer. *)
Theorem cleanup_keeps_tables_consistent (now : datetime) (db0 : Database) :
  db_consistent db0 -> db_consistent (snd (cleanup_old_data now db0)).
Proof. apply cleanup_old_data_consistent. Qed.

(** X12: the three counts a completed cleanup reports are the numbers of
    rows that left each table, and the customer sequence is not moved
    back: deleted ids are never reused. *)
Theorem cleanup_counts_are_table_differences (now : datetime)
    (db0 db1 : Database) (d : Deleted) :
  cleanup_old_data now db0 = (Ok d, db1) ->
  (old_bookings d + List.length (bookings db1)
   = List.length (bookings db0))%nat
  /\ (old_logs d + List.length (support_logs db1)
      = List.length (support_logs db0))%nat
  /\ (old_customers d + List.length (customers db1)
      = List.length (customers db0))%nat
  /\ next_customer_id db1 = next_customer_id db0.
Proof.
  intros H. apply cleanup_completed in H. cbv zeta in H.
  destruct H as (Hb & Hl & Hc & Hn & ->).
  rewrite Hb, Hl, Hc. cbn [old_bookings old_logs old_customers].
  repeat split.
  - apply filter_length.
  - apply filter_length.
  - rewrite Nat.add_comm. apply filter_length.
  - exact Hn.
Qed.

Lemma cleanup_counts_are_table_differences_witness :
  (2 + 2 = 4)%nat /\ (1 + 1 = 2)%nat /\ (2 + 2 = 4)%nat /\ 5 = 5.
Proof.
  exact (cleanup_counts_are_table_differences sample_now retention_db _ _
           retention_db_cleanup).
Defined.

Lemma filter_filter_implied {A} (f g : A -> bool) (l : list A) :
  (forall x, g x = true -> f x = true) ->
  filter g (filter f l) = filter g l.
Proof.
  intros H. induction l as [| x l IH]; simpl; [reflexivity |].
  destruct (f x) eqn:Ef; simpl.
  - destruct (g x); [now rewrite IH | exact IH].
  - destruct (g x) eqn:Eg; [| exact IH].
    apply H in Eg. congruence.
Qed.

Lemma in_filter_incl {A} (f : A -> bool) (l : list A) (x : A) :
  In x (filter f l) -> In x l.
Proof. intros H. apply filter_In in H. tauto. Qed.

Lemma cleanup_raises_only_integrity (now : datetime) (db0 db1 : Database)
    (e : exn) :
  cleanup_old_data now db0 = (Raise e, db1) ->
  e = IntegrityError /\ db1 = db0.
Proof.
  unfold cleanup_old_data. destruct (still_referenced _ _ _); [| discriminate].
  intros H. injection H as <- <-. now split.
Qed.

Lemma database_eq (a b : Database) :
  customers a = customers b -> bookings a = bookings b ->
  support_logs a = support_logs b ->
  next_customer_id a = next_customer_id b -> a = b.
Proof. destruct a, b. simpl. now intros -> -> -> ->. Qed.

(** X13: two cleanups in a row amount to the later one alone: if a cleanup
    at [now1] completes and a cleanup at a later [now2] of what it left
    completes too, then a single cleanup at [now2] of the original tables
    completes, leaves the same tables, and deletes the sums of the two
    counts. *)
Theorem successive_cleanups_compose (now1 now2 : datetime)
    (db0 db1 db2 : Database) (d1 d2 : Deleted) :
  cleanup_old_data now1 db0 = (Ok d1, db1) ->
  cleanup_old_data now2 db1 = (Ok d2, db2) ->
  now1 <= now2 ->
  cleanup_old_data now2 db0
  = (Ok (mkDeleted (old_bookings d1 + old_bookings d2)
           (old_logs d1 + old_logs d2)
           (old_customers d1 + old_customers d2)),
     db2).
Proof.
  intros H1 H2 Hnow.
  assert (Hcut : cutoff_of now1 <= cutoff_of now2)
    by (unfold cutoff_of; lia).
  assert (Hfree1 : fst (cleanup_old_data now1 db0) <> Raise IntegrityError)
    by (rewrite H1; discriminate).
  assert (Hfree2 : fst (cleanup_old_data now2 db1) <> Raise IntegrityError)
    by (rewrite H2; discriminate).
  rewrite cleanup_blocked_iff in Hfree1, Hfree2.
  apply cleanup_completed in H1. apply cleanup_completed in H2.
  cbv zeta in H1, H2.
  destruct H1 as (Hb1 & Hl1 & Hc1 & Hn1 & Hd1).
  destruct H2 as (Hb2 & Hl2 & Hc2 & Hn2 & Hd2).
  set (young1 := fun b => negb (booking_is_old (cutoff_of now1) b)) in *.
  set (young2 := fun b => negb (booking_is_old (cutoff_of now2) b)) in *.
  set (fresh1 := fun l => negb (log_is_old (cutoff_of now1) l)) in *.
  set (fresh2 := fun l => negb (log_is_old (cutoff_of now2) l)) in *.
  assert (Hyoung : forall b, young2 b = true -> young1 b = true).
  { intros b. unfold young1, young2, booking_is_old.
    rewrite !negb_true_iff, !Z.ltb_ge. lia. }
  assert (Hfresh : forall l, fresh2 l = true -> fresh1 l = true).
  { intros l. unfold fresh1, fresh2, log_is_old.
    rewrite !negb_true_iff, !Z.ltb_ge. lia. }
  assert (Eb : filter young2 (bookings db1) = filter young2 (bookings db0))
    by (rewrite Hb1; now apply filter_filter_implied).
  assert (El : filter fresh2 (support_logs db1)
               = filter fresh2 (support_logs db0))
    by (rewrite Hl1; now apply filter_filter_implied).
  rewrite Eb in Hb2, Hc2, Hd2, Hfree2. rewrite El in Hl2.
  set (keep1 := distinct (map Booking.customer_id
                            (filter young1 (bookings db0)))) in *.
  set (keep2 := distinct (map Booking.customer_id
                            (filter young2 (bookings db0)))) in *.
  set (kept1 := fun c => id_in keep1 (Customer.customer_id c)) in *.
  set (kept2 := fun c => id_in keep2 (Customer.customer_id c)) in *.
  assert (Hkeep : forall c, kept2 c = true -> kept1 c = true).
  { intros c Hk. apply id_in_keep in Hk. apply id_in_keep.
    destruct Hk as (b & Hb & Hid). exists b. split; [| exact Hid].
    apply filter_In in Hb. apply filter_In.
    split; [tauto | apply Hyoung; tauto]. }
  assert (Ec : filter kept2 (customers db1) = filter kept2 (customers db0))
    by (rewrite Hc1; now apply filter_filter_implied).
  rewrite Ec in Hc2.
  destruct (cleanup_old_data now2 db0) as [[d | e] db'] eqn:H3.
  - apply cleanup_completed in H3. cbv zeta in H3.
    fold young2 fresh2 keep2 kept2 in H3.
    destruct H3 as (Hb3 & Hl3 & Hc3 & Hn3 & Hd3).
    f_equal.
    + f_equal. rewrite Hd3, Hd1, Hd2.
      cbn [old_bookings old_logs old_customers].
      pose proof (filter_length (booking_is_old (cutoff_of now1))
                    (bookings db0)) as A1.
      pose proof (filter_length (booking_is_old (cutoff_of now2))
                    (bookings db0)) as A2.
      pose proof (filter_length (booking_is_old (cutoff_of now2))
                    (bookings db1)) as A3.
      pose proof (filter_length (log_is_old (cutoff_of now1))
                    (support_logs db0)) as B1.
      pose proof (filter_length (log_is_old (cutoff_of now2))
                    (support_logs db0)) as B2.
      pose proof (filter_length (log_is_old (cutoff_of now2))
                    (support_logs db1)) as B3.
      pose proof (filter_length kept1 (customers db0)) as C1.
      pose proof (filter_length kept2 (customers db0)) as C2.
      pose proof (filter_length kept2 (customers db1)) as C3.
      fold young1 in A1. fold young2 in A2, A3.
      fold fresh1 in B1. fold fresh2 in B2, B3.
      rewrite Eb in A3. rewrite El in B3. rewrite Ec in C3.
      rewrite <- Hb1 in A1. rewrite <- Hl1 in B1. rewrite <- Hc1 in C1.
      unfold kept1, kept2 in C1, C2, C3. cbv beta in C1, C2, C3.
      f_equal; lia.
    + apply database_eq; congruence.
  - exfalso.
    assert (Hblocked : fst (cleanup_old_data now2 db0) = Raise IntegrityError).
    { rewrite H3. cbn [fst]. f_equal.
      now apply (cleanup_raises_only_integrity _ _ _ _ H3). }
    apply cleanup_blocked_iff in Hblocked.
    destruct Hblocked as (c & l & Hc & Hnb & Hl & Hy & Hid).
    fold young2 in Hnb.
    destruct (kept1 c) eqn:Hk.
    + apply Hfree2. exists c, l. rewrite Hc1, Hl1.
      repeat split; try assumption.
      * apply filter_In. now split.
      * apply filter_In. split; [exact Hl |].
        unfold fresh1, log_is_old. rewrite negb_true_iff, Z.ltb_ge. lia.
    + apply Hfree1. exists c, l. fold young1.
      repeat split; try assumption; [| lia].
      intros Hb. apply id_in_keep in Hb. fold keep1 in Hb.
      unfold kept1 in Hk. congruence.
Qed.

(** A cleanup at the expiry instant of Alice's stay of 2019, then the one
    of [sample_now]. *)
Example retention_db_early_cleanup :
  cleanup_old_data (expiry_instant (ymd 2019 3 10) + 1) retention_db
  = (Ok (mkDeleted 1 0 1),
     mkDatabase [alice; bob; carol]
       [stay 1 (ymd 2025 4 1) 5; stay 2 (ymd 2025 5 20) 2;
        stay 3 (ymd 2019 8 15) 3]
       [SupportLog.mk 3 (midnight (ymd 2019 8 16))
          "Guest complained about slow Wi-Fi in room.";
        SupportLog.mk 1 (midnight (ymd 2025 4 3))
          "Guest requested extra blankets due to cold weather."]
       5).
Proof. vm_compute. reflexivity. Qed.

Lemma successive_cleanups_compose_witness :
  cleanup_old_data sample_now retention_db
  = (Ok (mkDeleted (1 + 1) (0 + 1) (1 + 1)),
     mkDatabase [alice; bob]
       [stay 1 (ymd 2025 4 1) 5; stay 2 (ymd 2025 5 20) 2]
       [SupportLog.mk 1 (midnight (ymd 2025 4 3))
          "Guest requested extra blankets due to cold weather."]
       5).
Proof.
  apply (successive_cleanups_compose _ _ _ _ _ (mkDeleted 1 0 1)
           (mkDeleted 1 1 1) retention_db_early_cleanup).
  - vm_compute. reflexivity.
  - vm_compute. discriminate.
Defined.

(** X14: a cleanup fails only by rolling back, leaving the tables as they
    were, and it does so exactly when some customer left without a booking
    young enough to stay is still referenced by a support log that is
    young enough to stay. *)
Theorem cleanup_rolls_back_when_a_log_pins_a_customer (now : datetime)
    (db0 : Database) :
  (fst (cleanup_old_data now db0) = Raise IntegrityError
   <-> exists c l,
         In c (customers db0)
         /\ ~ has_booking
                (filter (fun b => negb (booking_is_old (cutoff_of now) b))
                   (bookings db0)) c
         /\ In l (support_logs db0)
         /\ cutoff_of now <= SupportLog.date l
         /\ SupportLog.customer_id l = Customer.customer_id c)
  /\ (forall e db1,
         cleanup_old_data now db0 = (Raise e, db1) ->
         e = IntegrityError /\ db1 = db0).
Proof.
  split; [apply cleanup_blocked_iff |].
  intros e db1. apply cleanup_raises_only_integrity.
Qed.

(** ** The pipelines over the modelled storage *)

(** X15: on a reachable store the weekly pipeline never lets an exception
    escape; it returns [True] with exactly [bookings_per_week] bookings
    added to what the cleanup step left (the tables as they were when the
    cleanup rolled back), or [False] because there was no customer at all
    to choose from; it keeps consistent tables consistent.  On an
    unreachable store it returns [False] and touches nothing. *)
Theorem weekly_pipeline_end_to_end (config : Config) (w : HotelWorld) :
  (reachable w = false -> hotel_weekly_pipeline config w = (Ok false, w))
  /\ (reachable w = true ->
      exists b w',
        hotel_weekly_pipeline config w = (Ok b, w')
        /\ clock w' = clock w
        /\ weekly_outcome config (snd (cleanup_old_data (clock w) (db w)))
             (if b then Ok tt else Raise IndexError, db w')
        /\ (db_consistent (db w) -> db_consistent (db w'))).
Proof.
  split; intros Hr.
  - unfold hotel_weekly_pipeline, run_weekly_pipeline, hotel_test_connection.
    now rewrite Hr.
  - pose proof (cleanup_old_data_consistent (clock w) (db w)) as Hclean.
    pose proof (generate_weekly_data_spec config (clock w)
                  (snd (cleanup_old_data (clock w) (db w))) (rng w)) as Hgen.
    pose proof (fun H => generate_weekly_data_consistent config (clock w)
                           (snd (cleanup_old_data (clock w) (db w))) H (rng w))
      as Hcons.
    cbv beta in Hgen, Hcons.
    unfold hotel_weekly_pipeline, run_weekly_pipeline, hotel_test_connection,
      hotel_cleanup, hotel_generate, hotel_verify.
    rewrite Hr. cbn [negb].
    destruct (cleanup_old_data (clock w) (db w)) as [[d | e] db'];
      cbn [snd] in *; cbn [reachable clock db rng];
      destruct (generate_weekly_data config (clock w) db' (rng w))
        as [[[[] | e'] db2] rng2]; cbn [fst snd] in *;
      cbn [reachable clock db rng].
    + exists true. eexists. split; [reflexivity |].
      split; [reflexivity |]. split; [exact Hgen | tauto].
    + exists false. eexists. split; [reflexivity |].
      split; [reflexivity |]. split; [| tauto].
      destruct Hgen as (_ & Hrest). exact (conj eq_refl Hrest).
    + exists true. eexists. split; [reflexivity |].
      split; [reflexivity |]. split; [exact Hgen | tauto].
    + exists false. eexists. split; [reflexivity |].
      split; [reflexivity |]. split; [| tauto].
      destruct Hgen as (_ & Hrest). exact (conj eq_refl Hrest).
Qed.

(** X16: on a reachable store the historical pipeline always returns
    [True]: the load commits [num_customers] new customers, each with at
    least one booking, and keeps consistent tables consistent.  On an
    unreachable store it returns [False] and touches nothing. *)
Theorem historical_pipeline_end_to_end (config : Config)
    (num_customers : nat) (w : HotelWorld) :
  (reachable w = false ->
   hotel_historical_pipeline config num_customers w = (Ok false, w))
  /\ (reachable w = true ->
      exists w',
        hotel_historical_pipeline config num_customers w = (Ok true, w')
        /\ clock w' = clock w
        /\ historical_outcome num_customers (db w) (Ok tt, db w')
        /\ (db_consistent (db w) -> db_consistent (db w'))).
Proof.
  split; intros Hr.
  - unfold hotel_historical_pipeline, run_historical_pipeline,
      hotel_test_connection.
    now rewrite Hr.
  - pose proof (generate_historical_data_spec config num_customers (clock w)
                  (db w) (rng w)) as Hgen.
    pose proof (fun H => generate_historical_data_consistent config
                           num_customers (clock w) (db w) H (rng w)) as Hcons.
    cbv beta in Hgen, Hcons.
    unfold hotel_historical_pipeline, run_historical_pipeline,
      hotel_test_connection, hotel_generate_historical, hotel_verify.
    rewrite Hr. cbn [negb].
    destruct (generate_historical_data config num_customers (clock w) (db w)
                (rng w)) as [[r db2] rng2].
    cbn [fst snd] in *.
    destruct Hgen as (saved & added & logs & after & E & Hrest).
    injection E as -> ->. cbn [reachable].
    eexists. split; [reflexivity |]. split; [reflexivity |].
    split; [| exact Hcons]. cbn [db].
    exists saved, added, logs, after. now split.
Qed.

Lemma sample_db_consistent : db_consistent sample_db.
Proof.
  unfold db_consistent, sample_db. cbn [customers bookings support_logs
    next_customer_id].
  repeat split.
  - cbn. repeat constructor; simpl; intuition discriminate.
  - repeat constructor.
  - repeat constructor.
  - repeat constructor.
Qed.

Lemma historical_pipeline_end_to_end_witness :
  hotel_historical_pipeline sample_config 2 offline_world
  = (Ok false, offline_world)
  /\ exists w',
       hotel_historical_pipeline sample_config 2 sample_world = (Ok true, w')
       /\ clock w' = sample_now
       /\ historical_outcome 2 sample_db (Ok tt, db w')
       /\ (db_consistent sample_db -> db_consistent (db w')).
Proof.
  split.
  - apply (proj1 (historical_pipeline_end_to_end sample_config 2
                    offline_world)).
    reflexivity.
  - apply (proj2 (historical_pipeline_end_to_end sample_config 2
                    sample_world)).
    reflexivity.
Defined.

Lemma weekly_pipeline_end_to_end_witness :
  hotel_weekly_pipeline sample_config offline_world = (Ok false, offline_world)
  /\ exists b w',
       hotel_weekly_pipeline sample_config stuck_world = (Ok b, w')
       /\ clock w' = sample_now
       /\ weekly_outcome sample_config stuck_db
            (if b then Ok tt else Raise IndexError, db w')
       /\ (db_consistent stuck_db -> db_consistent (db w')).
Proof.
  split.
  - apply (proj1 (weekly_pipeline_end_to_end sample_config offline_world)).
    reflexivity.
  - pose proof (proj2 (weekly_pipeline_end_to_end sample_config stuck_world)
                  eq_refl) as H.
    change (clock stuck_world) with sample_now in H.
    change (db stuck_world) with stuck_db in H.
    rewrite stuck_db_cleanup in H. exact H.
Defined.

Lemma generation_keeps_tables_consistent_witness :
  db_consistent
    (snd (fst (generate_weekly_data sample_config sample_now sample_db
                 short_tape)))
  /\ db_consistent
       (snd (fst (generate_historical_data sample_config 2 sample_now
                    sample_db short_tape))).
Proof.
  apply generation_keeps_tables_consistent. exact sample_db_consistent.
Defined.

Lemma cleanup_keeps_tables_consistent_witness :
  db_consistent (snd (cleanup_old_data sample_now sample_db)).
Proof.
  apply cleanup_keeps_tables_consistent. exact sample_db_consistent.
Defined.

(** ** Quality gate: what each validator accepts *)

Lemma has_duplicates_NoDup (ids : list Z) :
  has_duplicates ids = false <-> NoDup ids.
Proof.
  induction ids as [| i rest IH]; simpl.
  - split; [constructor | reflexivity].
  - rewrite orb_false_iff, IH. split.
    + intros [Hi Hr]. constructor; [| exact Hr].
      intros Hin. apply not_true_iff_false in Hi. apply Hi.
      apply existsb_exists. exists i. split; [exact Hin | apply Z.eqb_refl].
    + intros H. inversion H as [| ? ? Hi Hr]; subst. split; [| exact Hr].
      apply not_true_iff_false. intros E. apply existsb_exists in E.
      destruct E as (x & Hx & E). apply Z.eqb_eq in E. now subst.
Qed.

Lemma ids_duplicated_distinct (ids : option (list Z)) :
  ids_duplicated ids = false <-> ids_distinct ids.
Proof.
  destruct ids as [l |]; simpl; [apply has_duplicates_NoDup | tauto].
Qed.

Lemma booking_row_passes_iff (config : Config) (r : BookingsDF.row) :
  row_passes (booking_schema config) r = true <-> booking_row_valid config r.
Proof.
  unfold row_passes, booking_schema, booking_row_valid. cbn [forallb snd].
  rewrite !andb_true_iff, !isin_spec, !in_range_spec, !Qle_bool_iff, Z.ltb_lt.
  tauto.
Qed.

Lemma customer_row_passes_iff (r : CustomersDF.row) :
  row_passes customer_schema r = true <-> customer_row_valid r.
Proof.
  unfold row_passes, customer_schema, customer_row_valid. cbn [forallb snd].
  rewrite !andb_true_iff, !isin_spec, !in_range_spec. tauto.
Qed.

Lemma forallb_Forall {A} (f : A -> bool) (P : A -> Prop) (l : list A) :
  (forall x, f x = true <-> P x) -> (forallb f l = true <-> Forall P l).
Proof.
  intros H. rewrite forallb_forall, Forall_forall.
  split; intros HH x Hx; apply H, HH, Hx.
Qed.

(** X17: on a batch that has every column of [booking_schema] at the
    dtype the schema declares and no missing value (the batches of
    [BookingsDF.t]), [validate_bookings] accepts if and only if every row
    meets the value constraints of the schema (positive customer id,
    amount between 0 and [max_booking_amount], room type, channel and
    status in their enumerations, 1 to 10 adults, 0 to 10 children),
    every check-out is strictly after its check-in, the booking ids, when
    the column is present, are pairwise distinct, and every number of
    nights is within [min_nights_stay, max_nights_stay].  A batch with a
    column missing or at another dtype is outside this statement. *)
Theorem validate_bookings_accepts_iff (config : Config) (df : BookingsDF.t) :
  verdict_of (validate_bookings config df) = (true, None)
  <-> Forall (booking_row_valid config) (BookingsDF.rows df)
      /\ Forall (fun r => BookingsDF.check_in_date r
                          < BookingsDF.check_out_date r)
           (BookingsDF.rows df)
      /\ ids_distinct (BookingsDF.booking_id df)
      /\ Forall (fun r => min_nights_stay config <= nights_of r
                          <= max_nights_stay config)
           (BookingsDF.rows df).
Proof.
  assert (Hv : verdict_of (validate_bookings config df) = (true, None)
               <-> fst (verdict_of (validate_bookings config df)) = true).
  { destruct (validate_bookings_report config df) as [Hwf _].
    destruct (verdict_of (validate_bookings config df)) as [[] [m |]];
      simpl in *; split; intros H; try congruence; try tauto; discriminate. }
  rewrite Hv, validate_bookings_ok_iff.
  rewrite (forallb_Forall _ _ _ (booking_row_passes_iff config)).
  rewrite (forallb_Forall (fun r => negb (checks_out_late r))
             (fun r => BookingsDF.check_in_date r
                       < BookingsDF.check_out_date r)).
  2:{ intros r. unfold checks_out_late. rewrite negb_true_iff, Z.leb_gt.
      tauto. }
  rewrite (forallb_Forall (fun r => negb (nights_out_of_band config r))
             (fun r => min_nights_stay config <= nights_of r
                       <= max_nights_stay config)).
  2:{ intros r. unfold nights_out_of_band.
      rewrite negb_true_iff, orb_false_iff, !Z.ltb_ge. tauto. }
  rewrite ids_duplicated_distinct. tauto.
Qed.

(** X18: on a batch that has every column of [customer_schema] at the
    dtype the schema declares and no missing value (the batches of
    [CustomersDF.t]), [validate_customers] accepts if and only if every
    age is between 18 and 100, every job category is one of the three
    segments, and the customer ids, when the column is present, are
    pairwise distinct; a schema failure is reported before a duplicate id.
    A batch with a column missing or at another dtype is outside this
    statement. *)
Theorem validate_customers_accepts_iff (df : CustomersDF.t) :
  (verdict_of (validate_customers df) = (true, None)
   <-> Forall customer_row_valid (CustomersDF.rows df)
       /\ ids_distinct (CustomersDF.customer_id df))
  /\ (Forall customer_row_valid (CustomersDF.rows df) ->
      ~ ids_distinct (CustomersDF.customer_id df) ->
      verdict_of (validate_customers df)
      = (false, Some "Duplicate customer_ids found"))
  /\ (~ Forall customer_row_valid (CustomersDF.rows df) ->
      exists failure_cases,
        failure_cases <> []
        /\ verdict_of (validate_customers df)
           = (false, Some (String.append "Schema validation failed: "
                             (show_failure_cases failure_cases)))).
Proof.
  rewrite <- (forallb_Forall _ _ _ customer_row_passes_iff).
  rewrite <- schema_failures_nil. rewrite <- ids_duplicated_distinct.
  unfold validate_customers, verdict_of, ids_duplicated.
  destruct (schema_failures customer_schema (CustomersDF.rows df))
    as [| fc fcs].
  - destruct (match CustomersDF.customer_id df with
              | Some l => has_duplicates l
              | None => false
              end); cbn [fst].
    + split; [split; [discriminate | intros [_ H]; discriminate] |].
      split; [reflexivity |]. intros H. now destruct H.
    + split; [tauto |]. split; [intros _ H; now destruct H |].
      intros H. now destruct H.
  - cbn [fst]. split; [split; [discriminate | intros [H _]; discriminate] |].
    split; [intros H; discriminate |].
    intros _. exists (fc :: fcs). split; [discriminate | reflexivity].
Qed.

Lemma log_text_is_empty_false (cell : option string) :
  log_text_is_empty cell = false <-> text_present cell.
Proof.
  unfold text_present. destruct cell as [text |]; simpl.
  - rewrite String.eqb_neq. split.
    + intros H. now exists text.
    + intros (t & E & H). now injection E as ->.
  - split; [discriminate | intros (t & E & _); discriminate].
Qed.

Lemma existsb_false_Forall {A} (f : A -> bool) (P : A -> Prop) (l : list A) :
  (forall x, f x = false <-> P x) -> (existsb f l = false <-> Forall P l).
Proof.
  intros H. induction l as [| x l IH]; simpl.
  - split; [constructor | reflexivity].
  - rewrite orb_false_iff, IH, H. split.
    + intros [H1 H2]. now constructor.
    + intros HH. inversion HH; subst. now split.
Qed.


(** X20: validating a bookings batch a second time changes nothing more:
    the verdict and the printed lines are those of the first call, and the
    DataFrame left by the first call is left identical by the second (its
    [nights] column is recomputed to the same values). *)
Theorem validate_bookings_twice (config : Config) (df : BookingsDF.t) :
  let once := validate_bookings config df in
  let twice := validate_bookings config (frame_after once) in
  verdict_of twice = verdict_of once
  /\ printed twice = printed once
  /\ frame_after twice = frame_after once.
Proof.
  cbv zeta.
  assert (Hsame : forall rows ids n1 n2,
             verdict_of (validate_bookings config (BookingsDF.mk rows ids n1))
             = verdict_of (validate_bookings config (BookingsDF.mk rows ids n2))
             /\ printed (validate_bookings config (BookingsDF.mk rows ids n1))
                = printed (validate_bookings config
                             (BookingsDF.mk rows ids n2))).
  { intros rows ids n1 n2. unfold validate_bookings, verdict_of, printed.
    cbn [BookingsDF.rows BookingsDF.booking_id].
    destruct (schema_failures _ _); [| now split].
    destruct (negb (is_empty (filter _ _))); [now split |].
    destruct (match ids with
              | Some l => has_duplicates l
              | None => false
              end); [now split |].
    destruct (negb (is_empty (filter _ _))); now split. }
  rewrite (validate_bookings_frame config (frame_after _)).
  rewrite (validate_bookings_frame config df).
  destruct df as [rows ids n].
  destruct (reaches_nights_check config (BookingsDF.mk rows ids n)) eqn:E.
  - assert (E' : reaches_nights_check config
                   (BookingsDF.mk rows ids (Some (map nights_of rows)))
                 = true) by exact E.
    cbn [BookingsDF.rows BookingsDF.booking_id]. rewrite E'.
    cbn [BookingsDF.rows BookingsDF.booking_id].
    destruct (Hsame rows ids (Some (map nights_of rows)) n) as [H1 H2].
    now repeat split.
  - rewrite E. now repeat split.
Qed.

(** X22: the audit frame built from the rows of [support_logs]: from an
    empty table there is no column at all, so the audit fails with the
    missing-columns message; from a non-empty table the audit passes if
    and only if no text is empty and every customer id is positive, which
    is the case of the logs the generator draws for customers with a
    positive id. *)
Theorem support_log_audit (logs : list SupportLog.t) :
  (logs = [] ->
   verdict_of (validate_support_logs (logs_dataframe logs))
   = (false,
      Some "Missing required columns: ['customer_id', 'date', 'log_text']"))
  /\ (logs <> [] ->
      (verdict_of (validate_support_logs (logs_dataframe logs)) = (true, None)
       <-> Forall (fun l => SupportLog.log_text l <> ""
                            /\ 0 < SupportLog.customer_id l) logs))
  /\ (forall now customer n s,
         0 < Customer.customer_id customer ->
         logs = fst (generate_support_logs_for_customer now customer n s) ->
         logs <> [] ->
         verdict_of (validate_support_logs (logs_dataframe logs))
         = (true, None)).
Proof.
  assert (Hiff : logs <> [] ->
                 (verdict_of (validate_support_logs (logs_dataframe logs))
                  = (true, None)
                  <-> Forall (fun l => SupportLog.log_text l <> ""
                                       /\ 0 < SupportLog.customer_id l) logs)).
  { intros Hne.
    assert (Hframe : logs_dataframe logs
                     = LogsDF.mk (Some (map SupportLog.customer_id logs))
                         (Some (map SupportLog.date logs))
                         (Some (map (fun l => Some (SupportLog.log_text l))
                                  logs)))
      by (destruct logs; [congruence | reflexivity]).
    rewrite Hframe.
    pose proof (existsb_false_Forall log_text_is_empty text_present
                  (map (fun l => Some (SupportLog.log_text l)) logs)
                  log_text_is_empty_false) as Ht.
    pose proof (existsb_false_Forall (fun id => id <=? 0) (fun id => 0 < id)
                  (map SupportLog.customer_id logs)
                  (fun id => Z.leb_gt id 0)) as Hi.
    rewrite Forall_map in Ht, Hi.
    assert (Hboth : Forall (fun l => SupportLog.log_text l <> ""
                                     /\ 0 < SupportLog.customer_id l) logs
                    <-> Forall (fun l => text_present
                                           (Some (SupportLog.log_text l))) logs
                        /\ Forall (fun l => 0 < SupportLog.customer_id l) logs).
    { rewrite !Forall_forall. split.
      - intros H. split; intros l Hl; destruct (H l Hl) as [H1 H2];
          [now exists (SupportLog.log_text l) | exact H2].
      - intros [H1 H2] l Hl. split; [| now apply H2].
        destruct (H1 l Hl) as (t & E & Hn). now injection E as <-. }
    rewrite Hboth, <- Ht, <- Hi.
    unfold validate_support_logs, verdict_of.
    cbn [LogsDF.customer_id LogsDF.date LogsDF.log_text].
    destruct (existsb log_text_is_empty _); cbn [fst].
    - split; [discriminate | intros [H _]; discriminate].
    - destruct (existsb (fun id => id <=? 0) _); cbn [fst].
      + split; [discriminate | intros [_ H]; discriminate].
      + tauto. }
  split; [now intros -> |]. split; [exact Hiff |].
  intros now customer n s Hpos -> Hne. apply Hiff; [exact Hne |].
  destruct (generate_support_logs_ok now customer n s) as [_ Hall].
  eapply Forall_impl; [| exact Hall].
  intros l (Hid & Ht & He). split; [| now rewrite Hid].
  intros E. simpl in He. rewrite E in He. discriminate.
Qed.

Lemma support_log_audit_witness :
  verdict_of (validate_support_logs (logs_dataframe []))
  = (false,
     Some "Missing required columns: ['customer_id', 'date', 'log_text']")
  /\ verdict_of
       (validate_support_logs
          (logs_dataframe
             (fst (generate_support_logs_for_customer sample_now alice 2
                     short_tape))))
     = (true, None).
Proof.
  split.
  - now apply (proj1 (support_log_audit [])).
  - apply (proj2 (proj2 (support_log_audit _)) sample_now alice 2%nat
             short_tape).
    + reflexivity.
    + reflexivity.
    + vm_compute. discriminate.
Defined.

(** ** A fresh load and the retention window *)

Lemma fake_date_time_between_range (start_date end_date : datetime) :
  start_date <= end_date ->
  always (fun d => start_date <= d <= end_date)
    (fake_date_time_between start_date end_date).
Proof. apply uniform_date_range. Qed.

Lemma two_years_before_le (now : datetime) :
  now - timedelta_days 731 <= two_years_before now <= now.
Proof.
  unfold two_years_before, timedelta_days.
  assert (E : Qfloor ((36524 # 100) * 2 * inject_Z usec_per_day)
              = 63113472000000) by (vm_compute; reflexivity).
  rewrite E. unfold usec_per_day. lia.
Qed.

Lemma maybe_support_logs_dates (now : datetime) (customer : Customer.t) :
  always (Forall (fun l => now - timedelta_days 731 <= SupportLog.date l))
    (maybe_support_logs now customer).
Proof.
  unfold maybe_support_logs.
  apply (always_bind (fun _ => True)); [apply always_trivial |]. intros r _.
  destruct (Qltb r 0.3); [| apply always_ret; constructor].
  apply (always_bind (fun _ => True)); [apply always_trivial |]. intros z _.
  unfold generate_support_logs_for_customer. apply always_for_range.
  pose proof (two_years_before_le now) as Htwo.
  apply (always_bind (fun d => two_years_before now <= d <= now)).
  { apply fake_date_time_between_range. lia. }
  intros d Hd.
  apply (always_bind (fun _ => True)); [apply always_trivial |]. intros t _.
  apply always_ret. cbn [SupportLog.date]. lia.
Qed.

Lemma midnight_date_of (t : datetime) :
  t - usec_per_day < midnight (date_of t) <= t.
Proof.
  unfold midnight, date_of, usec_per_day.
  pose proof (Z.div_mod t 86400000000 ltac:(lia)).
  pose proof (Z.mod_pos_bound t 86400000000 ltac:(lia)). lia.
Qed.

Lemma recent_bookings_dates (config : Config) (customer : Customer.t)
    (now : datetime) :
  always (outcome (Forall (fun b => now - timedelta_days 1461
                                    < midnight (Booking.check_in_date b)))
            never)
    (generate_bookings_for_customer config customer
       (now - timedelta_days (4 * 365)) now).
Proof.
  intros s.
  pose proof (four_years_are_forward now) as Hd.
  pose proof (generate_bookings_forward config customer _ _ Hd s) as Hfw.
  pose proof (generate_bookings_drawn config customer
                (now - timedelta_days (4 * 365)) now s) as Hdr.
  cbv beta in Hfw, Hdr.
  destruct (fst (generate_bookings_for_customer config customer
                   (now - timedelta_days (4 * 365)) now s)) as [bs | e];
    cbn [outcome] in *; [| exact Hfw].
  eapply Forall_impl; [| exact Hdr].
  intros b (u & r & _ & _ & _ & _ & Hin).
  specialize (Hin Hd).
  pose proof (midnight_date_of (now - timedelta_days (4 * 365))) as Hm.
  unfold midnight, timedelta_days, usec_per_day in *. lia.
Qed.

Lemma Forall_concat_parts {A B} (P : A -> list B -> Prop) (Q : B -> Prop)
    (xs : list A) (parts : list (list B)) :
  (forall x part, P x part -> Forall Q part) ->
  Forall2 P xs parts -> Forall Q (List.concat parts).
Proof.
  intros H HF. apply Forall_forall. intros y Hy.
  destruct (concat_member _ _ _ _ HF Hy) as (x & part & _ & HP & Hin).
  specialize (H x part HP). rewrite Forall_forall in H. now apply H.
Qed.

Lemma generate_historical_data_dates (config : Config) (num_customers : nat)
    (now : datetime) (db0 : Database) :
  bookings db0 = [] -> support_logs db0 = [] ->
  always (fun out =>
            Forall (fun b => now - timedelta_days 1461
                             < midnight (Booking.check_in_date b))
              (bookings (snd out))
            /\ Forall (fun l => now - timedelta_days 731 <= SupportLog.date l)
                 (support_logs (snd out)))
    (generate_historical_data config num_customers now db0).
Proof.
  intros Hb0 Hl0. unfold generate_historical_data.
  apply (always_bind (fun _ => True)); [apply always_trivial |].
  intros news _. unfold add_all_customers.
  set (saved := assign_ids (next_customer_id db0) news).
  cbv beta iota zeta.
  apply (always_bind _ _ _ _
           (for_each_extend_try_spec
              (fun (c : Customer.t) bs =>
                 Forall (fun b => now - timedelta_days 1461
                                  < midnight (Booking.check_in_date b)) bs)
              never saved _
              (fun c => recent_bookings_dates config c now))).
  intros [all_bookings | e] Hall; [| destruct Hall].
  destruct Hall as (parts & -> & Hparts).
  pose proof (Forall_concat_parts _ _ _ _ (fun _ _ H => H) Hparts) as Hbs.
  unfold add_all_bookings. cbn [customers bookings support_logs
    next_customer_id].
  destruct (forallb _ (List.concat parts)).
  - apply (always_bind _ _ _ _
             (for_each_extend_spec
                (fun (c : Customer.t) ls =>
                   Forall (fun l => now - timedelta_days 731
                                    <= SupportLog.date l) ls)
                saved _ (maybe_support_logs_dates now))).
    intros all_logs (lparts & -> & Hlparts).
    pose proof (Forall_concat_parts _ _ _ _ (fun _ _ H => H) Hlparts) as Hls.
    apply always_ret. unfold add_all_logs.
    cbn [customers bookings support_logs next_customer_id].
    destruct (forallb _ (List.concat lparts));
      cbn [snd bookings support_logs]; rewrite Hb0, Hl0; cbn [app].
    + now split.
    + split; [exact Hbs | constructor].
  - apply always_ret. cbn [snd bookings support_logs]. rewrite Hb0, Hl0.
    split; constructor.
Qed.

(** X23: a dataset loaded by [generate_historical_data] into empty tables
    survives the retention cleanup for 364 days: a cleanup run at any time
    up to 364 days after the load completes and deletes no booking, no
    support log and no customer (every booking is at most 4 years and a
    day old, every log at most 731 days, every customer has a booking). *)
Theorem fresh_load_survives_cleanup (config : Config) (num_customers : nat)
    (now later : datetime) (db0 : Database) (s : RandomSource) :
  customers db0 = [] -> bookings db0 = [] -> support_logs db0 = [] ->
  later <= now + timedelta_days 364 ->
  let loaded :=
    snd (fst (generate_historical_data config num_customers now db0 s)) in
  cleanup_old_data later loaded = (Ok (mkDeleted 0 0 0), loaded).
Proof.
  intros Hc0 Hb0 Hl0 Hlater loaded.
  pose proof (generate_historical_data_spec config num_customers now db0 s)
    as Hspec.
  pose proof (generate_historical_data_dates config num_customers now db0
                Hb0 Hl0 s) as [Hbd Hld].
  cbv beta in Hspec. fold loaded in Hbd, Hld.
  destruct Hspec as (saved & added & logs & after & E & Hcs & _ & _ & Hbs
                     & _ & Hhas & _).
  assert (Hafter : loaded = after) by (unfold loaded; now rewrite E).
  rewrite <- Hafter in Hcs, Hbs. rewrite Hc0 in Hcs. rewrite Hb0 in Hbs.
  cbn [app] in Hcs, Hbs.
  rewrite Forall_forall in Hbd, Hld, Hhas.
  apply cleanup_nothing_to_do.
  - intros b Hb. specialize (Hbd b Hb). unfold booking_is_old.
    apply Z.ltb_ge. unfold cutoff_of, retention_window, timedelta_days in *.
    lia.
  - intros l Hl. specialize (Hld l Hl). unfold log_is_old.
    apply Z.ltb_ge. unfold cutoff_of, retention_window, timedelta_days,
      usec_per_day in *. lia.
  - intros c Hc. rewrite Hcs in Hc. rewrite Hbs. now apply Hhas.
Qed.

Lemma fresh_load_survives_cleanup_witness :
  let loaded :=
    snd (fst (generate_historical_data sample_config 2 sample_now empty_db
                short_tape)) in
  cleanup_old_data (sample_now + timedelta_days 364) loaded
  = (Ok (mkDeleted 0 0 0), loaded).
Proof.
  apply (fresh_load_survives_cleanup sample_config 2 sample_now
           (sample_now + timedelta_days 364) empty_db short_tape);
    [reflexivity | reflexivity | reflexivity | lia].
Defined.

(** ** Instances *)

Lemma cancellation_rate_edges_witness :
  Forall (fun b => Booking.status b = "Checked-Out")
    (produced
       (fst (generate_bookings_for_customer never_cancel_config bob
               (four_years_ago sample_now) sample_now short_tape)))
  /\ Forall (fun b => In (Booking.status b) ["Cancelled"; "No-Show"])
       (produced
          (fst (generate_bookings_for_customer always_cancel_config bob
                  (four_years_ago sample_now) sample_now short_tape))).
Proof.
  split.
  - eapply Forall_impl;
      [| apply (cancellation_rate_edges never_cancel_config bob
                  (four_years_ago sample_now) sample_now short_tape)].
    intros b (_ & H & _). apply H. vm_compute. discriminate.
  - eapply Forall_impl;
      [| apply (cancellation_rate_edges always_cancel_config bob
                  (four_years_ago sample_now) sample_now short_tape)].
    intros b (_ & _ & H). apply H. vm_compute. discriminate.
Defined.

Lemma validate_customers_accepts_iff_witness :
  verdict_of (validate_customers twin_customers)
  = (false, Some "Duplicate customer_ids found").
Proof.
  apply (proj1 (proj2 (validate_customers_accepts_iff twin_customers))).
  - repeat constructor; simpl; lia || tauto.
  - simpl. intros H. inversion H as [| ? ? Hin _]; subst.
    apply Hin. now left.
Defined.


Lemma cleanup_rolls_back_when_a_log_pins_a_customer_witness :
  exists c l,
    In c (customers stuck_db)
    /\ ~ has_booking
           (filter (fun b => negb (booking_is_old (cutoff_of sample_now) b))
              (bookings stuck_db)) c
    /\ In l (support_logs stuck_db)
    /\ cutoff_of sample_now <= SupportLog.date l
    /\ SupportLog.customer_id l = Customer.customer_id c.
Proof.
  apply (proj1 (proj1 (cleanup_rolls_back_when_a_log_pins_a_customer
                         sample_now stuck_db))).
  now rewrite stuck_db_cleanup.
Defined.
